(** * SIRET enrichment scripts: a shallow embedding

    The repository holds four variants of one batch script.  The canonical
    one is [enrich_sirets_insee_progress.py] (module [Progress]); the lookup
    loop of [enrich_sirets_insee_1.py] (module [V1]) and the start-up of
    [enrich_sirets_insee_v2.py] (module [V2]) are embedded next to it, since
    they differ from the canonical variant exactly where the specification
    speaks about token renewal, invalid identifiers and exit statuses.

    Conventions of the embedding.
    - Python [str] is [string]; the model covers text of 8-bit characters
      (code points below 256), with the digits and the white space that
      [\d], [str.isdigit], [str.isspace] and [str.splitlines] see among
      them.
    - A decoded JSON document is a [json] tree; a Python [dict] is an
      association list in insertion order, read with [dict.get].
    - Durations handed to [time.sleep] are rationals, accepted from zero up
      to the largest count of nanoseconds a signed 64-bit integer holds;
      [float(s)] of a string of decimal digits is the integer it denotes.
    - The network is an oracle: the [k]-th GET (resp. POST) of the run is
      answered by [http_get w k] (resp. [http_post w k]).  Every effect is
      appended to a trace of events.
    - What lies around the process is an oracle as well: the environment,
      the [.env] file, the input file, the generation of pandas, whether
      [tqdm] can be imported, and what the spreadsheet writer refuses before
      it writes a cell.  The calls on a [tqdm] bar, which draws on the
      standard error, are events of the trace.
    - The [timeout] argument of the requests is left out: its expiry is one
      of the request errors the oracle may answer.  Writing to the log file
      and to the checkpoint file is taken to succeed. *)

From Stdlib Require Import String Ascii List ZArith QArith Lia Bool DecimalString.
From Stdlib Require Import Sorting.Sorted Structures.OrderedTypeEx.
Import ListNotations.

Set Warnings "-register-all".

Open Scope string_scope.
Open Scope Z_scope.

(* ------------------------------------------------------------------ *)
(** ** Text *)

Module Text.

Definition isdigit (c : ascii) : bool :=
  ((48 <=? N_of_ascii c) && (N_of_ascii c <=? 57))%N.

(** Characters for which [str.isspace] holds: the ASCII ones, the next
    line control and the no-break space. *)
Definition isspace (c : ascii) : bool :=
  let n := N_of_ascii c in
  (((9 <=? n) && (n <=? 13)) || ((28 <=? n) && (n <=? 32))
   || (n =? 133) || (n =? 160))%N.

(** The superscripts two, three and one: digits for [str.isdigit], but
    neither matched by [\d] nor read by [float]. *)
Definition superscript (c : ascii) : bool :=
  let n := N_of_ascii c in
  ((n =? 178) || (n =? 179) || (n =? 185))%N.

Fixpoint filter_chars (p : ascii -> bool) (s : string) : string :=
  match s with
  | EmptyString => EmptyString
  | String c r => if p c then String c (filter_chars p r) else filter_chars p r
  end.

Fixpoint forall_chars (p : ascii -> bool) (s : string) : bool :=
  match s with
  | EmptyString => true
  | String c r => p c && forall_chars p r
  end.

(** [re.sub(r"\D+", "", s)]: every maximal run of non-digits is removed. *)
Definition strip_non_digits (s : string) : string := filter_chars isdigit s.

(** [s.isdigit()]: non-empty and made of digits only, superscripts
    included. *)
Definition str_isdigit (s : string) : bool :=
  negb (s =? "")%string && forall_chars (fun c => isdigit c || superscript c) s.

Fixpoint lstrip_with (p : ascii -> bool) (s : string) : string :=
  match s with
  | EmptyString => EmptyString
  | String c r => if p c then lstrip_with p r else s
  end.

Fixpoint rev_string (acc s : string) : string :=
  match s with
  | EmptyString => acc
  | String c r => rev_string (String c acc) r
  end.

Definition rstrip_with (p : ascii -> bool) (s : string) : string :=
  rev_string "" (lstrip_with p (rev_string "" s)).

Definition strip_with (p : ascii -> bool) (s : string) : string :=
  rstrip_with p (lstrip_with p s).

(** [s.strip()] *)
Definition strip (s : string) : string := strip_with isspace s.

(** [s.strip(c)] for a one-character argument. *)
Definition strip_char (c : ascii) (s : string) : string :=
  strip_with (Ascii.eqb c) s.

(** [s[:n]] *)
Definition take (n : nat) (s : string) : string := substring 0 n s.

(** Value of a string of decimal digits, most significant first. *)
Fixpoint digits_value (acc : Z) (s : string) : Z :=
  match s with
  | EmptyString => acc
  | String c r => digits_value (10 * acc + (Z.of_N (N_of_ascii c) - 48)) r
  end.

Definition str_of_nat (n : nat) : string :=
  NilEmpty.string_of_uint (Nat.to_uint n).

Definition str_of_Z (z : Z) : string :=
  NilZero.string_of_int (Z.to_int z).

(** [sep.join(l)] *)
Definition join (sep : string) (l : list string) : string := String.concat sep l.

(** Characters at which [str.splitlines] cuts. *)
Definition is_linebreak (c : ascii) : bool :=
  let n := N_of_ascii c in
  (((10 <=? n) && (n <=? 13)) || ((28 <=? n) && (n <=? 30)) || (n =? 133))%N.

(** [s.splitlines()]; [cur] holds the current line, reversed. *)
Fixpoint splitlines_from (cur : string) (s : string) : list string :=
  match s with
  | EmptyString =>
      match cur with
      | EmptyString => []
      | _ => [rev_string "" cur]
      end
  | String c r =>
      if is_linebreak c then
        match r with
        | String c' r' =>
            if ((N_of_ascii c =? 13) && (N_of_ascii c' =? 10))%N
            then rev_string "" cur :: splitlines_from "" r'
            else rev_string "" cur :: splitlines_from "" r
        | EmptyString => [rev_string "" cur]
        end
      else splitlines_from (String c cur) r
  end.

Definition splitlines (s : string) : list string := splitlines_from "" s.

(** [s.split(c, 1)] when [c] occurs in [s]: the text before and after the
    first occurrence; [None] when [c] does not occur. *)
Fixpoint split_once (c : ascii) (s : string) : option (string * string) :=
  match s with
  | EmptyString => None
  | String x r =>
      if Ascii.eqb x c then Some ("", r)
      else match split_once c r with
           | Some (a, b) => Some (String x a, b)
           | None => None
           end
  end.

(** [s.split(c)] *)
Fixpoint split_from (c : ascii) (cur : string) (s : string) : list string :=
  match s with
  | EmptyString => [rev_string "" cur]
  | String x r =>
      if Ascii.eqb x c then rev_string "" cur :: split_from c "" r
      else split_from c (String x cur) r
  end.

Definition split (c : ascii) (s : string) : list string := split_from c "" s.

(** [s.startswith(p)] *)
Definition startswith (p s : string) : bool := String.prefix p s.

(** [s.rfind(c)]: index of the last occurrence, [None] for -1. *)
Fixpoint rfind (c : ascii) (s : string) : option nat :=
  match s with
  | EmptyString => None
  | String x r =>
      match rfind c r with
      | Some i => Some (S i)
      | None => if Ascii.eqb x c then Some 0%nat else None
      end
  end.

(** [s[i:]] *)
Definition drop (i : nat) (s : string) : string :=
  substring i (String.length s - i) s.

End Text.

(* ------------------------------------------------------------------ *)
(** ** Python values and exceptions *)

Inductive json : Type :=
| JNull
| JBool (b : bool)
| JInt (z : Z)
| JFloat (q : Q)
| JStr (s : string)
| JList (l : list json)
| JDict (d : list (string * json)).

Definition dict := list (string * json).

(** A row of the result accumulator: a Python dict with string keys. *)
Definition record := dict.

Inductive exn : Type :=
| HTTPError (status : Z) (msg : string)
| RequestError (msg : string)
| AttributeError (msg : string)
| TypeError (msg : string)
| KeyError (msg : string)
| IndexError (msg : string)
| ValueError (msg : string)
| ZeroDivisionError (msg : string)
| OverflowError (msg : string)
| IllegalCharacterError (msg : string).   (* openpyxl *)

(** [str(e)] *)
Definition str_exn (e : exn) : string :=
  match e with
  | HTTPError _ m | RequestError m | AttributeError m | TypeError m
  | KeyError m | IndexError m | ValueError m | ZeroDivisionError m
  | OverflowError m | IllegalCharacterError m => m
  end.

(** Pure code that may raise. *)
Inductive res (A : Type) : Type :=
| Ok (a : A)
| Err (e : exn).
Arguments Ok {A} a.
Arguments Err {A} e.

Definition res_bind {A B} (r : res A) (k : A -> res B) : res B :=
  match r with
  | Ok a => k a
  | Err e => Err e
  end.

Declare Scope res_scope.
Delimit Scope res_scope with res.
Notation "x <- r ;; k" := (res_bind r (fun x => k))
  (at level 100, r at next level, right associativity) : res_scope.

Module Py.

(** Truth value of a Python object ([bool(v)]). *)
Definition truthy (v : json) : bool :=
  match v with
  | JNull => false
  | JBool b => b
  | JInt z => negb (z =? 0)
  | JFloat q => negb (Qeq_bool q 0)
  | JStr s => negb (s =? "")%string
  | JList l => match l with [] => false | _ => true end
  | JDict d => match d with [] => false | _ => true end
  end.

(** [a or b] with a literal or a variable as second operand. *)
Definition or_ (a b : json) : json := if truthy a then a else b.

(** [a or b] where [b] is a call, evaluated only when [a] is falsy. *)
Definition or_else (a : json) (b : res json) : res json :=
  if truthy a then Ok a else b.

Definition type_name (v : json) : string :=
  match v with
  | JNull => "NoneType"
  | JBool _ => "bool"
  | JInt _ => "int"
  | JFloat _ => "float"
  | JStr _ => "str"
  | JList _ => "list"
  | JDict _ => "dict"
  end.

Fixpoint lookup (d : dict) (k : string) : option json :=
  match d with
  | [] => None
  | (k', v) :: r => if (k' =? k)%string then Some v else lookup r k
  end.

(** [d.get(k, default)] on a dict. *)
Definition dict_get (d : dict) (k : string) (default : json) : json :=
  match lookup d k with
  | Some v => v
  | None => default
  end.

Definition no_get (v : json) : exn :=
  AttributeError ("'" ++ type_name v ++ "' object has no attribute 'get'").

(** [v.get(k, default)] on any object: only dicts have [get]. *)
Definition get_or (v : json) (k : string) (default : json) : res json :=
  match v with
  | JDict d => Ok (dict_get d k default)
  | _ => Err (no_get v)
  end.

(** [v.get(k)] *)
Definition get (v : json) (k : string) : res json := get_or v k JNull.

Definition not_subscriptable (v : json) : exn :=
  TypeError ("'" ++ type_name v ++ "' object is not subscriptable").

(** [v[0]] for a truthy [v]. *)
Definition item0 (v : json) : res json :=
  match v with
  | JList (x :: _) => Ok x
  | JList [] => Err (IndexError "list index out of range")
  | JStr (String c _) => Ok (JStr (String c ""))
  | JStr EmptyString => Err (IndexError "string index out of range")
  | JDict _ => Err (KeyError "0")
  | _ => Err (not_subscriptable v)
  end.

(** [v[:n]] *)
Definition slice_to (n : nat) (v : json) : res json :=
  match v with
  | JStr s => Ok (JStr (Text.take n s))
  | JList l => Ok (JList (firstn n l))
  | JDict _ => Err (TypeError "unhashable type: 'slice'")
  | _ => Err (not_subscriptable v)
  end.

Section Str.

(** [str(v)] on floats, lists and dicts is Python's [repr]; its text is
    left open, nothing below depends on it. *)
Variable repr : json -> string.

Definition str (v : json) : string :=
  match v with
  | JNull => "None"
  | JBool true => "True"
  | JBool false => "False"
  | JInt z => Text.str_of_Z z
  | JStr s => s
  | _ => repr v
  end.

(** [float(s)] for a text that passed [s.isdigit()]: the integer it
    denotes, unless a superscript is in it. *)
Definition float_of_digits (s : string) : res Q :=
  if negb (s =? "")%string && Text.forall_chars Text.isdigit s
  then Ok (inject_Z (Text.digits_value 0 s))
  else Err (ValueError ("could not convert string to float: " ++ repr (JStr s))).

End Str.

(** [sep.join(items)]: every item has to be a [str]. *)
Fixpoint join_from (i : nat) (items : list json) : res (list string) :=
  match items with
  | [] => Ok []
  | JStr s :: r =>
      match join_from (S i) r with
      | Ok l => Ok (s :: l)
      | Err e => Err e
      end
  | v :: _ =>
      Err (TypeError ("sequence item " ++ Text.str_of_nat i
                      ++ ": expected str instance, " ++ type_name v ++ " found"))
  end.

Definition join (sep : string) (items : list json) : res string :=
  match join_from 0 items with
  | Ok l => Ok (Text.join sep l)
  | Err e => Err e
  end.

End Py.

(* ------------------------------------------------------------------ *)
(** ** Effects: network oracle, trace of events, exceptions and exit *)

Record response : Type := {
  status_code : Z;
  reason : string;
  retry_after : option string;   (* r.headers.get("Retry-After") *)
  body : res json                (* r.json(): the decoded body, or the decoding error *)
}.

Inductive reply : Type :=
| NoResponse (e : exn)           (* requests raised: connection error, timeout *)
| Response (r : response).

Record world : Type := {
  http_get : nat -> reply;       (* answer to the k-th GET of the run *)
  http_post : nat -> reply       (* answer to the k-th POST of the run *)
}.

(** The calls on a [tqdm] progress bar. *)
Inductive bar_call : Type :=
| BarOpen (total : Z)            (* tqdm(total=..., unit="siret", dynamic_ncols=True) *)
| BarUpdate (v : Z)              (* pbar.update(v) *)
| BarClose.                      (* pbar.close() *)

Inductive event : Type :=
| Get (url : string) (headers : list (string * string))
| Post (url : string) (client_id client_secret : string)
| Sleep (d : Q)
| Stdout (line : string)
| Stderr (line : string)
| Append (path line : string)
| WriteCsv (path : string) (header : list string) (lines : list (list json))
| WriteExcel (path : string) (rows : list record)
| Bar (c : bar_call).            (* the bar draws on the standard error *)

Record state : Type := {
  gets : nat;                    (* GET requests made so far *)
  posts : nat;                   (* POST requests made so far *)
  trace : list event;
  shared_headers : list (string * string)
                                 (* the [headers] dict of the variant that
                                    updates it in place *)
}.

Definition initial : state :=
  {| gets := 0; posts := 0; trace := []; shared_headers := [] |}.

Inductive outcome (A : Type) : Type :=
| Done (a : A)
| Raised (e : exn)               (* an exception is propagating *)
| Exited (code : Z)              (* sys.exit(code) *)
| OutOfFuel.                     (* the bound given to a loop did not suffice *)
Arguments Done {A} a.
Arguments Raised {A} e.
Arguments Exited {A} code.
Arguments OutOfFuel {A}.

Definition M (A : Type) : Type := state -> outcome A * state.

Module Eff.

Definition ret {A} (a : A) : M A := fun st => (Done a, st).

Definition bind {A B} (m : M A) (k : A -> M B) : M B :=
  fun st =>
    match m st with
    | (Done a, st') => k a st'
    | (Raised e, st') => (Raised e, st')
    | (Exited c, st') => (Exited c, st')
    | (OutOfFuel, st') => (OutOfFuel, st')
    end.

Definition raise {A} (e : exn) : M A := fun st => (Raised e, st).

Definition sys_exit {A} (code : Z) : M A := fun st => (Exited code, st).

Definition out_of_fuel {A} : M A := fun st => (OutOfFuel, st).

(** [try: m  except Exception as e: h e].  [SystemExit] is not an
    [Exception] and passes through. *)
Definition try_ {A} (m : M A) (h : exn -> M A) : M A :=
  fun st =>
    match m st with
    | (Raised e, st') => h e st'
    | r => r
    end.

Definition lift {A} (r : res A) : M A :=
  match r with
  | Ok a => ret a
  | Err e => raise e
  end.

Definition emit (ev : event) : M unit :=
  fun st => (Done tt, {| gets := gets st; posts := posts st;
                         trace := trace st ++ [ev];
                         shared_headers := shared_headers st |}).

Definition read_headers : M (list (string * string)) :=
  fun st => (Done (shared_headers st), st).

Definition write_headers (h : list (string * string)) : M unit :=
  fun st => (Done tt, {| gets := gets st; posts := posts st;
                         trace := trace st; shared_headers := h |}).

(** The longest sleep, in seconds: 2^63 - 1 nanoseconds. *)
Definition SLEEP_MAX : Q := 9223372036854775807 # 1000000000.

(** The delays [time.sleep] accepts. *)
Definition accepts (d : Q) : bool := Qle_bool 0 d && Qle_bool d SLEEP_MAX.

(** What [time.sleep(d)] raises, if anything. *)
Definition sleep_error (d : Q) : option exn :=
  if Qle_bool 0 d then
    if Qle_bool d SLEEP_MAX then None
    else Some (OverflowError "timestamp too large to convert to C _PyTime_t")
  else Some (ValueError "sleep length must be non-negative").

(** [time.sleep(d)] *)
Definition sleep (d : Q) : M unit :=
  match sleep_error d with
  | Some e => raise e
  | None => emit (Sleep d)
  end.

(** [requests.get(url, headers=..., timeout=...)] *)
Definition requests_get (w : world) (url : string)
    (headers : list (string * string)) : M response :=
  fun st =>
    let st' := {| gets := S (gets st); posts := posts st;
                  trace := trace st ++ [Get url headers];
                  shared_headers := shared_headers st |} in
    match http_get w (gets st) with
    | NoResponse e => (Raised e, st')
    | Response r => (Done r, st')
    end.

(** [requests.post(url, data={"grant_type": "client_credentials"}, auth=(id, secret))] *)
Definition requests_post (w : world) (url client_id client_secret : string)
    : M response :=
  fun st =>
    let st' := {| gets := gets st; posts := S (posts st);
                  trace := trace st ++ [Post url client_id client_secret];
                  shared_headers := shared_headers st |} in
    match http_post w (posts st) with
    | NoResponse e => (Raised e, st')
    | Response r => (Done r, st')
    end.

(** [r.raise_for_status()] *)
Definition raise_for_status (r : response) (url : string) : M unit :=
  let st := status_code r in
  if (400 <=? st) && (st <? 500) then
    raise (HTTPError st (Text.str_of_Z st ++ " Client Error: " ++ reason r
                         ++ " for url: " ++ url))
  else if (500 <=? st) && (st <? 600) then
    raise (HTTPError st (Text.str_of_Z st ++ " Server Error: " ++ reason r
                         ++ " for url: " ++ url))
  else ret tt.

(** Exit status of the interpreter: an uncaught exception prints a
    traceback and ends the process with status 1. *)
Definition exit_status {A} (o : outcome A) : option Z :=
  match o with
  | Done _ => Some 0
  | Exited c => Some c
  | Raised _ => Some 1
  | OutOfFuel => None
  end.

End Eff.

Declare Scope eff_scope.
Delimit Scope eff_scope with eff.
Notation "x <- m ;; k" := (Eff.bind m (fun x => k))
  (at level 100, m at next level, right associativity) : eff_scope.
Notation "m ;;; k" := (Eff.bind m (fun _ => k))
  (at level 100, right associativity) : eff_scope.

(* ------------------------------------------------------------------ *)
(** ** Loading and normalising the identifiers (shared by the variants) *)

Module Loader.

(** A cell of a column read with [dtype=str]: text, or [None] for a
    missing value (NaN). *)
Definition cell := option string.

(** The input file as the scripts see it: its [siret] column, if any. *)
Definition csv_file := option (list cell).

(** The generation of pandas that runs the script. *)
Inductive version : Type := Pandas2 | Pandas3.

(** [Series.astype(str)]: up to pandas 2 a missing value becomes the text
    ["nan"]; from pandas 3 on it stays missing. *)
Definition astype_str (v : version) (c : cell) : cell :=
  match c with
  | Some s => Some s
  | None => match v with
            | Pandas2 => Some "nan"
            | Pandas3 => None
            end
  end.

(** [Series.str.replace(r"\D+", "", regex=True)] *)
Definition str_replace_non_digits (c : cell) : cell :=
  option_map Text.strip_non_digits c.

(** [Series.dropna()] *)
Fixpoint dropna (l : list cell) : list string :=
  match l with
  | [] => []
  | Some s :: r => s :: dropna r
  | None :: r => dropna r
  end.

Definition mem (x : string) (l : list string) : bool :=
  existsb (String.eqb x) l.

(** [Series.unique()]: the distinct values in order of appearance. *)
Fixpoint unique_from (seen : list string) (l : list string) : list string :=
  match l with
  | [] => []
  | x :: r => if mem x seen then unique_from seen r
              else x :: unique_from (x :: seen) r
  end.

Definition unique (l : list string) : list string := unique_from [] l.

(** [df["siret"].astype(str).str.replace(...)] then [.dropna().unique()] *)
Definition normalized (v : version) (column : list cell) : list string :=
  unique (dropna (map (fun c => str_replace_non_digits (astype_str v c)) column)).

(** [len(s) == 14] *)
Definition valid (s : string) : bool := (String.length s =? 14)%nat.

(** [df["siret"]]: a [KeyError] when the column is missing. *)
Definition column_siret (f : csv_file) : res (list cell) :=
  match f with
  | Some col => Ok col
  | None => Err (KeyError "'siret'")
  end.

End Loader.

(* ------------------------------------------------------------------ *)
(** ** The export: [pd.DataFrame(rows).to_excel(path, index=False)] *)

Module Excel.

(** Characters openpyxl refuses in the text of a cell. *)
Definition illegal (c : ascii) : bool :=
  let n := N_of_ascii c in
  ((n <=? 8) || (n =? 11) || (n =? 12) || ((14 <=? n) && (n <=? 31)))%N.

(** A cell keeps the first 32767 characters of its text. *)
Definition cell_limit : nat := Z.to_nat 32767.

Definition legal (s : string) : bool :=
  Text.forall_chars (fun c => negb (illegal c)) (Text.take cell_limit s).

(** The columns of the frame: the keys of the rows, in order of first
    appearance. *)
Definition columns (rows : list record) : list string :=
  Loader.unique (flat_map (map fst) rows).

Section Sheet.

Variable repr : json -> string.

(** The text in the cell of a value, when the cell holds text: a [str] as
    it is, a list or a dict through [str]; numbers, booleans and missing
    values are no text. *)
Definition cell_text (v : json) : list string :=
  match v with
  | JStr s => [s]
  | JList _ | JDict _ => [repr v]
  | _ => []
  end.

(** The texts of the sheet in the order they are written: the header,
    then the cells column by column. *)
Definition texts (rows : list record) : list string :=
  columns rows
  ++ flat_map (fun k => flat_map (fun r => match Py.lookup r k with
                                           | Some v => cell_text v
                                           | None => []
                                           end) rows)
       (columns rows).

(** The first text openpyxl refuses, if any. *)
Definition first_illegal (rows : list record) : option string :=
  find (fun s => negb (legal s)) (texts rows).

(** What the export of [rows] to [path] raises, if anything.
    [writer path rows] is what it raises before it writes a cell: no
    engine for the suffix of the path, a sheet that is too large, a file
    that cannot be created.  Then openpyxl refuses the first text with a
    control character. *)
Definition refusal (writer : string -> list record -> option exn)
    (path : string) (rows : list record) : option exn :=
  match writer path rows with
  | Some e => Some e
  | None =>
      match first_illegal rows with
      | Some s => Some (IllegalCharacterError
                          (Text.take cell_limit s
                           ++ " cannot be used in worksheets."))
      | None => None
      end
  end.

Definition to_excel (writer : string -> list record -> option exn)
    (path : string) (rows : list record) : M unit :=
  match refusal writer path rows with
  | Some e => Eff.raise e
  | None => Eff.emit (WriteExcel path rows)
  end.

End Sheet.

End Excel.

(* ------------------------------------------------------------------ *)
(** ** [pathlib]: the part the checkpoint path needs (POSIX flavour) *)

Module Pathlib.

(** A parsed path: its root (["" ], ["/"] or ["//"]) and its components. *)
Record path : Type := { root : string; parts : list string }.

Definition keep_part (p : string) : bool :=
  negb (p =? "")%string && negb (p =? ".")%string.

(** [Path(s)]: empty and ["."] components are dropped. *)
Definition Path (s : string) : path :=
  {| root := if Text.startswith "///" s then "/"
             else if Text.startswith "//" s then "//"
             else if Text.startswith "/" s then "/"
             else "";
     parts := filter keep_part (Text.split "/" s) |}.

(** [str(p)] *)
Definition to_string (p : path) : string :=
  match parts p, root p with
  | [], EmptyString => "."
  | l, r => r ++ Text.join "/" l
  end.

(** [p.name] *)
Definition name (p : path) : string := last (parts p) "".

(** [p.suffix]: the text from the last dot of the name, unless that dot
    is its first or its last character. *)
Definition suffix (p : path) : string :=
  let n := name p in
  match Text.rfind "." n with
  | Some i => if ((0 <? i) && (i <? String.length n - 1))%nat
              then Text.drop i n else ""
  | None => ""
  end.

(** [p.stem] *)
Definition stem (p : path) : string :=
  let n := name p in
  Text.take (String.length n - String.length (suffix p)) n.

(** [p.with_suffix(sfx)] for a well-formed [sfx] (a dot followed by text
    without separators). *)
Definition with_suffix (p : path) (sfx : string) : res path :=
  match name p with
  | EmptyString =>
      Err (ValueError ("PosixPath('" ++ to_string p ++ "') has an empty name"))
  | _ => Ok {| root := root p; parts := removelast (parts p) ++ [stem p ++ sfx] |}
  end.

End Pathlib.


(* ------------------------------------------------------------------ *)
(** ** The canonical variant: [enrich_sirets_insee_progress.py] *)

Module Progress.

Definition DEFAULT_API_VERSION : string := "3.11".
Definition APIKEY_BASE : string := "https://api.insee.fr/api-sirene/".
Definition OAUTH_BASE_DEFAULT : string := "https://api.insee.fr/entreprises/sirene/V3".
Definition TOKEN_URL : string := "https://api.insee.fr/token".

(** The parsed command line ([argparse]). *)
Record args : Type := {
  input : string;
  output : string;
  sleep : Q;
  timeout : Q;
  max_retries : Z;
  retry_backoff : Q;
  every : Z;
  verbose : bool;
  log_file : option string;
  checkpoint_rows : Z;
  api_key : option string;
  api_version : string;
  client_id : option string;
  client_secret : option string;
  oauth_base : string
}.

(** What the process finds around it: environment variables, the text of
    [./.env] ([None] when it is missing or unreadable), the input file, the
    generation of pandas, whether [tqdm] can be imported, and what the
    spreadsheet writer refuses (see [Excel.to_excel]). *)
Record surroundings : Type := {
  getenv : string -> option string;
  dotenv : option string;
  input_file : Loader.csv_file;
  pandas : Loader.version;
  tqdm : bool;
  excel_writer : string -> list record -> option exn
}.

(** Truth value of an optional text ([None] and [""] are falsy). *)
Definition truthy (o : option string) : bool :=
  match o with
  | Some s => negb (s =? "")%string
  | None => false
  end.

(** [a or b] on optional texts. *)
Definition or_ (a b : option string) : option string :=
  if truthy a then a else b.

(** The text of a truthy optional text. *)
Definition text_of (o : option string) : string :=
  match o with
  | Some s => s
  | None => ""
  end.

(** [d[k] = v] *)
Fixpoint dict_set (d : list (string * string)) (k v : string)
    : list (string * string) :=
  match d with
  | [] => [(k, v)]
  | (k', v') :: r => if (k' =? k)%string then (k, v) :: r
                     else (k', v') :: dict_set r k v
  end.

(** [d.get(k)] *)
Fixpoint env_get (d : list (string * string)) (k : string) : option string :=
  match d with
  | [] => None
  | (k', v) :: r => if (k' =? k)%string then Some v else env_get r k
  end.

Definition double_quote : ascii := ascii_of_nat 34.

Definition read_env_line (d : list (string * string)) (line : string)
    : list (string * string) :=
  let line := Text.strip line in
  if (line =? "")%string || Text.startswith "#" line then d
  else match Text.split_once "=" line with
       | None => d
       | Some (k, v) =>
           dict_set d (Text.strip k)
             (Text.strip_char "'" (Text.strip_char double_quote (Text.strip v)))
       end.

Definition read_env_file (text : option string) : list (string * string) :=
  match text with
  | Some t => fold_left read_env_line (Text.splitlines t) []
  | None => []
  end.

(** [s.rstrip('/')] *)
Definition rstrip_slash (s : string) : string := Text.rstrip_with (Ascii.eqb "/") s.

(** Union of the keys of the rows, sorted: [sorted({k for row in rows for k in row.keys()})]. *)
Fixpoint insert_key (k : string) (l : list string) : list string :=
  match l with
  | [] => [k]
  | x :: r => if (x =? k)%string then l
              else if String.ltb k x then k :: l
              else x :: insert_key k r
  end.

Definition keys (r : record) : list string := map fst r.

Definition fieldnames_of (rows : list record) : list string :=
  fold_left (fun acc k => insert_key k acc) (flat_map keys rows) [].

(** The line [csv.DictWriter] writes for a row: the row's value under each
    field name, [""] where the row has none; a row with a key outside the
    field names is refused. *)
Definition csv_line (fieldnames : list string) (r : record) : res (list json) :=
  match filter (fun k => negb (Loader.mem k fieldnames)) (keys r) with
  | [] => Ok (map (fun k => Py.dict_get r k (JStr "")) fieldnames)
  | _ => Err (ValueError "dict contains fields not in fieldnames")
  end.

(** The lines written before the first refused row, and that refusal. *)
Fixpoint csv_lines (fieldnames : list string) (rows : list record)
    : list (list json) * option exn :=
  match rows with
  | [] => ([], None)
  | r :: rest =>
      match csv_line fieldnames r with
      | Ok l => let (ls, e) := csv_lines fieldnames rest in (l :: ls, e)
      | Err e => ([], Some e)
      end
  end.

Definition write_checkpoint_csv (rows : list record) (path_csv : string)
    (fieldnames : list string) : M unit :=
  let (lines, e) := csv_lines fieldnames rows in
  (Eff.emit (WriteCsv path_csv fieldnames lines) ;;;
   match e with
   | None => Eff.ret tt
   | Some e => Eff.raise e
   end)%eff.

(** The two ways of authenticating, as [main] sets them up. *)
Record auth : Type := {
  headers : list (string * string);
  base_url : string;       (* [build_url s] is [base_url ++ "/siret/" ++ s] *)
  mode : string
}.

Definition build_url (a : auth) (s : string) : string :=
  base_url a ++ "/siret/" ++ s.

(** Local variables of the retry loop that outlive an iteration. *)
Record attempt_state : Type := {
  attempt : Z;
  last_err : option exn;
  rows : list record;
  ok : nat
}.

Inductive control : Type := Continue | Break.

(** The progress bar: a [tqdm] bar, or the silent stand-in of lines 55-59. *)
Inductive pbar : Type := TqdmBar | Dummy.

(** [get_tqdm(total)] *)
Definition get_tqdm (sur : surroundings) (total : Z) : M pbar :=
  if tqdm sur then (Eff.emit (Bar (BarOpen total)) ;;; Eff.ret TqdmBar)%eff
  else Eff.ret Dummy.

(** [pbar.update(v)] *)
Definition pbar_update (p : pbar) (v : Z) : M unit :=
  match p with
  | TqdmBar => Eff.emit (Bar (BarUpdate v))
  | Dummy => Eff.ret tt
  end.

(** [pbar.close()] *)
Definition pbar_close (p : pbar) : M unit :=
  match p with
  | TqdmBar => Eff.emit (Bar BarClose)
  | Dummy => Eff.ret tt
  end.

Section Run.

Variable repr : json -> string.
Variable w : world.
Variable a : args.

Definition extract_fields (payload : json) : res record :=
  (e <- Py.get payload "etablissement" ;;
   let etab := Py.or_ e payload in
   unite <- Py.get_or etab "uniteLegale" (JDict []) ;;
   ad <- Py.get_or etab "adresseEtablissement" (JDict []) ;;
   let adr := Py.or_ ad (JDict []) in
   n <- Py.get adr "numeroVoieEtablissement" ;;
   let numero := Py.or_ n (JStr "") in
   t <- Py.get adr "typeVoieEtablissement" ;;
   let type_voie := Py.or_ t (JStr "") in
   l <- Py.get adr "libelleVoieEtablissement" ;;
   let lib_voie := Py.or_ l (JStr "") in
   c <- Py.get adr "complementAdresseEtablissement" ;;
   let comp := Py.or_ c (JStr "") in
   joined <- Py.join " " (filter Py.truthy
               [JStr (Py.str repr numero); type_voie; lib_voie; comp]) ;;
   let adresse_l1 := Py.or_ (JStr (Text.strip joined)) JNull in
   code_postal <- Py.get adr "codePostalEtablissement" ;;
   commune <- Py.get adr "libelleCommuneEtablissement" ;;
   p <- Py.get etab "periodesEtablissement" ;;
   let periodes := Py.or_ p (JList []) in
   periode <- (if Py.truthy periodes then Py.item0 periodes else Ok (JDict [])) ;;
   naf0 <- Py.get periode "activitePrincipaleEtablissement" ;;
   naf <- Py.or_else naf0 (Py.get etab "activitePrincipaleEtablissement") ;;
   ln <- Py.get periode "nomenclatureActivitePrincipaleEtablissement" ;;
   let lib_naf := Py.or_ ln (JStr "") in
   siret <- Py.get etab "siret" ;;
   siret' <- Py.get etab "siret" ;;
   siren <- Py.slice_to 9 (Py.or_ siret' (JStr "")) ;;
   d0 <- Py.get unite "denominationUniteLegale" ;;
   denomination <- Py.or_else d0 (Py.get unite "nomUniteLegale") ;;
   e0 <- Py.get periode "etatAdministratifEtablissement" ;;
   etat <- Py.or_else e0 (Py.get etab "etatAdministratifEtablissement") ;;
   date_creation <- Py.get unite "dateCreationUniteLegale" ;;
   t0 <- Py.get unite "trancheEffectifsUniteLegale" ;;
   tranche <- Py.or_else t0 (Py.get etab "trancheEffectifsEtablissement") ;;
   Ok [ ("siret", siret);
        ("siren", siren);
        ("denomination", denomination);
        ("etat_etablissement", etat);
        ("date_creation", date_creation);
        ("tranche_effectifs", tranche);
        ("naf", naf);
        ("libelle_naf", lib_naf);
        ("adresse_ligne_1", adresse_l1);
        ("code_postal", code_postal);
        ("commune", commune) ])%res.

Definition get_token (client_id client_secret : string) : M json :=
  (r <- Eff.requests_post w TOKEN_URL client_id client_secret ;;
   Eff.raise_for_status r TOKEN_URL ;;;
   js <- Eff.lift (body r) ;;
   Eff.lift (Py.get js "access_token"))%eff.

(** [log(msg)] *)
Definition log (msg : string) : M unit :=
  (Eff.emit (Stdout msg) ;;;
   if truthy (log_file a) then Eff.emit (Append (text_of (log_file a)) msg)
   else Eff.ret tt)%eff.

(** [sirets = [s for s in df["siret"].dropna().unique() if len(s) == 14]] *)
Definition load_sirets (v : Loader.version) (f : Loader.csv_file)
    : res (list string) :=
  (col <- Loader.column_siret f ;;
   Ok (filter Loader.valid (Loader.normalized v col)))%res.

(** The three resolved credentials. *)
Definition resolve_api_key (sur : surroundings) : option string :=
  or_ (or_ (api_key a) (getenv sur "INSEE_API_KEY"))
      (env_get (read_env_file (dotenv sur)) "INSEE_API_KEY").

Definition resolve_client_id (sur : surroundings) : option string :=
  or_ (or_ (client_id a) (getenv sur "INSEE_CLIENT_ID"))
      (env_get (read_env_file (dotenv sur)) "INSEE_CLIENT_ID").

Definition resolve_client_secret (sur : surroundings) : option string :=
  or_ (or_ (client_secret a) (getenv sur "INSEE_CLIENT_SECRET"))
      (env_get (read_env_file (dotenv sur)) "INSEE_CLIENT_SECRET").

(** Lines 167-186: choice of the mode, and the token request in OAuth2 mode. *)
Definition startup (sur : surroundings) : M auth :=
  let key := resolve_api_key sur in
  if truthy key then
    Eff.ret {| headers := [("X-INSEE-Api-Key-Integration", text_of key);
                           ("Accept", "application/json")];
               base_url := APIKEY_BASE ++ api_version a;
               mode := "API-KEY (v" ++ api_version a ++ ")" |}
  else
    let cid := resolve_client_id sur in
    let csecret := resolve_client_secret sur in
    if negb (truthy cid) || negb (truthy csecret) then
      (log "ERREUR: fournissez --api-key (recommandé) OU --client-id/--client-secret (OAuth2)." ;;;
       Eff.sys_exit 1)%eff
    else
      (token <- get_token (text_of cid) (text_of csecret) ;;
       Eff.ret {| headers := [("Authorization", "Bearer " ++ Py.str repr token);
                              ("Accept", "application/json")];
                  base_url := rstrip_slash (oauth_base a);
                  mode := "OAUTH2" |})%eff.

(** [float(ra) if ra and ra.isdigit() else args.retry_backoff] *)
Definition pause_of (ra : option string) : res Q :=
  if truthy ra && Text.str_isdigit (text_of ra)
  then Py.float_of_digits repr (text_of ra)
  else Ok (retry_backoff a).

(** Body of the [try] in the retry loop. *)
Definition try_body (au : auth) (url : string) (ls : attempt_state)
    : M (control * attempt_state) :=
  (r <- Eff.requests_get w url (headers au) ;;
   if status_code r =? 429 then
     pause <- Eff.lift (pause_of (retry_after r)) ;;
     Eff.sleep pause ;;;
     Eff.ret (Continue, {| attempt := attempt ls + 1; last_err := last_err ls;
                           rows := rows ls; ok := ok ls |})
   else
     Eff.raise_for_status r url ;;;
     js <- Eff.lift (body r) ;;
     row <- Eff.lift (extract_fields js) ;;
     Eff.ret (Break, {| attempt := attempt ls; last_err := None;
                        rows := rows ls ++ [row]; ok := S (ok ls) |}))%eff.

(** Its [except Exception as e] clause. *)
Definition except_body (ls : attempt_state) (e : exn)
    : M (control * attempt_state) :=
  (Eff.sleep (retry_backoff a) ;;;
   Eff.ret (Continue, {| attempt := attempt ls + 1; last_err := Some e;
                         rows := rows ls; ok := ok ls |}))%eff.

(** [while attempt <= args.max_retries: ...] *)
Fixpoint retry_loop (fuel : nat) (au : auth) (url : string) (ls : attempt_state)
    : M attempt_state :=
  if attempt ls <=? max_retries a then
    match fuel with
    | O => Eff.out_of_fuel
    | S fuel' =>
        (r <- Eff.try_ (try_body au url ls) (except_body ls) ;;
         match r with
         | (Break, ls') => Eff.ret ls'
         | (Continue, ls') => retry_loop fuel' au url ls'
         end)%eff
    end
  else Eff.ret ls.

(** Iterations the loop can make from [attempt = 0] on. *)
Definition retry_fuel : nat := Z.to_nat (max_retries a + 1).

(** What the [for] loop carries from one identifier to the next. *)
Record batch_state : Type := {
  b_rows : list record;
  b_ok : nat;
  b_ko : nat
}.

(** [i % n] *)
Definition py_mod (i n : Z) : res Z :=
  if n =? 0 then Err (ZeroDivisionError "integer modulo by zero")
  else Ok (i mod n).

(** Body of [for i, s in enumerate(sirets, start=1)]. *)
Definition process (au : auth) (bar : pbar) (checkpoint_csv : string)
    (total : Z) (i : Z) (s : string) (b : batch_state) : M batch_state :=
  let url := build_url au s in
  (ls <- retry_loop retry_fuel au url
           {| attempt := 0; last_err := None; rows := b_rows b; ok := b_ok b |} ;;
   let b1 :=
     match last_err ls with
     | Some e => {| b_rows := rows ls ++ [[("siret", JStr s);
                                            ("erreur", JStr (str_exn e))]];
                    b_ok := ok ls; b_ko := S (b_ko b) |}
     | None => {| b_rows := rows ls; b_ok := ok ls; b_ko := b_ko b |}
     end in
   (if verbose a then
      let status := match last_err ls with
                    | None => "OK"
                    | Some e => "ERREUR: " ++ str_exn e
                    end in
      log ("[" ++ Text.str_of_Z i ++ "/" ++ Text.str_of_Z total ++ "] "
           ++ s ++ " -> " ++ status)
    else Eff.ret tt) ;;;
   m <- Eff.lift (py_mod i (every a)) ;;
   (if m =? 0 then
      log ("Progression: " ++ Text.str_of_Z i ++ "/" ++ Text.str_of_Z total
           ++ " traités | OK=" ++ Text.str_of_nat (b_ok b1)
           ++ " KO=" ++ Text.str_of_nat (b_ko b1))
    else Eff.ret tt) ;;;
   (if (0 <? checkpoint_rows a)
       && ((i mod checkpoint_rows a =? 0) || (i =? total)) then
      write_checkpoint_csv (b_rows b1) checkpoint_csv (fieldnames_of (b_rows b1)) ;;;
      log ("Checkpoint écrit: " ++ checkpoint_csv ++ " (lignes="
           ++ Text.str_of_nat (length (b_rows b1)) ++ ")")
    else Eff.ret tt) ;;;
   pbar_update bar 1 ;;;
   Eff.sleep (sleep a) ;;;
   Eff.ret b1)%eff.

Fixpoint batch (au : auth) (bar : pbar) (checkpoint_csv : string) (total : Z)
    (i : Z) (sirets : list string) (b : batch_state) : M batch_state :=
  match sirets with
  | [] => Eff.ret b
  | s :: rest =>
      (b' <- process au bar checkpoint_csv total i s b ;;
       batch au bar checkpoint_csv total (i + 1) rest b')%eff
  end.

Definition checkpoint_path : res string :=
  (p <- Pathlib.with_suffix (Pathlib.Path (output a)) ".checkpoint.csv" ;;
   Ok (Pathlib.to_string p))%res.

(** Lines 159-243 of [main]: everything before the export.  It hands
    over the number of identifiers, the checkpoint path and the
    accumulator. *)
Definition collect (sur : surroundings) : M (Z * string * batch_state) :=
  (sirets <- Eff.lift (load_sirets (pandas sur) (input_file sur)) ;;
   let total := Z.of_nat (length sirets) in
   (if total =? 0 then
      log "Aucun SIRET valide (14 chiffres) trouvé." ;;; Eff.sys_exit 0
    else Eff.ret tt) ;;;
   au <- startup sur ;;
   log ("Mode: " ++ mode au ++ " | Total SIRET à traiter: " ++ Text.str_of_Z total) ;;;
   checkpoint_csv <- Eff.lift checkpoint_path ;;
   bar <- get_tqdm sur total ;;
   b <- batch au bar checkpoint_csv total 1 sirets
          {| b_rows := []; b_ok := 0; b_ko := 0 |} ;;
   pbar_close bar ;;;
   Eff.ret (total, checkpoint_csv, b))%eff.

(** Lines 245-254 of [main]: the export and the summary. *)
Definition export (sur : surroundings) (total : Z) (checkpoint_csv : string)
    (b : batch_state) : M unit :=
  (Excel.to_excel repr (excel_writer sur) (output a) (b_rows b) ;;;
   log "" ;;;
   log "----------- RÉSUMÉ -----------" ;;;
   log ("Total: " ++ Text.str_of_Z total ++ " | OK: " ++ Text.str_of_nat (b_ok b)
        ++ " | KO: " ++ Text.str_of_nat (b_ko b)) ;;;
   log ("Fichier Excel: " ++ output a) ;;;
   log ("CSV checkpoint (dernier): " ++ checkpoint_csv) ;;;
   log "------------------------------")%eff.

Definition main (sur : surroundings) : M unit :=
  (r <- collect sur ;;
   export sur (fst (fst r)) (snd (fst r)) (snd r))%eff.

End Run.

End Progress.

(* ------------------------------------------------------------------ *)
(** ** [enrich_sirets_insee_1.py]: OAuth2 only, token renewed on 401,
       invalid identifiers recorded

    [INSEE_TOKEN_URL] and [INSEE_SIRET_URL_TMPL] are taken as unset, so the
    two URLs are the defaults. *)

Module V1.

Definition TOKEN_URL : string := "https://api.insee.fr/token".
Definition SIRET_URL : string := "https://api.insee.fr/entreprises/sirene/V3/siret/".

Record args : Type := {
  input : string;
  output : string;
  sleep : Q;
  client_id : option string;
  client_secret : option string
}.

Definition newline : string := String (ascii_of_nat 10) "".

(** The message of lines 131-136. *)
Definition missing_credentials : string :=
  "ERREUR: fournissez vos identifiants INSEE." ++ newline
  ++ "- Variables d'env: INSEE_CLIENT_ID et INSEE_CLIENT_SECRET" ++ newline
  ++ "- OU arguments: --client-id ... --client-secret ..." ++ newline
  ++ "- OU fichier .env à côté du script avec:" ++ newline
  ++ "    INSEE_CLIENT_ID=xxx" ++ newline
  ++ "    INSEE_CLIENT_SECRET=yyy".

Definition adr_fields : list string :=
  [ "numeroVoieEtablissement"; "indiceRepetitionEtablissement";
    "typeVoieEtablissement"; "libelleVoieEtablissement";
    "complementAdresseEtablissement" ].

Section Run.

Variable repr : json -> string.
Variable w : world.
Variable a : args.

(** [periode.get(k) or etab.get(k)] *)
Definition either (periode etab : json) (k : string) : res json :=
  (v <- Py.get periode k ;;
   Py.or_else v (Py.get etab k))%res.

(** The items of the generator joined into the first address line. *)
Fixpoint adr_items (periode etab : json) (ks : list string) : res (list json) :=
  match ks with
  | [] => Ok []
  | k :: r =>
      (c <- either periode etab k ;;
       if Py.truthy c then
         v <- either periode etab k ;;
         let item := JStr (Text.strip (Py.str repr (Py.or_ v (JStr "")))) in
         rest <- adr_items periode etab r ;;
         Ok (item :: rest)
       else adr_items periode etab r)%res
  end.

Definition extract_fields (payload : json) : res record :=
  (e <- Py.get payload "etablissement" ;;
   let etab := Py.or_ e payload in
   unite <- Py.get_or etab "uniteLegale" (JDict []) ;;
   p <- Py.get etab "periodesEtablissement" ;;
   let periodes_etab := Py.or_ p (JList []) in
   periode <- (if Py.truthy periodes_etab then Py.item0 periodes_etab
               else Ok (JDict [])) ;;
   items <- adr_items periode etab adr_fields ;;
   adresse_l1 <- Py.join " " items ;;
   code_postal <- either periode etab "codePostalEtablissement" ;;
   commune <- either periode etab "libelleCommuneEtablissement" ;;
   naf <- either periode etab "activitePrincipaleEtablissement" ;;
   ln <- Py.get periode "nomenclatureActivitePrincipaleEtablissement" ;;
   let lib_naf := Py.or_ ln (JStr "") in
   siret <- Py.get etab "siret" ;;
   sn <- Py.get unite "siren" ;;
   siren <- (if Py.truthy sn then Ok sn
             else (s' <- Py.get etab "siret" ;;
                   Py.slice_to 9 (Py.or_ s' (JStr "")))) ;;
   d0 <- Py.get unite "denominationUniteLegale" ;;
   denomination <- Py.or_else d0 (Py.get unite "nomUniteLegale") ;;
   enseigne <- either periode etab "enseigne1Etablissement" ;;
   nom_commercial <- either periode etab "nomCommercialEtablissement" ;;
   statut <- Py.get unite "statutDiffusionUniteLegale" ;;
   etat <- either periode etab "etatAdministratifEtablissement" ;;
   date_creation <- Py.get unite "dateCreationUniteLegale" ;;
   tranche <- Py.get unite "trancheEffectifsUniteLegale" ;;
   Ok [ ("siret", siret);
        ("siren", siren);
        ("denomination", denomination);
        ("enseigne", enseigne);
        ("nom_commercial", nom_commercial);
        ("statut_diffusion", statut);
        ("etat_etablissement", etat);
        ("date_creation", date_creation);
        ("tranche_effectifs", tranche);
        ("naf", naf);
        ("libelle_naf", lib_naf);
        ("adresse_ligne_1", Py.or_ (JStr adresse_l1) JNull);
        ("code_postal", code_postal);
        ("commune", commune) ])%res.

Definition get_token (cid csecret : string) : M json :=
  (r <- Eff.requests_post w TOKEN_URL cid csecret ;;
   Eff.raise_for_status r TOKEN_URL ;;;
   js <- Eff.lift (body r) ;;
   Eff.lift (Py.get js "access_token"))%eff.

(** [resolve_credentials]: the first source giving both values wins. *)
Definition resolve_credentials (sur : Progress.surroundings)
    : option string * option string :=
  if Progress.truthy (client_id a) && Progress.truthy (client_secret a)
  then (client_id a, client_secret a)
  else
    let env_id := Progress.getenv sur "INSEE_CLIENT_ID" in
    let env_secret := Progress.getenv sur "INSEE_CLIENT_SECRET" in
    if Progress.truthy env_id && Progress.truthy env_secret
    then (env_id, env_secret)
    else
      let parsed := Progress.read_env_file (Progress.dotenv sur) in
      let file_id := Progress.env_get parsed "INSEE_CLIENT_ID" in
      let file_secret := Progress.env_get parsed "INSEE_CLIENT_SECRET" in
      if Progress.truthy file_id && Progress.truthy file_secret
      then (file_id, file_secret)
      else (None, None).

Definition bearer (token : json) : list (string * string) :=
  [("Authorization", "Bearer " ++ Py.str repr token)].

(** Body of the [try] of the lookup loop. *)
Definition try_body (cid csecret siret : string) (rows : list record)
    : M (list record) :=
  let url := SIRET_URL ++ siret in
  (h <- Eff.read_headers ;;
   r <- Eff.requests_get w url h ;;
   r <- (if status_code r =? 401 then
           token <- get_token cid csecret ;;
           Eff.write_headers (bearer token) ;;;
           h' <- Eff.read_headers ;;
           Eff.requests_get w url h'
         else Eff.ret r) ;;
   Eff.raise_for_status r url ;;;
   data <- Eff.lift (body r) ;;
   row <- Eff.lift (extract_fields data) ;;
   Eff.ret (rows ++ [row])%list)%eff.

(** Body of [for siret in df["siret"].dropna().unique()]. *)
Definition process (cid csecret siret : string) (rows : list record)
    : M (list record) :=
  if negb (String.length siret =? 14)%nat then
    Eff.ret (rows ++ [[("siret", JStr siret); ("erreur", JStr "SIRET invalide")]])%list
  else
    (rows' <- Eff.try_ (try_body cid csecret siret rows)
                (fun e => Eff.ret (rows ++ [[("siret", JStr siret);
                                           ("erreur", JStr (str_exn e))]])%list) ;;
     Eff.sleep (sleep a) ;;;
     Eff.ret rows')%eff.

Fixpoint batch (cid csecret : string) (sirets : list string) (rows : list record)
    : M (list record) :=
  match sirets with
  | [] => Eff.ret rows
  | s :: rest =>
      (rows' <- process cid csecret s rows ;;
       batch cid csecret rest rows')%eff
  end.

(** [except requests.HTTPError as e] around the first token request. *)
Definition try_get_token (cid csecret : string) : M json :=
  fun st =>
    match get_token cid csecret st with
    | (Raised (HTTPError status _), st') =>
        (Eff.emit (Stderr ("Echec d'authentification (" ++ Text.str_of_Z status
                           ++ "). Vérifiez vos identifiants et droits d'accès.")) ;;;
         Eff.sys_exit 2)%eff st'
    | r => r
    end.

Definition main (sur : Progress.surroundings) : M unit :=
  let (cid, csecret) := resolve_credentials sur in
  if negb (Progress.truthy cid) || negb (Progress.truthy csecret) then
    (Eff.emit (Stderr missing_credentials) ;;;
     Eff.sys_exit 1)%eff
  else
    let cid := Progress.text_of cid in
    let csecret := Progress.text_of csecret in
    (token <- try_get_token cid csecret ;;
     Eff.write_headers (bearer token) ;;;
     col <- Eff.lift (Loader.column_siret (Progress.input_file sur)) ;;
     rows <- batch cid csecret (Loader.normalized (Progress.pandas sur) col) [] ;;
     Excel.to_excel repr (Progress.excel_writer sur) (output a) rows ;;;
     Eff.emit (Stdout ("OK -> " ++ output a)))%eff.

End Run.

End V1.

(* ------------------------------------------------------------------ *)
(** ** [enrich_sirets_insee_v2.py]: both modes, no retry; its field
       extraction is the one of the canonical variant *)

Module V2.

Record args : Type := {
  input : string;
  output : string;
  sleep : Q;
  api_key : option string;
  api_version : string;
  client_id : option string;
  client_secret : option string;
  oauth_base : string
}.

Section Run.

Variable repr : json -> string.
Variable w : world.
Variable a : args.

Definition get_token (cid csecret : string) : M json :=
  (r <- Eff.requests_post w Progress.TOKEN_URL cid csecret ;;
   Eff.raise_for_status r Progress.TOKEN_URL ;;;
   js <- Eff.lift (body r) ;;
   Eff.lift (Py.get js "access_token"))%eff.

(** [except requests.HTTPError as e] around the token request. *)
Definition try_get_token (cid csecret : string) : M json :=
  fun st =>
    match get_token cid csecret st with
    | (Raised (HTTPError status _), st') =>
        (Eff.emit (Stderr ("Echec d'authentification (" ++ Text.str_of_Z status
                           ++ "). Vérifiez vos identifiants et droits d'accès.")) ;;;
         Eff.sys_exit 2)%eff st'
    | r => r
    end.

Definition or3 (cli : option string) (sur : Progress.surroundings) (k : string)
    : option string :=
  Progress.or_ (Progress.or_ cli (Progress.getenv sur k))
    (Progress.env_get (Progress.read_env_file (Progress.dotenv sur)) k).

(** Lines 118-142. *)
Definition startup (sur : Progress.surroundings) : M Progress.auth :=
  let key := or3 (api_key a) sur "INSEE_API_KEY" in
  if Progress.truthy key then
    Eff.ret {| Progress.headers := [("X-INSEE-Api-Key-Integration", Progress.text_of key);
                                    ("Accept", "application/json")];
               Progress.base_url := Progress.APIKEY_BASE ++ api_version a;
               Progress.mode := "" |}
  else
    let cid := or3 (client_id a) sur "INSEE_CLIENT_ID" in
    let csecret := or3 (client_secret a) sur "INSEE_CLIENT_SECRET" in
    if negb (Progress.truthy cid) || negb (Progress.truthy csecret) then
      (Eff.emit (Stderr "ERREUR: fournissez une --api-key (recommandé) OU bien --client-id/--client-secret pour OAuth2.") ;;;
       Eff.sys_exit 1)%eff
    else
      (token <- try_get_token (Progress.text_of cid) (Progress.text_of csecret) ;;
       Eff.ret {| Progress.headers := [("Authorization", "Bearer " ++ Py.str repr token);
                                       ("Accept", "application/json")];
                  Progress.base_url := Progress.rstrip_slash (oauth_base a);
                  Progress.mode := "" |})%eff.

Definition try_body (au : Progress.auth) (s : string) (rows : list record)
    : M (list record) :=
  let url := Progress.build_url au s in
  (r <- Eff.requests_get w url (Progress.headers au) ;;
   Eff.raise_for_status r url ;;;
   js <- Eff.lift (body r) ;;
   row <- Eff.lift (Progress.extract_fields repr js) ;;
   Eff.ret (rows ++ [row])%list)%eff.

Definition process (au : Progress.auth) (s : string) (rows : list record)
    : M (list record) :=
  (rows' <- Eff.try_ (try_body au s rows)
              (fun e => Eff.ret (rows ++ [[("siret", JStr s);
                                         ("erreur", JStr (str_exn e))]])%list) ;;
   Eff.sleep (sleep a) ;;;
   Eff.ret rows')%eff.

Fixpoint batch (au : Progress.auth) (sirets : list string) (rows : list record)
    : M (list record) :=
  match sirets with
  | [] => Eff.ret rows
  | s :: rest => (rows' <- process au s rows ;; batch au rest rows')%eff
  end.

Definition main (sur : Progress.surroundings) : M unit :=
  (sirets <- Eff.lift (Progress.load_sirets (Progress.pandas sur)
                          (Progress.input_file sur)) ;;
   (match sirets with
    | [] => Eff.emit (Stderr "Aucun SIRET valide (14 chiffres) trouvé dans le fichier.")
    | _ => Eff.ret tt
    end) ;;;
   au <- startup sur ;;
   rows <- batch au sirets [] ;;
   Excel.to_excel repr (Progress.excel_writer sur) (output a) rows ;;;
   Eff.emit (Stdout ("OK -> " ++ output a)))%eff.

End Run.

End V2.

(* ------------------------------------------------------------------ *)
(** ** The loader as the specification words it *)

Module LoaderSpec.

(** The text a cell stands for once the column is read as text. *)
Definition text_of_cell (c : Loader.cell) : string :=
  match c with
  | Some s => s
  | None => "nan"
  end.

(** "Removes duplicates (first occurrence wins, order preserved)": the
    value at position [i] stays exactly when it does not occur at an
    earlier position. *)
Definition first_occurrences (l : list string) : list string :=
  map snd
    (filter (fun p => negb (Loader.mem (snd p) (firstn (fst p) l)))
       (combine (seq 0 (length l)) l)).

(** "Strips every non-digit character, ..., yields only values of length
    exactly 14". *)
Definition load_identifiers (column : list Loader.cell) : list string :=
  filter (fun s => (String.length s =? 14)%nat)
    (first_occurrences
       (map (fun c => Text.strip_non_digits (text_of_cell c)) column)).

End LoaderSpec.

(* ------------------------------------------------------------------ *)
(** ** Shapes of payloads and of rows *)

Module Shape.

Definition is_dict (v : json) : bool :=
  match v with JDict _ => true | _ => false end.

Definition is_text (v : json) : bool :=
  match v with JStr _ => true | _ => false end.

(** A sequence whose entries are dictionaries. *)
Definition dicts (v : json) : bool :=
  match v with JList l => forallb is_dict l | _ => false end.

(** Text, or a falsy value such as [null]. *)
Definition text_or_falsy (v : json) : bool := is_text v || negb (Py.truthy v).

(** The entry under [k], when there is one, satisfies [p]. *)
Definition when_present (d : dict) (k : string) (p : json -> bool) : bool :=
  match Py.lookup d k with
  | Some v => p v
  | None => true
  end.

Definition absent (d : dict) (k : string) : Prop := Py.lookup d k = None.

Definition as_dict (v : json) : dict :=
  match v with JDict d => d | _ => [] end.

(** The dictionaries the extractor reads from a payload: [etab], [unite],
    [adr] and [periode] of [extract_fields]. *)
Definition etab (payload : dict) : dict :=
  as_dict (Py.or_ (Py.dict_get payload "etablissement" JNull) (JDict payload)).

Definition unite (payload : dict) : dict :=
  as_dict (Py.dict_get (etab payload) "uniteLegale" (JDict [])).

Definition adr (payload : dict) : dict :=
  as_dict (Py.or_ (Py.dict_get (etab payload) "adresseEtablissement" (JDict []))
             (JDict [])).

Definition periode (payload : dict) : dict :=
  match Py.dict_get (etab payload) "periodesEtablissement" JNull with
  | JList (JDict p :: _) => p
  | _ => []
  end.

(** The premise of the specification: the four nested entries are
    dictionaries (a sequence of dictionaries for the periods) when present. *)
Definition nested_dicts (payload : dict) : bool :=
  when_present payload "etablissement" is_dict
  && when_present (etab payload) "uniteLegale" is_dict
  && when_present (etab payload) "adresseEtablissement" is_dict
  && when_present (etab payload) "periodesEtablissement" dicts.

(** What the extractor slices or joins is text when present. *)
Definition texts (payload : dict) : bool :=
  when_present (etab payload) "siret" text_or_falsy
  && when_present (adr payload) "typeVoieEtablissement" text_or_falsy
  && when_present (adr payload) "libelleVoieEtablissement" text_or_falsy
  && when_present (adr payload) "complementAdresseEtablissement" text_or_falsy.

(** Value of a field of a row, [None] when the row has no such key. *)
Definition field (r : record) (k : string) : option json := Py.lookup r k.

Definition enriched_keys : list string :=
  [ "siret"; "siren"; "denomination"; "etat_etablissement"; "date_creation";
    "tranche_effectifs"; "naf"; "libelle_naf"; "adresse_ligne_1";
    "code_postal"; "commune" ].

Definition failure_keys : list string := [ "siret"; "erreur" ].

Definition is_enriched (r : record) : Prop := Progress.keys r = enriched_keys.

Definition is_failure (r : record) : Prop := Progress.keys r = failure_keys.

End Shape.

Module FieldSpec.

Import Shape.

(** What the extractor yields where keys are absent, field by field: null,
    except for [libelle_naf] and for the [siren] derived from an absent
    [siret], which are the empty text. *)
Definition absent_keys (p : dict) (r : record) : Prop :=
  let e := etab p in
  let u := unite p in
  let ad := adr p in
  let pe := periode p in
  (absent e "siret" -> field r "siret" = Some JNull)
  /\ (absent u "denominationUniteLegale" -> absent u "nomUniteLegale" ->
      field r "denomination" = Some JNull)
  /\ (absent pe "etatAdministratifEtablissement" ->
      absent e "etatAdministratifEtablissement" ->
      field r "etat_etablissement" = Some JNull)
  /\ (absent u "dateCreationUniteLegale" -> field r "date_creation" = Some JNull)
  /\ (absent u "trancheEffectifsUniteLegale" ->
      absent e "trancheEffectifsEtablissement" ->
      field r "tranche_effectifs" = Some JNull)
  /\ (absent pe "activitePrincipaleEtablissement" ->
      absent e "activitePrincipaleEtablissement" ->
      field r "naf" = Some JNull)
  /\ (absent ad "numeroVoieEtablissement" -> absent ad "typeVoieEtablissement" ->
      absent ad "libelleVoieEtablissement" ->
      absent ad "complementAdresseEtablissement" ->
      field r "adresse_ligne_1" = Some JNull)
  /\ (absent ad "codePostalEtablissement" -> field r "code_postal" = Some JNull)
  /\ (absent ad "libelleCommuneEtablissement" -> field r "commune" = Some JNull)
  /\ (absent pe "nomenclatureActivitePrincipaleEtablissement" ->
      field r "libelle_naf" = Some (JStr ""))
  /\ (absent e "siret" -> field r "siren" = Some (JStr "")).

(** The siren is the first nine characters of the siret. *)
Definition siren_derived (p : dict) (r : record) : Prop :=
  forall s, Py.lookup (etab p) "siret" = Some (JStr s) ->
            field r "siret" = Some (JStr s)
            /\ field r "siren" = Some (JStr (Text.take 9 s)).

(** The payload of the specification's example. *)
Definition acme : dict :=
  [ ("etablissement",
     JDict [ ("siret", JStr "X");
             ("uniteLegale", JDict [ ("denominationUniteLegale", JStr "ACME") ]) ]) ].

End FieldSpec.

(* ------------------------------------------------------------------ *)
(** ** Reading traces *)

Module Trace.

Definition is_429 (rp : reply) : bool :=
  match rp with
  | Response r => status_code r =? 429
  | NoResponse _ => false
  end.

Definition is_get (ev : event) : bool :=
  match ev with Get _ _ => true | _ => false end.

Definition is_post (ev : event) : bool :=
  match ev with Post _ _ _ => true | _ => false end.

Definition is_network (ev : event) : bool := is_get ev || is_post ev.

Definition is_write_csv (ev : event) : bool :=
  match ev with WriteCsv _ _ _ => true | _ => false end.

Definition count (p : event -> bool) (evs : list event) : nat :=
  length (filter p evs).

(** The state after further events, none of which touches the shared
    headers. *)
Definition push (st : state) (evs : list event) : state :=
  {| gets := gets st + count is_get evs;
     posts := posts st + count is_post evs;
     trace := trace st ++ evs;
     shared_headers := shared_headers st |}.

(** The events of one lookup: requests for [url] with [headers], and
    pauses. *)
Definition lookup_event (url : string) (headers : list (string * string))
    (ev : event) : Prop :=
  ev = Get url headers \/ exists d, ev = Sleep d.

(** Content of the file at [path] after the events: what the last
    [WriteCsv] to it wrote. *)
Fixpoint csv_file (path : string) (evs : list event)
    : option (list string * list (list json)) :=
  match evs with
  | [] => None
  | ev :: rest =>
      match csv_file path rest with
      | Some c => Some c
      | None =>
          match ev with
          | WriteCsv p header lines =>
              if (p =? path)%string then Some (header, lines) else None
          | _ => None
          end
      end
  end.

(** The spreadsheets written, oldest first. *)
Fixpoint excel_files (evs : list event) : list (string * list record) :=
  match evs with
  | [] => []
  | WriteExcel p rows :: rest => (p, rows) :: excel_files rest
  | _ :: rest => excel_files rest
  end.

End Trace.

Module Config.

(** Delays that [time.sleep] accepts and a usable logging period. *)
Definition sane (a : Progress.args) : Prop :=
  Eff.accepts (Progress.sleep a) = true
  /\ Eff.accepts (Progress.retry_backoff a) = true
  /\ Progress.every a <> 0.

(** The defaults of [argparse], with an API key. *)
Definition default (key : option string) : Progress.args :=
  {| Progress.input := "./sirets_nettoyes.csv";
     Progress.output := "./enrichi_insee.xlsx";
     Progress.sleep := 1 # 10;
     Progress.timeout := 30;
     Progress.max_retries := 2;
     Progress.retry_backoff := 8 # 10;
     Progress.every := 10;
     Progress.verbose := false;
     Progress.log_file := None;
     Progress.checkpoint_rows := 50;
     Progress.api_key := key;
     Progress.api_version := Progress.DEFAULT_API_VERSION;
     Progress.client_id := None;
     Progress.client_secret := None;
     Progress.oauth_base := Progress.OAUTH_BASE_DEFAULT |}.

(** No environment variable, no [.env] file, the given [siret] column;
    pandas 2, no [tqdm], a spreadsheet writer that accepts every path. *)
Definition bare (column : list Loader.cell) : Progress.surroundings :=
  {| Progress.getenv := fun _ => None;
     Progress.dotenv := None;
     Progress.input_file := Some column;
     Progress.pandas := Loader.Pandas2;
     Progress.tqdm := false;
     Progress.excel_writer := fun _ _ => None |}.


(** pandas has no engine for the suffix of [path]. *)
Definition no_engine (path : string) : exn :=
  ValueError ("No engine for filetype: '"
              ++ Text.drop 1 (Pathlib.suffix (Pathlib.Path path)) ++ "'").

(** The same as [bare], with a spreadsheet writer that knows the suffix
    [.xlsx] only. *)
Definition xlsx_only (column : list Loader.cell) : Progress.surroundings :=
  {| Progress.getenv := fun _ => None;
     Progress.dotenv := None;
     Progress.input_file := Some column;
     Progress.pandas := Loader.Pandas2;
     Progress.tqdm := false;
     Progress.excel_writer := fun path _ =>
       if (Pathlib.suffix (Pathlib.Path path) =? ".xlsx")%string then None
       else Some (no_engine path) |}.

Definition reply_of (status : Z) (reason : string) (ra : option string)
    (js : res json) : reply :=
  Response {| status_code := status; reason := reason;
              retry_after := ra; body := js |}.

(** A server that answers every request the same way. *)
Definition always (rp : reply) : world :=
  {| http_get := fun _ => rp; http_post := fun _ => rp |}.

End Config.

Module Logs.

(** The events of one call of [log]. *)
Definition lines (a : Progress.args) (msg : string) : list event :=
  Stdout msg ::
  (if Progress.truthy (Progress.log_file a)
   then [Append (Progress.text_of (Progress.log_file a)) msg]
   else []).

Definition no_credentials : string :=
  "ERREUR: fournissez --api-key (recommandé) OU --client-id/--client-secret (OAuth2).".

Definition no_valid_siret : string := "Aucun SIRET valide (14 chiffres) trouvé.".

(** What a token request leads to, read off the reply. *)
Definition token_outcome (url : string) (rp : reply) : outcome json :=
  match rp with
  | NoResponse e => Raised e
  | Response r =>
      let st := status_code r in
      if (400 <=? st) && (st <? 500) then
        Raised (HTTPError st (Text.str_of_Z st ++ " Client Error: " ++ reason r
                              ++ " for url: " ++ url))
      else if (500 <=? st) && (st <? 600) then
        Raised (HTTPError st (Text.str_of_Z st ++ " Server Error: " ++ reason r
                              ++ " for url: " ++ url))
      else match body r with
           | Err e => Raised e
           | Ok js => match Py.get js "access_token" with
                      | Ok t => Done t
                      | Err e => Raised e
                      end
           end
  end.

End Logs.

Module Drawn.

(** What a call on the progress bar adds to the trace: nothing when the
    bar is the stand-in. *)
Definition call (bar : Progress.pbar) (c : bar_call) : list event :=
  match bar with
  | Progress.TqdmBar => [Bar c]
  | Progress.Dummy => []
  end.

(** The bar [get_tqdm] hands out. *)
Definition bar_of (sur : Progress.surroundings) : Progress.pbar :=
  if Progress.tqdm sur then Progress.TqdmBar else Progress.Dummy.

End Drawn.

Module Checkpoint.

(** The test of line 233: a checkpoint is due after identifier number [i]. *)
Definition due (a : Progress.args) (total i : Z) : bool :=
  (0 <? Progress.checkpoint_rows a)
  && ((i mod Progress.checkpoint_rows a =? 0) || (i =? total)).

(** A record rendered under a header: its value in each column, the empty
    text where it has none. *)
Definition render (header : list string) (r : record) : list json :=
  map (fun k => Py.dict_get r k (JStr "")) header.

(** The accumulated records as a table: header and one line per record. *)
Definition table (rows : list record) : list string * list (list json) :=
  (Progress.fieldnames_of rows, map (render (Progress.fieldnames_of rows)) rows).

Definition written (checkpoint_csv : string) (rows : list record) : string :=
  "Checkpoint écrit: " ++ checkpoint_csv ++ " (lignes="
  ++ Text.str_of_nat (length rows) ++ ")".

(** What the checkpoint step of identifier number [i] adds to the trace. *)
Definition events (a : Progress.args) (checkpoint_csv : string) (total i : Z)
    (rows : list record) : list event :=
  if due a total i then
    WriteCsv checkpoint_csv (fst (table rows)) (snd (table rows))
    :: Logs.lines a (written checkpoint_csv rows)
  else [].

End Checkpoint.

Module Rows.

Definition is_log (ev : event) : bool :=
  match ev with
  | Stdout _ | Append _ _ => true
  | _ => false
  end.

(** A row of the accumulator: enriched, or the failure of identifier [s]. *)
Definition row_of (s : string) (row : record) : Prop :=
  Shape.is_enriched row
  \/ (Shape.is_failure row /\ Shape.field row "siret" = Some (JStr s)).

Definition one_row (s : string) (rs : list record) : Prop :=
  exists row, rs = [row] /\ row_of s row.

Definition at_most_one_row (s : string) (rs : list record) : Prop :=
  rs = [] \/ one_row s rs.

(** The server never answers 429 to [n] requests in a row. *)
Definition never_only_429 (w : world) (n : nat) : Prop :=
  forall k, exists j, (j < n)%nat /\ Trace.is_429 (http_get w (k + j)) = false.

End Rows.

Module Quiet.

Definition is_excel (ev : event) : bool :=
  match ev with WriteExcel _ _ => true | _ => false end.

(** Neither a token request nor the final spreadsheet. *)
Definition inside_batch (ev : event) : Prop :=
  Trace.is_post ev = false /\ is_excel ev = false.

End Quiet.

(* ------------------------------------------------------------------ *)
(** ** What the claims say about a run *)

Module Claims.

(** The run gets through the loop and reaches the export with [rows] as
    its accumulated rows. *)
Definition gathers (repr : json -> string) (w : world) (a : Progress.args)
    (sur : Progress.surroundings) (rows : list record) : Prop :=
  exists total ckpt b st,
    Progress.collect repr w a sur initial = (Done (total, ckpt, b), st)
    /\ Progress.b_rows b = rows.

(** How the run ends when it exports [rows]: normally, with status 0 and
    the spreadsheet of [rows] as the only one written; or, when the export
    refuses them, with that exception, status 1 and no spreadsheet. *)
Definition exports (repr : json -> string) (w : world) (a : Progress.args)
    (sur : Progress.surroundings) (rows : list record) : Prop :=
  let run := Progress.main repr w a sur initial in
  match Excel.refusal repr (Progress.excel_writer sur) (Progress.output a) rows with
  | None => fst run = Done tt
            /\ Eff.exit_status (fst run) = Some 0
            /\ Trace.excel_files (trace (snd run)) = [(Progress.output a, rows)]
  | Some e => fst run = Raised e
              /\ Eff.exit_status (fst run) = Some 1
              /\ Trace.excel_files (trace (snd run)) = []
  end.



(** A row is classified by its [erreur] key. *)
Definition classified (r : record) : Prop :=
  (Shape.is_enriched r /\ ~ In "erreur" (Progress.keys r))
  \/ (Shape.is_failure r /\ In "erreur" (Progress.keys r)).

(** The loop over [sirets] ends normally and every row it appends to the
    accumulator is classified. *)
Definition appends_classified (repr : json -> string) (w : world)
    (a : Progress.args) (au : Progress.auth) (bar : Progress.pbar)
    (ckpt : string) (total i : Z)
    (sirets : list string) (b : Progress.batch_state) (st : state) : Prop :=
  exists b' st' new,
    Progress.batch repr w a au bar ckpt total i sirets b st = (Done b', st')
    /\ Progress.b_rows b' = (Progress.b_rows b ++ new)%list
    /\ Forall classified new.

End Claims.

(** ** Concrete runs *)

Module Sample.

Definition repr0 : json -> string := fun _ => "".

Definition siret1 : string := "12345678901234".
Definition siret2 : string := "98765432109876".

Definition payload1 : json :=
  JDict [ ("etablissement",
           JDict [ ("siret", JStr siret1);
                   ("uniteLegale",
                    JDict [ ("denominationUniteLegale", JStr "ACME") ]) ]) ].

Definition no_json : res json :=
  Err (RequestError "Expecting value: line 1 column 1 (char 0)").

Definition ok : reply := Config.reply_of 200 "OK" None (Ok payload1).
Definition unauthorized : reply := Config.reply_of 401 "Unauthorized" None no_json.
Definition unavailable : reply := Config.reply_of 503 "Service Unavailable" None no_json.
Definition too_many (ra : option string) : reply :=
  Config.reply_of 429 "Too Many Requests" ra no_json.
Definition token (t : string) : reply :=
  Config.reply_of 200 "OK" None (Ok (JDict [ ("access_token", JStr t) ])).

(** Command line [--api-key k]. *)
Definition key_args : Progress.args := Config.default (Some "k").

Definition key_auth : Progress.auth :=
  {| Progress.headers := [ ("X-INSEE-Api-Key-Integration", "k");
                           ("Accept", "application/json") ];
     Progress.base_url := "https://api.insee.fr/api-sirene/3.11";
     Progress.mode := "API-KEY (v3.11)" |}.

(** Command line [--client-id id --client-secret secret]. *)
Definition oauth_args : Progress.args :=
  {| Progress.input := "./sirets_nettoyes.csv";
     Progress.output := "./enrichi_insee.xlsx";
     Progress.sleep := 1 # 10;
     Progress.timeout := 30;
     Progress.max_retries := 2;
     Progress.retry_backoff := 8 # 10;
     Progress.every := 10;
     Progress.verbose := false;
     Progress.log_file := None;
     Progress.checkpoint_rows := 50;
     Progress.api_key := None;
     Progress.api_version := Progress.DEFAULT_API_VERSION;
     Progress.client_id := Some "id";
     Progress.client_secret := Some "secret";
     Progress.oauth_base := Progress.OAUTH_BASE_DEFAULT |}.

Definition checkpoint_csv : string := "enrichi_insee.checkpoint.csv".

End Sample.

Module Siblings.

(** The canonical variant and its siblings on the same inputs: OAuth2
    credentials on the command line, one valid identifier. *)
Definition sur : Progress.surroundings := Config.bare [Some Sample.siret1].

(** The token endpoint answers 401. *)
Definition token_refused : world :=
  {| http_get := fun _ => Sample.ok; http_post := fun _ => Sample.unauthorized |}.

(** The token endpoint hands out the token [t0], then [t1]; the first two
    lookups are answered 401, the following ones 200. *)
Definition expired_twice : world :=
  {| http_get := fun k => nth k [Sample.unauthorized; Sample.unauthorized] Sample.ok;
     http_post := fun k => nth k [Sample.token "t0"] (Sample.token "t1") |}.

Definition v1_args : V1.args :=
  {| V1.input := "./sirets_nettoyes.csv";
     V1.output := "./enrichi_insee.xlsx";
     V1.sleep := 2 # 10;
     V1.client_id := Some "id";
     V1.client_secret := Some "secret" |}.

Definition v2_args : V2.args :=
  {| V2.input := "./sirets_nettoyes.csv";
     V2.output := "./enrichi_insee.xlsx";
     V2.sleep := 15 # 100;
     V2.api_key := None;
     V2.api_version := Progress.DEFAULT_API_VERSION;
     V2.client_id := Some "id";
     V2.client_secret := Some "secret";
     V2.oauth_base := Progress.OAUTH_BASE_DEFAULT |}.

Definition url1 : string :=
  "https://api.insee.fr/entreprises/sirene/V3/siret/12345678901234".

Definition bearer_t0 : list (string * string) :=
  [("Authorization", "Bearer t0"); ("Accept", "application/json")].

Definition unauthorized_msg (url : string) : string :=
  "401 Client Error: Unauthorized for url: " ++ url.

(** The events of a run that are requests. *)
Definition requests (st : state) : list event :=
  filter Trace.is_network (trace st).

End Siblings.
(* ------------------------------------------------------------------ *)
(** ** What a run leaves behind, whatever its outcome *)

Module Invariant.

(** Every run of [m], from every state and however it ends, extends the
    trace by events that satisfy [P]. *)
Definition emits {A} (P : list event -> Prop) (m : M A) : Prop :=
  forall st, exists evs, trace (snd (m st)) = (trace st ++ evs)%list /\ P evs.

(** Events satisfying [P] followed by events satisfying [Q]. *)
Definition then_ (P Q : list event -> Prop) (evs : list event) : Prop :=
  exists e1 e2, evs = (e1 ++ e2)%list /\ P e1 /\ Q e2.

(** The run of [m] from [st] first emits [ev]. *)
Definition starts_with {A} (ev : event) (m : M A) (st : state) : Prop :=
  exists evs, trace (snd (m st)) = (trace st ++ ev :: evs)%list.

(** Whatever [m] does, the trace only grows. *)
Definition grows {A} (m : M A) : Prop := emits (fun _ => True) m.

(** A property of event lists that holds of no event and passes to
    concatenations. *)
Definition monoid (P : list event -> Prop) : Prop :=
  P [] /\ forall e1 e2, P e1 -> P e2 -> P (e1 ++ e2)%list.

End Invariant.

Module Footprint.

(** The lines printed on the standard output, oldest first. *)
Definition stdout_lines (evs : list event) : list string :=
  flat_map (fun ev => match ev with Stdout l => [l] | _ => [] end) evs.

(** The lines appended to the file at [path], oldest first. *)
Definition appended (path : string) (evs : list event) : list string :=
  flat_map (fun ev => match ev with
                      | Append p l => if (p =? path)%string then [l] else []
                      | _ => []
                      end) evs.

(** The log file mirrors the standard output. *)
Definition mirrored (path : string) (evs : list event) : Prop :=
  appended path evs = stdout_lines evs.

(** What the canonical variant may do to the outside: write the checkpoint
    file and the spreadsheet, append to the log file, post to the token
    endpoint; it never prints a line on the standard error, where only the
    [tqdm] bar draws, when [tqdm] is installed. *)
Definition allowed (a : Progress.args) (sur : Progress.surroundings)
    (ev : event) : Prop :=
  match ev with
  | WriteCsv p _ _ => Progress.checkpoint_path a = Ok p
  | WriteExcel p _ => p = Progress.output a
  | Append p _ => Progress.log_file a = Some p /\ p <> ""
  | Post url _ _ => url = Progress.TOKEN_URL
  | Stderr _ => False
  | Bar _ => Progress.tqdm sur = true
  | Get _ _ | Sleep _ | Stdout _ => True
  end.

(** The two bases a lookup can go to: the API-key one and the OAuth2 one. *)
Definition bases (a : Progress.args) : list string :=
  [ Progress.APIKEY_BASE ++ Progress.api_version a;
    Progress.rstrip_slash (Progress.oauth_base a) ].

(** A request is a lookup of one of [sirets]: [base]/siret/[s]. *)
Definition lookup_of (a : Progress.args) (sirets : list string) (ev : event) : Prop :=
  match ev with
  | Get url _ => exists base s, In base (bases a) /\ In s sirets
                                /\ url = base ++ "/siret/" ++ s
  | _ => True
  end.

(** The identifiers of the input file; none when it cannot be read. *)
Definition loaded (sur : Progress.surroundings) : list string :=
  match Progress.load_sirets (Progress.pandas sur) (Progress.input_file sur) with
  | Ok sirets => sirets
  | Err _ => []
  end.

(** Token requests a run can make: none with an API key, one without. *)
Definition token_requests (a : Progress.args) (sur : Progress.surroundings) : nat :=
  if Progress.truthy (Progress.resolve_api_key a sur) then 0 else 1.

Definition no_post (ev : event) : Prop := Trace.is_post ev = false.

Definition posts_at_most (n : nat) (evs : list event) : Prop :=
  (Trace.count Trace.is_post evs <= n)%nat.

End Footprint.

Module Logged.

(** Command line [--api-key k --log-file run.log --verbose --every 1
    --checkpoint-rows 1]. *)
Definition args : Progress.args :=
  {| Progress.input := "./sirets_nettoyes.csv";
     Progress.output := "./enrichi_insee.xlsx";
     Progress.sleep := 1 # 10;
     Progress.timeout := 30;
     Progress.max_retries := 2;
     Progress.retry_backoff := 8 # 10;
     Progress.every := 1;
     Progress.verbose := true;
     Progress.log_file := Some "run.log";
     Progress.checkpoint_rows := 1;
     Progress.api_key := Some "k";
     Progress.api_version := Progress.DEFAULT_API_VERSION;
     Progress.client_id := None;
     Progress.client_secret := None;
     Progress.oauth_base := Progress.OAUTH_BASE_DEFAULT |}.

(** Two identifiers; the first lookup is refused, the others succeed. *)
Definition sur : Progress.surroundings :=
  Config.bare [Some Sample.siret1; Some Sample.siret2].

Definition server : world :=
  {| http_get := fun k => nth k [Sample.unavailable] Sample.ok;
     http_post := fun _ => Sample.unauthorized |}.

End Logged.

(* ------------------------------------------------------------------ *)
(** ** Reading one attempt of the retry loop *)

Module Attempt.

(** What an iteration of the retry loop makes of the server's answer: a
    row and [break], a pause of [d] seconds after a 429, or the [except]
    clause -- also after a 429 whose pause [float] or [time.sleep]
    refuses. *)
Inductive result : Type :=
| Row (r : record)
| Limited (d : Q)
| Failed (e : exn).

Definition read (repr : json -> string) (a : Progress.args) (url : string)
    (rp : reply) : result :=
  match rp with
  | NoResponse e => Failed e
  | Response r =>
      let st := status_code r in
      if st =? 429 then
        match Progress.pause_of repr a (retry_after r) with
        | Err e => Failed e
        | Ok d => match Eff.sleep_error d with
                  | Some e => Failed e
                  | None => Limited d
                  end
        end
      else if (400 <=? st) && (st <? 500) then
        Failed (HTTPError st (Text.str_of_Z st ++ " Client Error: " ++ reason r
                              ++ " for url: " ++ url))
      else if (500 <=? st) && (st <? 600) then
        Failed (HTTPError st (Text.str_of_Z st ++ " Server Error: " ++ reason r
                              ++ " for url: " ++ url))
      else match body r with
           | Err e => Failed e
           | Ok js => match Progress.extract_fields repr js with
                      | Ok row => Row row
                      | Err e => Failed e
                      end
           end
  end.

Definition is_row (r : result) : bool :=
  match r with Row _ => true | _ => false end.

Definition is_limited (r : result) : bool :=
  match r with Limited _ => true | _ => false end.

(** [last_err] after attempts with these results, none of which is a row:
    a 429 leaves it alone, a failure replaces it. *)
Definition last_error (start : option exn) (results : list result) : option exn :=
  fold_left (fun acc r => match r with Failed e => Some e | _ => acc end)
    results start.

(** The results of the [n] requests for [url] made from the state [st] on. *)
Definition answers (repr : json -> string) (w : world) (a : Progress.args)
    (url : string) (st : state) (n : nat) : list result :=
  map (fun j => read repr a url (http_get w (gets st + j))) (seq 0 n).

(** The pause that follows an attempt without a row. *)
Definition pause (a : Progress.args) (r : result) : Q :=
  match r with
  | Limited d => d
  | _ => Progress.retry_backoff a
  end.

(** The failure record of identifier [s]. *)
Definition failure (s : string) (e : exn) : record :=
  [("siret", JStr s); ("erreur", JStr (str_exn e))].

(** The accumulator after the retry loop of identifier [s] ended with
    [ls] (lines 222-224). *)
Definition settle (s : string) (b : Progress.batch_state)
    (ls : Progress.attempt_state) : Progress.batch_state :=
  match Progress.last_err ls with
  | Some e => {| Progress.b_rows := (Progress.rows ls ++ [failure s e])%list;
                 Progress.b_ok := Progress.ok ls;
                 Progress.b_ko := S (Progress.b_ko b) |}
  | None => {| Progress.b_rows := Progress.rows ls;
               Progress.b_ok := Progress.ok ls;
               Progress.b_ko := Progress.b_ko b |}
  end.

(** The local variables on entry of the retry loop. *)
Definition enter (b : Progress.batch_state) : Progress.attempt_state :=
  {| Progress.attempt := 0; Progress.last_err := None;
     Progress.rows := Progress.b_rows b; Progress.ok := Progress.b_ok b |}.

End Attempt.

(* ------------------------------------------------------------------ *)
(** ** Counting rows, and the end of [main] *)

Module Tally.

(** A row with an [erreur] key. *)
Definition failed (r : record) : bool := Loader.mem "erreur" (Progress.keys r).

Definition failures (rows : list record) : nat := length (filter failed rows).

Definition successes (rows : list record) : nat :=
  length (filter (fun r => negb (failed r)) rows).

(** The line of the summary that gives the counts. *)
Definition total_line (total : nat) (ok ko : nat) : string :=
  "Total: " ++ Text.str_of_Z (Z.of_nat total) ++ " | OK: " ++ Text.str_of_nat ok
  ++ " | KO: " ++ Text.str_of_nat ko.

(** The log lines that follow the export (lines 249-254). *)
Definition summary (a : Progress.args) (total : nat) (b : Progress.batch_state)
    (checkpoint_csv : string) : list event :=
  (Logs.lines a ""
   ++ Logs.lines a "----------- RÉSUMÉ -----------"
   ++ Logs.lines a (total_line total (Progress.b_ok b) (Progress.b_ko b))
   ++ Logs.lines a ("Fichier Excel: " ++ Progress.output a)
   ++ Logs.lines a ("CSV checkpoint (dernier): " ++ checkpoint_csv)
   ++ Logs.lines a "------------------------------")%list.

(** The first line [main] logs once the mode is known. *)
Definition mode_line (a : Progress.args) (au : Progress.auth) (total : nat)
    : list event :=
  Logs.lines a ("Mode: " ++ Progress.mode au ++ " | Total SIRET à traiter: "
                ++ Text.str_of_Z (Z.of_nat total)).

Definition empty : Progress.batch_state :=
  {| Progress.b_rows := []; Progress.b_ok := 0; Progress.b_ko := 0 |}.

End Tally.

Module Flaky.

(** The first lookup is answered 503, the following ones 200. *)
Definition server : world :=
  {| http_get := fun k => nth k [Sample.unavailable] Sample.ok;
     http_post := fun _ => Sample.unauthorized |}.

(** The record extracted from [Sample.payload1]. *)
Definition row1 : record :=
  [ ("siret", JStr Sample.siret1);
    ("siren", JStr "123456789");
    ("denomination", JStr "ACME");
    ("etat_etablissement", JNull);
    ("date_creation", JNull);
    ("tranche_effectifs", JNull);
    ("naf", JNull);
    ("libelle_naf", JStr "");
    ("adresse_ligne_1", JNull);
    ("code_postal", JNull);
    ("commune", JNull) ].

Definition url1 : string :=
  "https://api.insee.fr/api-sirene/3.11/siret/12345678901234".

(** Command line [--api-key k --max-retries -1]. *)
Definition no_attempt : Progress.args :=
  {| Progress.input := "./sirets_nettoyes.csv";
     Progress.output := "./enrichi_insee.xlsx";
     Progress.sleep := 1 # 10;
     Progress.timeout := 30;
     Progress.max_retries := -1;
     Progress.retry_backoff := 8 # 10;
     Progress.every := 10;
     Progress.verbose := false;
     Progress.log_file := None;
     Progress.checkpoint_rows := 50;
     Progress.api_key := Some "k";
     Progress.api_version := Progress.DEFAULT_API_VERSION;
     Progress.client_id := None;
     Progress.client_secret := None;
     Progress.oauth_base := Progress.OAUTH_BASE_DEFAULT |}.

(** Command line [--api-key k --every 0]. *)
Definition every_zero : Progress.args :=
  {| Progress.input := "./sirets_nettoyes.csv";
     Progress.output := "./enrichi_insee.xlsx";
     Progress.sleep := 1 # 10;
     Progress.timeout := 30;
     Progress.max_retries := 2;
     Progress.retry_backoff := 8 # 10;
     Progress.every := 0;
     Progress.verbose := false;
     Progress.log_file := None;
     Progress.checkpoint_rows := 50;
     Progress.api_key := Some "k";
     Progress.api_version := Progress.DEFAULT_API_VERSION;
     Progress.client_id := None;
     Progress.client_secret := None;
     Progress.oauth_base := Progress.OAUTH_BASE_DEFAULT |}.

(** The first lookup is answered 503, the second 429 with a pause of
    about 292 years, the following ones 429 with a pause of 2 seconds. *)
Definition overloaded : world :=
  {| http_get := fun k => nth k [Sample.unavailable;
                                 Sample.too_many (Some "9223372037")]
                            (Sample.too_many (Some "2"));
     http_post := fun _ => Sample.unauthorized |}.

(** Command line [--api-key k --checkpoint-rows 0]. *)
Definition no_checkpoint : Progress.args :=
  {| Progress.input := "./sirets_nettoyes.csv";
     Progress.output := "./enrichi_insee.xlsx";
     Progress.sleep := 1 # 10;
     Progress.timeout := 30;
     Progress.max_retries := 2;
     Progress.retry_backoff := 8 # 10;
     Progress.every := 10;
     Progress.verbose := false;
     Progress.log_file := None;
     Progress.checkpoint_rows := 0;
     Progress.api_key := Some "k";
     Progress.api_version := Progress.DEFAULT_API_VERSION;
     Progress.client_id := None;
     Progress.client_secret := None;
     Progress.oauth_base := Progress.OAUTH_BASE_DEFAULT |}.

(** Command line [--api-key k --output out.txt]. *)
Definition to_text_file : Progress.args :=
  {| Progress.input := "./sirets_nettoyes.csv";
     Progress.output := "out.txt";
     Progress.sleep := 1 # 10;
     Progress.timeout := 30;
     Progress.max_retries := 2;
     Progress.retry_backoff := 8 # 10;
     Progress.every := 10;
     Progress.verbose := false;
     Progress.log_file := None;
     Progress.checkpoint_rows := 50;
     Progress.api_key := Some "k";
     Progress.api_version := Progress.DEFAULT_API_VERSION;
     Progress.client_id := None;
     Progress.client_secret := None;
     Progress.oauth_base := Progress.OAUTH_BASE_DEFAULT |}.

(** A lookup answered with a name that holds the control character
    U+0001. *)
Definition control_character : reply :=
  Config.reply_of 200 "OK" None
    (Ok (JDict [ ("etablissement",
                  JDict [ ("siret", JStr Sample.siret1);
                          ("uniteLegale",
                           JDict [ ("denominationUniteLegale",
                                    JStr ("ACME" ++ String (ascii_of_nat 1) "")) ]) ]) ])).

End Flaky.

Module Saved.

(** An event that saves results: the checkpoint or the spreadsheet. *)
Definition is_save (ev : event) : bool :=
  match ev with
  | WriteCsv _ _ _ | WriteExcel _ _ => true
  | _ => false
  end.

Definition nothing (evs : list event) : Prop :=
  Forall (fun ev => is_save ev = false) evs.

End Saved.

(* ------------------------------------------------------------------ *)
(** ** Stripping, read from the left *)

Module Strip.

(** [s.rstrip()] computed from the left: a character goes when it
    satisfies [p] and everything after it has gone. *)
Fixpoint rstrip_rec (p : ascii -> bool) (s : string) : string :=
  match s with
  | EmptyString => EmptyString
  | String c r =>
      match rstrip_rec p r with
      | EmptyString => if p c then EmptyString else String c EmptyString
      | r' => String c r'
      end
  end.

(** The last character of a text, if any. *)
Fixpoint last_char (s : string) : option ascii :=
  match s with
  | EmptyString => None
  | String c EmptyString => Some c
  | String _ r => last_char r
  end.

(** The first character of a text, if any. *)
Definition first_char (s : string) : option ascii :=
  match s with
  | EmptyString => None
  | String c _ => Some c
  end.

(** Neither the first nor the last character satisfies [p]. *)
Definition clean (p : ascii -> bool) (s : string) : Prop :=
  (forall c, first_char s = Some c -> p c = false)
  /\ (forall c, last_char s = Some c -> p c = false).

End Strip.

Module Address.

(** A payload with a street number, a street type and a street name. *)
Definition payload : json :=
  JDict [ ("etablissement",
           JDict [ ("siret", JStr Sample.siret1);
                   ("adresseEtablissement",
                    JDict [ ("numeroVoieEtablissement", JStr "12");
                            ("typeVoieEtablissement", JStr "RUE");
                            ("libelleVoieEtablissement", JStr "DE LA PAIX ") ]) ]) ].

(** The establishment of [Sample.payload1], without its envelope. *)
Definition bare : dict :=
  [ ("siret", JStr Sample.siret1);
    ("uniteLegale", JDict [ ("denominationUniteLegale", JStr "ACME") ]) ].

End Address.

(* ------------------------------------------------------------------ *)
(** ** Reading a [.env] file line by line *)

Module Env.

(** The assignment a line makes, if it makes one: the key and the value
    [read_env_file] stores for it. *)
Definition assignment (line : string) : option (string * string) :=
  let line := Text.strip line in
  if (line =? "")%string || Text.startswith "#" line then None
  else match Text.split_once "=" line with
       | None => None
       | Some (k, v) =>
           Some (Text.strip k,
                 Text.strip_char "'"
                   (Text.strip_char Progress.double_quote (Text.strip v)))
       end.

(** The value the last line that assigns [k] gives it. *)
Definition last_assigned (k : string) (lines : list string) : option string :=
  fold_left (fun acc line =>
               match assignment line with
               | Some (k', v) => if (k' =? k)%string then Some v else acc
               | None => acc
               end) lines None.

End Env.

Module Token.

(** The token endpoint answers 200 with a JSON object [d]. *)
Definition answers (w : world) (st : state) (d : dict) : Prop :=
  exists r, http_post w (posts st) = Response r
            /\ status_code r = 200 /\ body r = Ok (JDict d).

(** What the start-up hands to the lookups in OAuth2 mode, given the text
    after [Bearer]. *)
Definition oauth (a : Progress.args) (token : string) : Progress.auth :=
  {| Progress.headers := [("Authorization", "Bearer " ++ token);
                          ("Accept", "application/json")];
     Progress.base_url := Progress.rstrip_slash (Progress.oauth_base a);
     Progress.mode := "OAUTH2" |}.

(** A token endpoint that answers 200 with [{"token_type": "Bearer"}]. *)
Definition without_token : world :=
  Config.always (Config.reply_of 200 "OK" None
                   (Ok (JDict [("token_type", JStr "Bearer")]))).

End Token.

(* ------------------------------------------------------------------ *)
(** ** Rows of [enrich_sirets_insee_1.py] *)

Module V1Rows.

Definition enriched_keys : list string :=
  [ "siret"; "siren"; "denomination"; "enseigne"; "nom_commercial";
    "statut_diffusion"; "etat_etablissement"; "date_creation";
    "tranche_effectifs"; "naf"; "libelle_naf"; "adresse_ligne_1";
    "code_postal"; "commune" ].

(** The record of a value that is not 14 characters long (line 154). *)
Definition invalid (s : string) : record :=
  [("siret", JStr s); ("erreur", JStr "SIRET invalide")].

(** The row of the value [s]: the invalid-identifier record when [s] is
    not 14 characters long; otherwise an enriched record or the failure
    record of [s]. *)
Definition row_of (s : string) (row : record) : Prop :=
  if Loader.valid s
  then Progress.keys row = enriched_keys
       \/ exists e, row = [("siret", JStr s); ("erreur", JStr (str_exn e))]
  else row = invalid s.


End V1Rows.

(* ------------------------------------------------------------------ *)
(** ** [enrich_sirets_insee.py]: the first script

    Credentials from the environment only, token renewed once on 401,
    values that are not 14 characters long skipped.  As for
    [enrich_sirets_insee_1.py], [INSEE_TOKEN_URL] and
    [INSEE_SIRET_URL_TMPL] are taken as unset. *)

Module V0.

Record args : Type := {
  input : string;
  output : string;
  sleep : Q
}.

Definition missing_credentials : string :=
  "ERREUR: définissez INSEE_CLIENT_ID et INSEE_CLIENT_SECRET dans vos variables d'environnement.".

(** [v[k]] for a text key [k]: only a dict can be indexed by a text. *)
Definition getitem (v : json) (k : string) : res json :=
  match v with
  | JDict d =>
      match Py.lookup d k with
      | Some x => Ok x
      | None => Err (KeyError ("'" ++ k ++ "'"))
      end
  | JList _ => Err (TypeError "list indices must be integers or slices, not str")
  | JStr _ => Err (TypeError "string indices must be integers, not 'str'")
  | _ => Err (Py.not_subscriptable v)
  end.

Section Run.

Variable repr : json -> string.
Variable w : world.
Variable a : args.

(** [r.json()["access_token"]] *)
Definition get_token (cid csecret : string) : M json :=
  (r <- Eff.requests_post w V1.TOKEN_URL cid csecret ;;
   Eff.raise_for_status r V1.TOKEN_URL ;;;
   js <- Eff.lift (body r) ;;
   Eff.lift (getitem js "access_token"))%eff.

(** [periode.get(k, "") or etab.get(k, "")] *)
Definition either_text (periode etab : json) (k : string) : res json :=
  (v <- Py.get_or periode k (JStr "") ;;
   Py.or_else v (Py.get_or etab k (JStr "")))%res.

(** The items of the generator joined into the first address line. *)
Fixpoint adr_items (periode etab : json) (ks : list string) : res (list json) :=
  match ks with
  | [] => Ok []
  | k :: r =>
      (c <- V1.either periode etab k ;;
       if Py.truthy c then
         v <- either_text periode etab k ;;
         let item := JStr (Text.strip (Py.str repr v)) in
         rest <- adr_items periode etab r ;;
         Ok (item :: rest)
       else adr_items periode etab r)%res
  end.

Definition extract_fields (payload : json) : res record :=
  (e <- Py.get payload "etablissement" ;;
   let etab := Py.or_ e payload in
   unite <- Py.get_or etab "uniteLegale" (JDict []) ;;
   p <- Py.get etab "periodesEtablissement" ;;
   p' <- Py.or_else p (Py.get etab "periodesEtablissementUniteLegale") ;;
   let periodes_etab := Py.or_ p' (JList []) in
   periode <- (if Py.truthy periodes_etab then Py.item0 periodes_etab
               else Ok (JDict [])) ;;
   items <- adr_items periode etab V1.adr_fields ;;
   adresse_l1 <- Py.join " " items ;;
   code_postal <- V1.either periode etab "codePostalEtablissement" ;;
   commune <- V1.either periode etab "libelleCommuneEtablissement" ;;
   naf <- V1.either periode etab "activitePrincipaleEtablissement" ;;
   ln <- Py.get periode "nomenclatureActivitePrincipaleEtablissement" ;;
   let lib_naf := Py.or_ ln (JStr "") in
   siret <- Py.get etab "siret" ;;
   sn <- Py.get unite "siren" ;;
   siren <- (if Py.truthy sn then Ok sn
             else (s' <- Py.get etab "siret" ;;
                   Py.slice_to 9 (Py.or_ s' (JStr "")))) ;;
   d0 <- Py.get unite "denominationUniteLegale" ;;
   denomination <- Py.or_else d0 (Py.get unite "nomUniteLegale") ;;
   enseigne <- V1.either periode etab "enseigne1Etablissement" ;;
   nom_commercial <- V1.either periode etab "nomCommercialEtablissement" ;;
   statut <- Py.get unite "statutDiffusionUniteLegale" ;;
   etat <- V1.either periode etab "etatAdministratifEtablissement" ;;
   date_creation <- Py.get unite "dateCreationUniteLegale" ;;
   tranche <- Py.get unite "trancheEffectifsUniteLegale" ;;
   Ok [ ("siret", siret);
        ("siren", siren);
        ("denomination", denomination);
        ("enseigne", enseigne);
        ("nom_commercial", nom_commercial);
        ("statut_diffusion", statut);
        ("etat_etablissement", etat);
        ("date_creation", date_creation);
        ("tranche_effectifs", tranche);
        ("naf", naf);
        ("libelle_naf", lib_naf);
        ("adresse_ligne_1", Py.or_ (JStr adresse_l1) JNull);
        ("code_postal", code_postal);
        ("commune", commune) ])%res.

(** Body of the [try] of the lookup loop; [headers] is rebound on a
    renewal and stays so for the identifiers that follow. *)
Definition try_body (cid csecret siret : string) (rows : list record)
    : M (list record) :=
  let url := V1.SIRET_URL ++ siret in
  (h <- Eff.read_headers ;;
   r <- Eff.requests_get w url h ;;
   r <- (if status_code r =? 401 then
           token <- get_token cid csecret ;;
           Eff.write_headers (V1.bearer repr token) ;;;
           h' <- Eff.read_headers ;;
           Eff.requests_get w url h'
         else Eff.ret r) ;;
   Eff.raise_for_status r url ;;;
   data <- Eff.lift (body r) ;;
   row <- Eff.lift (extract_fields data) ;;
   Eff.ret (rows ++ [row])%list)%eff.

(** Body of [for siret in df["siret"].dropna().unique()]. *)
Definition process (cid csecret siret : string) (rows : list record)
    : M (list record) :=
  if negb (String.length siret =? 14)%nat then Eff.ret rows
  else
    (rows' <- Eff.try_ (try_body cid csecret siret rows)
                (fun e => Eff.ret (rows ++ [[("siret", JStr siret);
                                           ("erreur", JStr (str_exn e))]])%list) ;;
     Eff.sleep (sleep a) ;;;
     Eff.ret rows')%eff.

Fixpoint batch (cid csecret : string) (sirets : list string) (rows : list record)
    : M (list record) :=
  match sirets with
  | [] => Eff.ret rows
  | s :: rest =>
      (rows' <- process cid csecret s rows ;;
       batch cid csecret rest rows')%eff
  end.

Definition main (sur : Progress.surroundings) : M unit :=
  let cid := Progress.getenv sur "INSEE_CLIENT_ID" in
  let csecret := Progress.getenv sur "INSEE_CLIENT_SECRET" in
  if negb (Progress.truthy cid) || negb (Progress.truthy csecret) then
    (Eff.emit (Stderr missing_credentials) ;;;
     Eff.sys_exit 1)%eff
  else
    let cid := Progress.text_of cid in
    let csecret := Progress.text_of csecret in
    (token <- get_token cid csecret ;;
     Eff.write_headers (V1.bearer repr token) ;;;
     col <- Eff.lift (Loader.column_siret (Progress.input_file sur)) ;;
     rows <- batch cid csecret (Loader.normalized (Progress.pandas sur) col) [] ;;
     Excel.to_excel repr (Progress.excel_writer sur) (output a) rows ;;;
     Eff.emit (Stdout ("OK -> " ++ output a)))%eff.

End Run.

End V0.

Module V0Rows.

(** What a token request of the first script leads to, read off the
    reply. *)
Definition token_outcome (rp : reply) : outcome json :=
  match rp with
  | NoResponse e => Raised e
  | Response r =>
      let st := status_code r in
      if (400 <=? st) && (st <? 500) then
        Raised (HTTPError st (Text.str_of_Z st ++ " Client Error: " ++ reason r
                              ++ " for url: " ++ V1.TOKEN_URL))
      else if (500 <=? st) && (st <? 600) then
        Raised (HTTPError st (Text.str_of_Z st ++ " Server Error: " ++ reason r
                              ++ " for url: " ++ V1.TOKEN_URL))
      else match body r with
           | Err e => Raised e
           | Ok js => match V0.getitem js "access_token" with
                      | Ok t => Done t
                      | Err e => Raised e
                      end
           end
  end.


(** Environment with the two client credentials, no [.env] file. *)
Definition sur (column : list Loader.cell) : Progress.surroundings :=
  {| Progress.getenv := fun k =>
       if (k =? "INSEE_CLIENT_ID")%string then Some "id"
       else if (k =? "INSEE_CLIENT_SECRET")%string then Some "secret"
       else None;
     Progress.dotenv := None;
     Progress.input_file := Some column;
     Progress.pandas := Loader.Pandas2;
     Progress.tqdm := false;
     Progress.excel_writer := fun _ _ => None |}.

Definition args0 : V0.args :=
  {| V0.input := "/mnt/data/sirets_nettoyes.csv";
     V0.output := "/mnt/data/enrichi_insee.xlsx";
     V0.sleep := 2 # 10 |}.

End V0Rows.

Module Legacy.

(** The payload gives its periods under [periodesEtablissementUniteLegale]
    only: the one case in which the first script reads a period the later
    ones do not see. *)
Definition periods_only (payload : json) : bool :=
  match Py.get payload "etablissement" with
  | Ok e =>
      let etab := Py.or_ e payload in
      match Py.get etab "periodesEtablissement",
            Py.get etab "periodesEtablissementUniteLegale" with
      | Ok p, Ok p' => negb (Py.truthy p) && Py.truthy p'
      | _, _ => false
      end
  | Err _ => false
  end.

End Legacy.

Module Renewal.

(** The state after a renewal during the lookup of [s] made from [st]:
    two lookups around one token request, a pause, and the headers holding
    the new token. *)
Definition after (repr : json -> string) (a : V1.args) (cid cs s : string)
    (tok : json) (st : state) : state :=
  {| gets := S (S (gets st));
     posts := S (posts st);
     trace := (trace st
               ++ [ Get (V1.SIRET_URL ++ s) (shared_headers st);
                    Post V1.TOKEN_URL cid cs;
                    Get (V1.SIRET_URL ++ s) (V1.bearer repr tok);
                    Sleep (V1.sleep a) ])%list;
     shared_headers := V1.bearer repr tok |}.

(** The message of the sibling scripts for a refused token. *)
Definition refused (status : Z) : string :=
  "Echec d'authentification (" ++ Text.str_of_Z status
  ++ "). Vérifiez vos identifiants et droits d'accès.".

End Renewal.

(* ------------------------------------------------------------------ *)
(** ** The mode a run operates in *)

Module Mode.

(** What the start-up hands over in the API-key mode (lines 172-176). *)
Definition with_key (a : Progress.args) (key : string) : Progress.auth :=
  {| Progress.headers := [("X-INSEE-Api-Key-Integration", key);
                          ("Accept", "application/json")];
     Progress.base_url := Progress.APIKEY_BASE ++ Progress.api_version a;
     Progress.mode := "API-KEY (v" ++ Progress.api_version a ++ ")" |}.

(** What the start-up hands over in the OAuth2 mode (lines 183-186). *)
Definition with_token (repr : json -> string) (a : Progress.args)
    (token : json) : Progress.auth :=
  {| Progress.headers := [("Authorization", "Bearer " ++ Py.str repr token);
                          ("Accept", "application/json")];
     Progress.base_url := Progress.rstrip_slash (Progress.oauth_base a);
     Progress.mode := "OAUTH2" |}.

(** An event of a run that looks identifiers up as [au] says: no token
    request, and every request is the lookup of one of [sirets] at the
    address and with the headers of [au]. *)
Definition lookup_as (au : Progress.auth) (sirets : list string) (ev : event)
    : Prop :=
  match ev with
  | Get url h =>
      h = Progress.headers au
      /\ exists s, In s sirets /\ url = Progress.build_url au s
  | Post _ _ _ => False
  | _ => True
  end.

(** Lines 190-243 of [main]: what follows the line that names the mode. *)
Definition lookups (repr : json -> string) (w : world) (a : Progress.args)
    (sur : Progress.surroundings) (au : Progress.auth) (sirets : list string)
    : M (Z * string * Progress.batch_state) :=
  (checkpoint_csv <- Eff.lift (Progress.checkpoint_path a) ;;
   bar <- Progress.get_tqdm sur (Z.of_nat (length sirets)) ;;
   b <- Progress.batch repr w a au bar checkpoint_csv (Z.of_nat (length sirets)) 1
          sirets {| Progress.b_rows := []; Progress.b_ok := 0; Progress.b_ko := 0 |} ;;
   Progress.pbar_close bar ;;;
   Eff.ret (Z.of_nat (length sirets), checkpoint_csv, b))%eff.

(** The run [run] operates in the mode of [au] over [sirets]: after the
    events [before] of its start-up it logs the line that names the mode,
    and from then on asks for no token and looks identifiers up as [au]
    says, however it ends. *)
Definition operates (a : Progress.args) (au : Progress.auth)
    (sirets : list string) (before : list event)
    (run : outcome unit * state) : Prop :=
  exists evs,
    trace (snd run)
    = (before ++ Tally.mode_line a au (length sirets) ++ evs)%list
    /\ Forall (lookup_as au sirets) evs.

End Mode.
(* ------------------------------------------------------------------ *)
(** * Properties *)

(** ** Identifiers *)

Lemma mem_In (x : string) (l : list string) :
  Loader.mem x l = true <-> In x l.
Proof.
  unfold Loader.mem. rewrite existsb_exists. split.
  - intros [y [Hy He]]. apply String.eqb_eq in He. now subst.
  - intros H. exists x. split; [assumption | apply String.eqb_refl].
Qed.

Lemma mem_app (x : string) (l1 l2 : list string) :
  Loader.mem x (l1 ++ l2) = Loader.mem x l1 || Loader.mem x l2.
Proof. unfold Loader.mem. apply existsb_app. Qed.

Lemma unique_from_positions (l : list string) :
  forall (seen pre : list string) (k : nat),
    (forall x, Loader.mem x seen = Loader.mem x pre) ->
    Loader.unique_from seen l =
    map snd
      (filter (fun p => negb (Loader.mem (snd p) (pre ++ firstn (fst p - k) l)))
         (combine (seq k (length l)) l)).
Proof.
  induction l as [|x r IH]; intros seen pre k Hseen; [reflexivity|].
  cbn [Loader.unique_from length seq combine filter fst snd].
  rewrite Nat.sub_diag. cbn [firstn]. rewrite app_nil_r, <- Hseen.
  assert (Htail : forall seen',
             (forall y, Loader.mem y seen' = Loader.mem y (pre ++ [x])) ->
             Loader.unique_from seen' r =
             map snd
               (filter (fun p => negb (Loader.mem (snd p)
                                         (pre ++ firstn (fst p - k) (x :: r))))
                  (combine (seq (S k) (length r)) r))).
  { intros seen' Hs. rewrite (IH seen' (pre ++ [x])%list (S k) Hs).
    f_equal. apply filter_ext_in. intros [i y] Hin.
    apply in_combine_l in Hin. apply in_seq in Hin. cbn [fst snd].
    replace (i - k)%nat with (S (i - S k)) by lia.
    cbn [firstn]. now rewrite <- app_assoc. }
  destruct (Loader.mem x seen) eqn:Hx; cbn [negb map snd].
  - apply Htail. intros y. rewrite mem_app, <- Hseen.
    cbn. destruct (String.eqb_spec y x) as [->|]; cbn.
    + rewrite Hx. reflexivity.
    + now rewrite orb_false_r.
  - f_equal. apply Htail. intros y. rewrite mem_app, <- Hseen.
    cbn. rewrite orb_false_r. apply orb_comm.
Qed.

Lemma unique_first_occurrences (l : list string) :
  Loader.unique l = LoaderSpec.first_occurrences l.
Proof.
  unfold Loader.unique, LoaderSpec.first_occurrences.
  rewrite (unique_from_positions l [] [] 0) by reflexivity.
  f_equal. apply filter_ext. intros [i y]. cbn [fst snd app].
  now rewrite Nat.sub_0_r.
Qed.

Lemma unique_from_In (l : list string) :
  forall seen x, In x (Loader.unique_from seen l) <-> In x l /\ ~ In x seen.
Proof.
  induction l as [|y r IH]; intros seen x; cbn [Loader.unique_from].
  - cbn. tauto.
  - destruct (Loader.mem y seen) eqn:Hy.
    + rewrite IH. apply mem_In in Hy. cbn. split.
      * intros [H1 H2]. tauto.
      * intros [[->|H1] H2]; [contradiction | tauto].
    + assert (Hn : ~ In y seen) by (rewrite <- mem_In, Hy; discriminate).
      cbn. rewrite IH. cbn. split.
      * intros [->|[H1 H2]]; [tauto|]. split; [tauto|]. intro; apply H2; tauto.
      * intros [[->|H1] H2]; [tauto|].
        destruct (string_dec y x) as [->|Hne]; [tauto|].
        right. split; [assumption|]. intros [?|?]; tauto.
Qed.

Lemma unique_from_NoDup (l : list string) :
  forall seen, NoDup (Loader.unique_from seen l).
Proof.
  induction l as [|y r IH]; intros seen; cbn [Loader.unique_from].
  - constructor.
  - destruct (Loader.mem y seen); [apply IH|].
    constructor; [|apply IH].
    rewrite unique_from_In. cbn. tauto.
Qed.

Lemma dropna_all_text (column : list Loader.cell) :
  Loader.dropna
    (map (fun c => Loader.str_replace_non_digits
                     (Loader.astype_str Loader.Pandas2 c)) column)
  = map (fun c => Text.strip_non_digits (LoaderSpec.text_of_cell c)) column.
Proof.
  induction column as [|c r IH]; [reflexivity|].
  destruct c; cbn; now rewrite IH.
Qed.

Lemma mem_cons_other (x y : string) (seen : list string) :
  x <> y -> Loader.mem x (y :: seen) = Loader.mem x seen.
Proof.
  intros H.
  change (Loader.mem x (y :: seen)) with ((x =? y)%string || Loader.mem x seen).
  destruct (String.eqb_spec x y); [contradiction|reflexivity].
Qed.

(** The identifiers that are kept do not depend on the generation of
    pandas: what a missing cell becomes is not of length 14. *)
Lemma valid_unique_any_version (v : Loader.version) (column : list Loader.cell) :
  forall seen seen',
    (forall x, Loader.valid x = true -> Loader.mem x seen = Loader.mem x seen') ->
    filter Loader.valid
      (Loader.unique_from seen
         (Loader.dropna (map (fun c => Loader.str_replace_non_digits
                                         (Loader.astype_str v c)) column)))
    = filter Loader.valid
        (Loader.unique_from seen'
           (Loader.dropna (map (fun c => Loader.str_replace_non_digits
                                           (Loader.astype_str Loader.Pandas2 c))
                             column))).
Proof.
  assert (Hstep : forall x seen seen' l l',
             (forall s s', (forall y, Loader.valid y = true ->
                                      Loader.mem y s = Loader.mem y s') ->
                           filter Loader.valid (Loader.unique_from s l)
                           = filter Loader.valid (Loader.unique_from s' l')) ->
             (forall y, Loader.valid y = true ->
                        Loader.mem y seen = Loader.mem y seen') ->
             filter Loader.valid (Loader.unique_from seen (x :: l))
             = filter Loader.valid (Loader.unique_from seen' (x :: l'))).
  { intros x seen seen' l l' IH Hseen. cbn [Loader.unique_from].
    destruct (Loader.valid x) eqn:Hx.
    - rewrite <- (Hseen x Hx). destruct (Loader.mem x seen).
      + now apply IH.
      + cbn [filter]. rewrite Hx. f_equal. apply IH. intros y Hy.
        change (Loader.mem y (x :: seen))
          with ((y =? x)%string || Loader.mem y seen).
        change (Loader.mem y (x :: seen'))
          with ((y =? x)%string || Loader.mem y seen').
        now rewrite (Hseen y Hy).
    - assert (Hother : forall y s, Loader.valid y = true ->
                                   Loader.mem y (x :: s) = Loader.mem y s).
      { intros y s Hy. apply mem_cons_other. intros ->. congruence. }
      destruct (Loader.mem x seen), (Loader.mem x seen');
        cbn [filter]; rewrite ?Hx; apply IH; intros y Hy;
        rewrite ?Hother by assumption; now apply Hseen. }
  induction column as [|c r IH]; intros seen seen' Hseen.
  - reflexivity.
  - destruct c as [s|]; cbn [map Loader.astype_str Loader.str_replace_non_digits
                            option_map Loader.dropna].
    + apply Hstep; assumption.
    + destruct v; cbn [Loader.str_replace_non_digits option_map Loader.dropna].
      * apply Hstep; assumption.
      * change (Text.strip_non_digits "nan") with "".
        cbn [Loader.unique_from].
        destruct (Loader.mem "" seen'); cbn [filter Loader.valid];
          [now apply IH|].
        change (Loader.valid "") with false. cbn iota.
        apply IH. intros y Hy. rewrite mem_cons_other; [now apply Hseen|].
        intros ->. discriminate.
Qed.

Lemma load_any_version (v : Loader.version) (column : list Loader.cell) :
  filter Loader.valid (Loader.normalized v column)
  = filter Loader.valid (Loader.normalized Loader.Pandas2 column).
Proof. apply valid_unique_any_version. reflexivity. Qed.

Lemma filter_chars_all (p : ascii -> bool) (s : string) :
  Text.forall_chars p (Text.filter_chars p s) = true.
Proof.
  induction s as [|c r IH]; [reflexivity|]. cbn.
  destruct (p c) eqn:Hc; [cbn; now rewrite Hc|assumption].
Qed.

Lemma filter_chars_id (p : ascii -> bool) (s : string) :
  Text.forall_chars p s = true -> Text.filter_chars p s = s.
Proof.
  induction s as [|c r IH]; [reflexivity|]. cbn.
  destruct (p c); cbn; [intros H; now rewrite IH|discriminate].
Qed.

Lemma filter_chars_app (p : ascii -> bool) (s t : string) :
  Text.filter_chars p (s ++ t) = Text.filter_chars p s ++ Text.filter_chars p t.
Proof.
  induction s as [|c r IH]; [reflexivity|]. cbn.
  destruct (p c); cbn; now rewrite IH.
Qed.

Lemma NoDup_filter {A} (f : A -> bool) (l : list A) :
  NoDup l -> NoDup (filter f l).
Proof.
  induction 1 as [|x l Hx Hl IH]; cbn; [constructor|].
  destruct (f x); [|assumption].
  constructor; [|assumption]. rewrite filter_In. tauto.
Qed.

(** C3. Whatever the generation of pandas, the loader of the canonical
    variant is the loader of the specification: the column is taken as text, every value loses its
    non-digit characters, duplicates go (first occurrence kept, order of
    the input kept) and only values of length 14 remain; the identifier
    that comes twice verbatim and once with blanks is looked up once. *)
Theorem C3_loader_normalises_dedups_filters (v : Loader.version)
    (column : list Loader.cell) :
  exists sirets,
    Progress.load_sirets v (Some column) = Ok sirets
    /\ sirets = LoaderSpec.load_identifiers column
    /\ NoDup sirets
    /\ (forall s, In s sirets <->
          (exists c, In c column
                     /\ Text.strip_non_digits (LoaderSpec.text_of_cell c) = s)
          /\ String.length s = 14%nat)
    /\ (forall s, In s sirets ->
          Text.forall_chars Text.isdigit s = true /\ String.length s = 14%nat)
    /\ (forall s t, Text.strip_non_digits (s ++ t)
                    = Text.strip_non_digits s ++ Text.strip_non_digits t)
    /\ (forall s, Text.forall_chars Text.isdigit s = true ->
                  Text.strip_non_digits s = s)
    /\ Progress.load_sirets v
         (Some [Some "12345678901234"; Some "12345678901234";
                Some "1234 5678 901234"])
       = Ok ["12345678901234"].
Proof.
  exists (filter Loader.valid (Loader.normalized v column)).
  rewrite (load_any_version v column).
  assert (Hload : Progress.load_sirets v (Some column)
                  = Ok (filter Loader.valid (Loader.normalized Loader.Pandas2 column)))
    by (cbn; now rewrite (load_any_version v column)).
  assert (Hin : forall s, In s (filter Loader.valid
                                  (Loader.normalized Loader.Pandas2 column)) <->
          (exists c, In c column
                     /\ Text.strip_non_digits (LoaderSpec.text_of_cell c) = s)
          /\ String.length s = 14%nat).
  { intros s. rewrite filter_In. unfold Loader.normalized, Loader.unique, Loader.valid.
    rewrite unique_from_In, dropna_all_text, in_map_iff, Nat.eqb_eq.
    cbn. split.
    - intros [[[c [H1 H2]] _] H3]. split; [exists c; tauto | assumption].
    - intros [[c [H1 H2]] H3]. split; [|assumption].
      split; [exists c; tauto | tauto]. }
  split; [exact Hload|].
  split.
  { unfold LoaderSpec.load_identifiers, Loader.normalized.
    now rewrite dropna_all_text, unique_first_occurrences. }
  split; [apply NoDup_filter, unique_from_NoDup|].
  split; [exact Hin|].
  split.
  { intros s H. apply Hin in H. destruct H as [[c [_ <-]] H]. split.
    - apply filter_chars_all.
    - assumption. }
  split; [intros s t; apply filter_chars_app|].
  split; [intros s; apply filter_chars_id|].
  now destruct v.
Qed.

(** ** Field extraction *)

Ltac res_cases H :=
  repeat match type of H with
         | res_bind ?x _ = _ =>
             let v := fresh "v" in
             destruct x as [v|?]; cbn [res_bind] in H; [|discriminate H]
         | Ok _ = Ok _ => injection H as H
         | (let _ := _ in _) = _ => cbv zeta in H
         end.

Lemma extract_fields_keys (repr : json -> string) (payload : json) (r : record) :
  Progress.extract_fields repr payload = Ok r -> Shape.is_enriched r.
Proof.
  unfold Progress.extract_fields. intros H. res_cases H.
  subst r. reflexivity.
Qed.

Lemma or_text (v : json) :
  Shape.text_or_falsy v = true ->
  exists s, Py.or_ v (JStr "") = JStr s.
Proof.
  unfold Shape.text_or_falsy, Py.or_. destruct (Py.truthy v) eqn:Ht.
  - rewrite orb_false_r. destruct v; try discriminate. eauto.
  - eauto.
Qed.

Lemma when_present_get (d : dict) (k : string) (p : json -> bool) (dflt : json) :
  Shape.when_present d k p = true -> p dflt = true ->
  p (Py.dict_get d k dflt) = true.
Proof.
  unfold Shape.when_present, Py.dict_get. now destruct (Py.lookup d k).
Qed.

Lemma is_dict_as_dict (v : json) :
  Shape.is_dict v = true -> v = JDict (Shape.as_dict v).
Proof. destruct v; try discriminate. reflexivity. Qed.

Lemma join_texts (sep : string) (l : list json) :
  forallb Shape.is_text l = true -> forall i, exists t, Py.join_from i l = Ok t.
Proof.
  induction l as [|v r IH]; intros H i; cbn.
  - eauto.
  - cbn in H. apply andb_prop in H as [Hv Hr].
    destruct v; try discriminate.
    destruct (IH Hr (S i)) as [t Ht]. rewrite Ht. eauto.
Qed.

Lemma filter_truthy_texts (l : list json) :
  forallb Shape.is_text l = true ->
  forallb Shape.is_text (filter Py.truthy l) = true.
Proof.
  induction l as [|v r IH]; [reflexivity|]. cbn. intros H.
  apply andb_prop in H as [Hv Hr].
  destruct (Py.truthy v); cbn; [rewrite Hv|]; auto.
Qed.

(** What [extract_fields] computes on a payload of the expected shape. *)
Lemma extract_fields_shape (repr : json -> string) (p : dict) :
  Shape.nested_dicts p = true -> Shape.texts p = true ->
  let e := Shape.etab p in
  let u := Shape.unite p in
  let ad := Shape.adr p in
  let pe := Shape.periode p in
  exists siren adresse,
    Progress.extract_fields repr (JDict p)
    = Ok [ ("siret", Py.dict_get e "siret" JNull);
           ("siren", JStr siren);
           ("denomination", Py.or_ (Py.dict_get u "denominationUniteLegale" JNull)
                                   (Py.dict_get u "nomUniteLegale" JNull));
           ("etat_etablissement",
              Py.or_ (Py.dict_get pe "etatAdministratifEtablissement" JNull)
                     (Py.dict_get e "etatAdministratifEtablissement" JNull));
           ("date_creation", Py.dict_get u "dateCreationUniteLegale" JNull);
           ("tranche_effectifs",
              Py.or_ (Py.dict_get u "trancheEffectifsUniteLegale" JNull)
                     (Py.dict_get e "trancheEffectifsEtablissement" JNull));
           ("naf", Py.or_ (Py.dict_get pe "activitePrincipaleEtablissement" JNull)
                          (Py.dict_get e "activitePrincipaleEtablissement" JNull));
           ("libelle_naf",
              Py.or_ (Py.dict_get pe "nomenclatureActivitePrincipaleEtablissement" JNull)
                     (JStr ""));
           ("adresse_ligne_1", adresse);
           ("code_postal", Py.dict_get ad "codePostalEtablissement" JNull);
           ("commune", Py.dict_get ad "libelleCommuneEtablissement" JNull) ]
    /\ Py.slice_to 9 (Py.or_ (Py.dict_get e "siret" JNull) (JStr "")) = Ok (JStr siren)
    /\ (exists joined,
          Py.join " " (filter Py.truthy
            [ JStr (Py.str repr (Py.or_ (Py.dict_get ad "numeroVoieEtablissement" JNull) (JStr "")));
              Py.or_ (Py.dict_get ad "typeVoieEtablissement" JNull) (JStr "");
              Py.or_ (Py.dict_get ad "libelleVoieEtablissement" JNull) (JStr "");
              Py.or_ (Py.dict_get ad "complementAdresseEtablissement" JNull) (JStr "") ])
          = Ok joined
          /\ adresse = Py.or_ (JStr (Text.strip joined)) JNull).
Proof.
  intros Hn Ht e u ad pe.
  unfold Shape.nested_dicts in Hn. unfold Shape.texts in Ht.
  apply andb_prop in Hn as [Hn Hper]. apply andb_prop in Hn as [Hn Hadr].
  apply andb_prop in Hn as [Hn Hun].
  apply andb_prop in Ht as [Ht Hcomp]. apply andb_prop in Ht as [Ht Hlib].
  apply andb_prop in Ht as [Ht Htype].
  change (Shape.etab p) with e in Hper, Hadr, Hun, Ht.
  change (Shape.adr p) with ad in Hcomp, Hlib, Htype.
  (* the four dictionaries *)
  assert (He : Py.or_ (Py.dict_get p "etablissement" JNull) (JDict p) = JDict e).
  { apply is_dict_as_dict. unfold Py.or_.
    destruct (Py.truthy _) eqn:Htr; [|reflexivity].
    unfold Shape.when_present in Hn. unfold Py.dict_get in *.
    destruct (Py.lookup p "etablissement"); [assumption|discriminate]. }
  assert (Hu : Py.dict_get e "uniteLegale" (JDict []) = JDict u).
  { apply is_dict_as_dict. apply when_present_get; auto. }
  assert (Had : Py.or_ (Py.dict_get e "adresseEtablissement" (JDict [])) (JDict [])
                = JDict ad).
  { apply is_dict_as_dict. unfold Py.or_.
    destruct (Py.truthy _); [|reflexivity]. apply when_present_get; auto. }
  assert (Hpe : (if Py.truthy (Py.or_ (Py.dict_get e "periodesEtablissement" JNull) (JList []))
                 then Py.item0 (Py.or_ (Py.dict_get e "periodesEtablissement" JNull) (JList []))
                 else Ok (JDict [])) = Ok (JDict pe)).
  { subst pe. unfold Shape.periode. fold e.
    unfold Shape.when_present, Py.dict_get in *.
    destruct (Py.lookup e "periodesEtablissement") as [v|]; [|reflexivity].
    destruct v as [|b|z|q|s|l|d]; cbn in Hper; try discriminate Hper.
    destruct l as [|x l]; [reflexivity|].
    cbn in Hper. apply andb_prop in Hper as [Hx _].
    destruct x; cbn in Hx; try discriminate Hx. reflexivity. }
  (* the texts *)
  destruct (or_text (Py.dict_get e "siret" JNull)) as [s Hs].
  { apply when_present_get; auto. }
  destruct (or_text (Py.dict_get ad "typeVoieEtablissement" JNull)) as [tv Htv].
  { apply when_present_get; auto. }
  destruct (or_text (Py.dict_get ad "libelleVoieEtablissement" JNull)) as [lv Hlv].
  { apply when_present_get; auto. }
  destruct (or_text (Py.dict_get ad "complementAdresseEtablissement" JNull)) as [cp Hcp].
  { apply when_present_get; auto. }
  destruct (join_texts " " (filter Py.truthy
              [ JStr (Py.str repr (Py.or_ (Py.dict_get ad "numeroVoieEtablissement" JNull) (JStr "")));
                JStr tv; JStr lv; JStr cp ])) with (i := 0%nat) as [t Hjoin].
  { apply filter_truthy_texts. reflexivity. }
  exists (Text.take 9 s), (Py.or_ (JStr (Text.strip (Text.join " " t))) JNull).
  split; [|split].
  - unfold Progress.extract_fields.
    cbn [Py.get Py.get_or res_bind]. rewrite He.
    cbn [Py.get Py.get_or res_bind]. rewrite Hu, Had.
    cbn [Py.get Py.get_or res_bind]. rewrite Htv, Hlv, Hcp.
    unfold Py.join. rewrite Hjoin. cbn [res_bind].
    rewrite Hpe. cbn [Py.get Py.get_or res_bind].
    rewrite Hs. cbn [Py.slice_to res_bind].
    unfold Py.or_else, Py.or_.
    repeat match goal with
           | |- context [if Py.truthy ?v then _ else _] =>
               destruct (Py.truthy v); cbn [res_bind Py.get Py.get_or]
           end; reflexivity.
  - rewrite Hs. reflexivity.
  - exists (Text.join " " t). split; [|reflexivity].
    rewrite Htv, Hlv, Hcp. unfold Py.join. now rewrite Hjoin.
Qed.

Lemma absent_get (d : dict) (k : string) (dflt : json) :
  Shape.absent d k -> Py.dict_get d k dflt = dflt.
Proof. unfold Shape.absent, Py.dict_get. now intros ->. Qed.

(** C8, first half as stated and second half amended.  On the example
    payload the record has siret ["X"], denomination ["ACME"] and siren the
    first nine characters of ["X"].  On every payload whose nested entries
    are dictionaries when present (and whose siret and address parts are
    text when present) the extraction succeeds, a field whose keys are
    absent is null -- but [libelle_naf], and the [siren] of an absent
    siret, are the empty text -- and the siren is the first nine
    characters of the siret. *)
Theorem C8_extract_fields_absent_keys (repr : json -> string) (p : dict)
    (Hnested : Shape.nested_dicts p = true) (Htexts : Shape.texts p = true) :
  (exists r,
     Progress.extract_fields repr (JDict p) = Ok r
     /\ Shape.is_enriched r
     /\ FieldSpec.absent_keys p r
     /\ FieldSpec.siren_derived p r)
  /\ (exists r,
        Progress.extract_fields repr (JDict FieldSpec.acme) = Ok r
        /\ Shape.field r "siret" = Some (JStr "X")
        /\ Shape.field r "denomination" = Some (JStr "ACME")
        /\ Shape.field r "siren" = Some (JStr (Text.take 9 "X"))).
Proof.
  split.
  - destruct (extract_fields_shape repr p Hnested Htexts)
      as [siren [adresse [Hr [Hsiren [joined [Hjoin Hadr]]]]]].
    eexists. split; [exact Hr|]. split; [reflexivity|]. split.
    + unfold FieldSpec.absent_keys, Shape.field. cbn [Py.lookup String.eqb Ascii.eqb Bool.eqb].
      repeat split; intros;
        repeat match goal with
               | H : Shape.absent _ _ |- _ =>
                   rewrite (absent_get _ _ _ H) in *; clear H
               end; try reflexivity.
      * cbn in Hjoin. injection Hjoin as <-. subst adresse. reflexivity.
      * cbn in Hsiren. injection Hsiren as <-. reflexivity.
    + unfold FieldSpec.siren_derived, Shape.field. intros s Hs.
      cbn [Py.lookup String.eqb Ascii.eqb Bool.eqb].
      unfold Py.dict_get in *. rewrite Hs in *.
      split; [reflexivity|].
      unfold Py.or_ in Hsiren. cbn [Py.truthy] in Hsiren.
      destruct (negb (s =? "")%string) eqn:He; cbn in Hsiren.
      * now injection Hsiren as <-.
      * apply negb_false_iff, String.eqb_eq in He. subst s.
        now injection Hsiren as <-.
  - eexists. split; [reflexivity|]. repeat split.
Qed.

(** The instance of C8 at the example payload. *)
Lemma C8_witness :
  Shape.nested_dicts FieldSpec.acme = true
  /\ Shape.texts FieldSpec.acme = true
  /\ exists r,
       Progress.extract_fields (fun _ => "") (JDict FieldSpec.acme) = Ok r
       /\ Shape.is_enriched r
       /\ FieldSpec.absent_keys FieldSpec.acme r
       /\ FieldSpec.siren_derived FieldSpec.acme r.
Proof.
  split; [reflexivity|]. split; [reflexivity|].
  exact (proj1 (C8_extract_fields_absent_keys (fun _ => "") FieldSpec.acme
                  eq_refl eq_refl)).
Defined.

(** C8 as stated fails: on the empty payload every key is absent, the
    extraction succeeds, and [libelle_naf] is the empty text, not null. *)
Lemma C8_counterexample_libelle_naf_not_null :
  Shape.nested_dicts [] = true
  /\ Shape.absent (Shape.periode []) "nomenclatureActivitePrincipaleEtablissement"
  /\ exists r,
       Progress.extract_fields (fun _ => "") (JDict []) = Ok r
       /\ Shape.field r "libelle_naf" = Some (JStr "")
       /\ Shape.field r "libelle_naf" <> Some JNull.
Proof.
  split; [reflexivity|]. split; [reflexivity|].
  eexists. split; [reflexivity|]. split; [reflexivity|]. discriminate.
Qed.

(** ** Effects and traces *)

Lemma state_eta (st : state) :
  {| gets := gets st; posts := posts st; trace := trace st;
     shared_headers := shared_headers st |} = st.
Proof. now destruct st. Qed.

Lemma count_app (p : event -> bool) (l1 l2 : list event) :
  Trace.count p (l1 ++ l2) = (Trace.count p l1 + Trace.count p l2)%nat.
Proof. unfold Trace.count. now rewrite filter_app, length_app. Qed.

Lemma push_nil (st : state) : Trace.push st [] = st.
Proof.
  unfold Trace.push. cbn. rewrite !Nat.add_0_r, app_nil_r. apply state_eta.
Qed.

Lemma push_push (st : state) (e1 e2 : list event) :
  Trace.push (Trace.push st e1) e2 = Trace.push st (e1 ++ e2).
Proof.
  unfold Trace.push. cbn. rewrite !count_app, !Nat.add_assoc, app_assoc.
  reflexivity.
Qed.

Lemma bind_done {A B} (m : M A) (k : A -> M B) (st st' : state) (x : A) :
  m st = (Done x, st') -> Eff.bind m k st = k x st'.
Proof. unfold Eff.bind. now intros ->. Qed.

Lemma emit_push (ev : event) (st : state) :
  Trace.is_network ev = false ->
  Eff.emit ev st = (Done tt, Trace.push st [ev]).
Proof.
  intros H. unfold Eff.emit, Trace.push, Trace.count. cbn.
  apply orb_false_iff in H as [-> ->]. cbn. now rewrite !Nat.add_0_r.
Qed.

Lemma sleep_push (d : Q) (st : state) :
  Eff.accepts d = true -> Eff.sleep d st = (Done tt, Trace.push st [Sleep d]).
Proof.
  intros H. unfold Eff.accepts in H. apply andb_prop in H as [H0 H1].
  unfold Eff.sleep, Eff.sleep_error. rewrite H0, H1. now apply emit_push.
Qed.

Lemma sleep_error_accepts (d : Q) :
  Eff.sleep_error d = None <-> Eff.accepts d = true.
Proof.
  unfold Eff.sleep_error, Eff.accepts.
  destruct (Qle_bool 0 d), (Qle_bool d Eff.SLEEP_MAX); cbn; split;
    (reflexivity || discriminate).
Qed.

(** A delay that [time.sleep] refuses: nothing happens but the exception. *)
Lemma sleep_refused (d : Q) (st : state) :
  Eff.accepts d = false ->
  exists e, Eff.sleep_error d = Some e /\ Eff.sleep d st = (Raised e, st).
Proof.
  intros H. unfold Eff.sleep.
  destruct (Eff.sleep_error d) as [e|] eqn:He; [eauto|].
  apply sleep_error_accepts in He. congruence.
Qed.

Lemma requests_get_push (w : world) (url : string) (h : list (string * string))
    (st : state) :
  Eff.requests_get w url h st
  = (match http_get w (gets st) with
     | NoResponse e => Raised e
     | Response r => Done r
     end, Trace.push st [Get url h]).
Proof.
  unfold Eff.requests_get, Trace.push, Trace.count. cbn.
  rewrite Nat.add_0_r, Nat.add_1_r. now destruct (http_get w (gets st)).
Qed.

Lemma requests_post_push (w : world) (url cid cs : string) (st : state) :
  Eff.requests_post w url cid cs st
  = (match http_post w (posts st) with
     | NoResponse e => Raised e
     | Response r => Done r
     end, Trace.push st [Post url cid cs]).
Proof.
  unfold Eff.requests_post, Trace.push, Trace.count. cbn.
  rewrite Nat.add_0_r, Nat.add_1_r. now destruct (http_post w (posts st)).
Qed.

Lemma raise_for_status_cases (r : response) (url : string) (st : state) :
  (exists m, Eff.raise_for_status r url st = (Raised (HTTPError (status_code r) m), st)
             /\ 400 <= status_code r < 600)
  \/ (Eff.raise_for_status r url st = (Done tt, st)
      /\ ~ 400 <= status_code r < 600).
Proof.
  unfold Eff.raise_for_status.
  destruct ((400 <=? status_code r) && (status_code r <? 500)) eqn:H4.
  - left. eexists. split; [reflexivity|]. lia.
  - destruct ((500 <=? status_code r) && (status_code r <? 600)) eqn:H5.
    + left. eexists. split; [reflexivity|]. lia.
    + right. split; [reflexivity|]. lia.
Qed.

Lemma digits_value_nonneg (t : string) :
  Text.forall_chars Text.isdigit t = true ->
  forall acc, 0 <= acc -> 0 <= Text.digits_value acc t.
Proof.
  induction t as [|c r IH]; cbn [Text.digits_value Text.forall_chars];
    intros H acc Hacc; [assumption|].
  apply andb_prop in H as [Hc Hr]. apply IH; [assumption|].
  unfold Text.isdigit in Hc. apply andb_prop in Hc as [H1 H2].
  apply N.leb_le in H1. lia.
Qed.

Lemma accepts_inject (z : Z) :
  Eff.accepts (inject_Z z) = true <-> 0 <= z <= 9223372036.
Proof.
  unfold Eff.accepts. rewrite andb_true_iff, !Qle_bool_iff.
  unfold Qle, Eff.SLEEP_MAX. cbn [Qnum Qden inject_Z]. lia.
Qed.

(** Texts of decimal digits are the texts [float] reads among those that
    pass [str.isdigit]. *)
Lemma float_of_decimal (repr : json -> string) (t : string) :
  t <> "" -> Text.forall_chars Text.isdigit t = true ->
  Text.str_isdigit t = true
  /\ Py.float_of_digits repr t = Ok (inject_Z (Text.digits_value 0 t)).
Proof.
  intros Hne Hd. apply String.eqb_neq in Hne.
  unfold Text.str_isdigit, Py.float_of_digits. rewrite Hne, Hd. split; [|reflexivity].
  cbn [negb andb]. clear Hne. induction t as [|c r IH]; [reflexivity|].
  cbn [Text.forall_chars] in *. apply andb_prop in Hd as [-> Hr].
  cbn [orb andb]. now apply IH.
Qed.

Lemma float_of_superscript (repr : json -> string) (t : string) :
  Text.forall_chars Text.isdigit t = false ->
  exists e, Py.float_of_digits repr t = Err e.
Proof.
  intros H. unfold Py.float_of_digits. rewrite H, andb_false_r. eauto.
Qed.

(** ** The retry loop *)

Section RetryLoop.

Variable repr : json -> string.
Variable w : world.
Variable a : Progress.args.
Variable au : Progress.auth.
Variable url : string.
Hypothesis Hbackoff : Eff.accepts (Progress.retry_backoff a) = true.

Let bump (ls : Progress.attempt_state) (e : option exn) : Progress.attempt_state :=
  {| Progress.attempt := Progress.attempt ls + 1; Progress.last_err := e;
     Progress.rows := Progress.rows ls; Progress.ok := Progress.ok ls |}.

Lemma except_step (ls : Progress.attempt_state) (e : exn) (st : state) (ev : list event) :
  Progress.except_body a ls e (Trace.push st ev)
  = (Done (Progress.Continue, bump ls (Some e)),
     Trace.push st (ev ++ [Sleep (Progress.retry_backoff a)])).
Proof.
  unfold Progress.except_body.
  erewrite bind_done by (apply sleep_push, Hbackoff).
  now rewrite push_push.
Qed.

(** One iteration always ends normally: with a row and [break], after a
    429 and its pause, or in the [except] clause -- where a 429 ends up
    as well when its pause cannot be taken. *)
Lemma attempt_step (ls : Progress.attempt_state) (st : state) :
  exists c ls' evs,
    Eff.try_ (Progress.try_body repr w a au url ls) (Progress.except_body a ls) st
    = (Done (c, ls'), Trace.push st (Get url (Progress.headers au) :: evs))
    /\ ((c = Progress.Break /\ evs = []
         /\ exists r js row,
              http_get w (gets st) = Response r /\ body r = Ok js
              /\ status_code r <> 429
              /\ Progress.extract_fields repr js = Ok row
              /\ ls' = {| Progress.attempt := Progress.attempt ls;
                          Progress.last_err := None;
                          Progress.rows := Progress.rows ls ++ [row];
                          Progress.ok := S (Progress.ok ls) |})
        \/ (c = Progress.Continue
            /\ exists r d, http_get w (gets st) = Response r /\ status_code r = 429
                           /\ Progress.pause_of repr a (retry_after r) = Ok d
                           /\ Eff.accepts d = true
                           /\ evs = [Sleep d]
                           /\ ls' = bump ls (Progress.last_err ls))
        \/ (c = Progress.Continue
            /\ evs = [Sleep (Progress.retry_backoff a)]
            /\ (exists e, ls' = bump ls (Some e))
            /\ (forall r, http_get w (gets st) = Response r -> status_code r = 429 ->
                forall d, Progress.pause_of repr a (retry_after r) = Ok d ->
                          Eff.accepts d = false))).
Proof.
  assert (Hfail : forall e,
             (forall r, http_get w (gets st) = Response r -> status_code r = 429 ->
                forall d, Progress.pause_of repr a (retry_after r) = Ok d ->
                          Eff.accepts d = false) ->
             exists c ls' evs,
               Progress.except_body a ls e (Trace.push st [Get url (Progress.headers au)])
               = (Done (c, ls'), Trace.push st (Get url (Progress.headers au) :: evs))
               /\ (c = Progress.Continue
                   /\ evs = [Sleep (Progress.retry_backoff a)]
                   /\ (exists e, ls' = bump ls (Some e))
                   /\ (forall r, http_get w (gets st) = Response r ->
                       status_code r = 429 ->
                       forall d, Progress.pause_of repr a (retry_after r) = Ok d ->
                                 Eff.accepts d = false))).
  { intros e Hwhy. exists Progress.Continue, (bump ls (Some e)),
                          [Sleep (Progress.retry_backoff a)].
    split; [apply except_step|]. repeat split; eauto. }
  unfold Eff.try_, Progress.try_body.
  unfold Eff.bind at 1. rewrite requests_get_push.
  destruct (http_get w (gets st)) as [e|r] eqn:Hget.
  - (* the request raised *)
    destruct (Hfail e) as [c [ls' [evs [H1 H2]]]]; [intros r; discriminate|].
    exists c, ls', evs. split; [exact H1|]. right; right. exact H2.
  - destruct (status_code r =? 429) eqn:H429.
    + (* rate limited *)
      apply Z.eqb_eq in H429.
      destruct (Progress.pause_of repr a (retry_after r)) as [d|e] eqn:Hp;
        cbn [Eff.lift]; unfold Eff.bind at 1; cbn [Eff.ret Eff.raise].
      2:{ destruct (Hfail e) as [c [ls' [evs [H1 H2]]]].
          { intros r' [= <-] _ d. congruence. }
          exists c, ls', evs. split; [exact H1|]. right; right. exact H2. }
      destruct (Eff.accepts d) eqn:Hd.
      * exists Progress.Continue, (bump ls (Progress.last_err ls)), [Sleep d].
        split.
        -- erewrite bind_done by (apply sleep_push, Hd).
           cbn [Eff.ret]. rewrite push_push. reflexivity.
        -- right; left. split; [reflexivity|]. exists r, d. repeat split; auto.
      * destruct (sleep_refused d (Trace.push st [Get url (Progress.headers au)]) Hd)
          as [e [_ He]].
        unfold Eff.bind at 1. rewrite He.
        destruct (Hfail e) as [c [ls' [evs [H1 H2]]]].
        { intros r' [= <-] _ d'. congruence. }
        exists c, ls', evs. split; [exact H1|]. right; right. exact H2.
    + assert (Hno : forall r', Response r = Response r' -> status_code r' = 429 ->
                     forall d, Progress.pause_of repr a (retry_after r') = Ok d ->
                               Eff.accepts d = false).
      { intros r' [= <-] H. apply Z.eqb_neq in H429. contradiction. }
      unfold Eff.bind at 1.
      destruct (raise_for_status_cases r url (Trace.push st [Get url (Progress.headers au)]))
        as [[m [-> _]] | [-> _]].
      { destruct (Hfail (HTTPError (status_code r) m) Hno) as [c [ls' [evs [H1 H2]]]].
        exists c, ls', evs. split; [exact H1|]. right; right. exact H2. }
      destruct (body r) as [js|e] eqn:Hbody; cbn [Eff.lift Eff.bind Eff.ret Eff.raise].
      2:{ destruct (Hfail e Hno) as [c [ls' [evs [H1 H2]]]].
          exists c, ls', evs. split; [exact H1|]. right; right. exact H2. }
      destruct (Progress.extract_fields repr js) as [row|e] eqn:Hrow;
        cbn [Eff.lift Eff.bind Eff.ret Eff.raise].
      2:{ destruct (Hfail e Hno) as [c [ls' [evs [H1 H2]]]].
          exists c, ls', evs. split; [exact H1|]. right; right. exact H2. }
      eexists Progress.Break, _, []. split; [reflexivity|].
      left. repeat split. exists r, js, row. apply Z.eqb_neq in H429.
      repeat split; auto.
Qed.

End RetryLoop.

Section RetryLoopSpec.

Variable repr : json -> string.
Variable w : world.
Variable a : Progress.args.
Variable au : Progress.auth.
Variable url : string.
Hypothesis Hbackoff : Eff.accepts (Progress.retry_backoff a) = true.

(** Attempts left when the loop is entered with [ls]. *)
Let left_ (ls : Progress.attempt_state) : nat :=
  Z.to_nat (Progress.max_retries a + 1 - Progress.attempt ls).

(** The retry loop ends normally whenever its bound covers the attempts
    left; it makes at most that many requests, all for [url]; it either
    appends one extracted row, or leaves the rows alone -- and then
    [last_err] is still [None] only if every attempt was answered 429. *)
Lemma retry_loop_spec (fuel : nat) :
  forall (ls : Progress.attempt_state) (st : state),
    (left_ ls <= fuel)%nat ->
    exists ls' evs,
      Progress.retry_loop repr w a fuel au url ls st = (Done ls', Trace.push st evs)
      /\ Forall (Trace.lookup_event url (Progress.headers au)) evs
      /\ (Trace.count Trace.is_get evs <= left_ ls)%nat
      /\ (Progress.attempt ls <= Progress.max_retries a ->
          exists evs', evs = Get url (Progress.headers au) :: evs')
      /\ ((exists js row,
             Progress.extract_fields repr js = Ok row
             /\ Progress.rows ls' = (Progress.rows ls ++ [row])%list
             /\ Progress.ok ls' = S (Progress.ok ls)
             /\ Progress.last_err ls' = None)
          \/ (Progress.rows ls' = Progress.rows ls
              /\ Progress.ok ls' = Progress.ok ls
              /\ (Progress.last_err ls <> None -> Progress.last_err ls' <> None)
              /\ (Progress.last_err ls' = None ->
                  Trace.count Trace.is_get evs = left_ ls
                  /\ forall j, (j < left_ ls)%nat ->
                               Trace.is_429 (http_get w (gets st + j)) = true))).
Proof.
  induction fuel as [|fuel IH]; intros ls st Hfuel;
    cbn [Progress.retry_loop];
    destruct (Progress.attempt ls <=? Progress.max_retries a) eqn:Hguard.
  - apply Z.leb_le in Hguard. subst left_. cbn in Hfuel. lia.
  - (* the loop is over *)
    apply Z.leb_gt in Hguard.
    assert (Hleft : left_ ls = 0%nat) by (subst left_; cbn; lia).
    exists ls, []. rewrite push_nil. split; [reflexivity|].
    split; [constructor|]. split; [cbn; lia|]. split; [lia|].
    right. rewrite Hleft. repeat split; auto. intros j Hj. lia.
  - (* one more attempt *)
    apply Z.leb_le in Hguard.
    assert (Hleft : left_ ls = S (Z.to_nat (Progress.max_retries a + 1
                                            - (Progress.attempt ls + 1))))
      by (subst left_; cbn; lia).
    destruct (attempt_step repr w a au url Hbackoff ls st)
      as [c [ls1 [evs1 [Hstep Hcases]]]].
    erewrite bind_done by exact Hstep.
    destruct Hcases as [[-> [-> [r [js [row [Hget [Hbody [_ [Hrow ->]]]]]]]]]
                       |[[-> [r [d [Hget [H429 [Hp [Hd [-> ->]]]]]]]]
                        |[-> [-> [[e ->] _]]]]].
    + (* a row *)
      eexists _, _. split; [reflexivity|].
      split; [constructor; [now left|constructor]|].
      split; [rewrite Hleft; cbn; lia|]. split; [eauto|].
      left. exists js, row. auto.
    + (* 429 *)
      destruct (IH {| Progress.attempt := Progress.attempt ls + 1;
                      Progress.last_err := Progress.last_err ls;
                      Progress.rows := Progress.rows ls;
                      Progress.ok := Progress.ok ls |}
                   (Trace.push st [Get url (Progress.headers au);
                                   Sleep d]))
        as [ls' [evs [Hrun [Hevs [Hcount [_ Hres]]]]]].
      { subst left_. cbn in *. lia. }
      exists ls', ([Get url (Progress.headers au);
                    Sleep d] ++ evs)%list.
      split; [rewrite Hrun, push_push; reflexivity|].
      split.
      { cbn [app]. constructor; [now left|]. constructor; [right; eauto|].
        exact Hevs. }
      split.
      { rewrite count_app, Hleft. subst left_. cbn in *. lia. }
      split; [intros _; cbn [app]; eauto|].
      destruct Hres as [Hrow|[Hrows [Hok [Hkeep Hlost]]]]; [left; exact Hrow|].
      right. cbn in Hrows, Hok, Hkeep, Hlost.
      split; [exact Hrows|]. split; [exact Hok|]. split; [exact Hkeep|].
      intros Hnone. destruct (Hlost Hnone) as [Hc Hall].
      split.
      { rewrite count_app, Hleft. subst left_. cbn in *. lia. }
      intros j Hj. destruct j as [|j].
      * rewrite Nat.add_0_r, Hget. cbn. now apply Z.eqb_eq.
      * specialize (Hall j). cbn in Hall.
        replace (gets st + S j)%nat with (gets st + 1 + j)%nat by lia.
        apply Hall. rewrite Hleft in Hj. subst left_. cbn. lia.
    + (* the except clause *)
      destruct (IH {| Progress.attempt := Progress.attempt ls + 1;
                      Progress.last_err := Some e;
                      Progress.rows := Progress.rows ls;
                      Progress.ok := Progress.ok ls |}
                   (Trace.push st [Get url (Progress.headers au);
                                   Sleep (Progress.retry_backoff a)]))
        as [ls' [evs [Hrun [Hevs [Hcount [_ Hres]]]]]].
      { subst left_. cbn in *. lia. }
      exists ls', ([Get url (Progress.headers au);
                    Sleep (Progress.retry_backoff a)] ++ evs)%list.
      split; [rewrite Hrun, push_push; reflexivity|].
      split.
      { cbn [app]. constructor; [now left|]. constructor; [right; eauto|].
        exact Hevs. }
      split.
      { rewrite count_app, Hleft. subst left_. cbn in *. lia. }
      split; [intros _; cbn [app]; eauto|].
      destruct Hres as [Hrow|[Hrows [Hok [Hkeep Hlost]]]]; [left; exact Hrow|].
      right. cbn in Hrows, Hok, Hkeep, Hlost.
      split; [exact Hrows|]. split; [exact Hok|].
      assert (Hsome : Progress.last_err ls' <> None) by (apply Hkeep; discriminate).
      split; [intros _; exact Hsome|]. intros Hnone. contradiction.
  - apply Z.leb_gt in Hguard.
    assert (Hleft : left_ ls = 0%nat) by (subst left_; cbn; lia).
    exists ls, []. rewrite push_nil. split; [reflexivity|].
    split; [constructor|]. split; [cbn; lia|]. split; [lia|].
    right. rewrite Hleft. repeat split; auto. intros j Hj. lia.
Qed.

End RetryLoopSpec.

(** ** Rate limiting *)

Section Paused.

Variable repr : json -> string.
Variable w : world.
Variable a : Progress.args.
Variable au : Progress.auth.
Variable url : string.

(** The local variables after an attempt that ended with [e]. *)
Let after (ls : Progress.attempt_state) (e : option exn) : Progress.attempt_state :=
  {| Progress.attempt := Progress.attempt ls + 1; Progress.last_err := e;
     Progress.rows := Progress.rows ls; Progress.ok := Progress.ok ls |}.

(** A 429 whose pause is taken. *)
Lemma step_429 (ls : Progress.attempt_state) (st : state) (r : response) (d : Q) :
  http_get w (gets st) = Response r -> status_code r = 429 ->
  Progress.pause_of repr a (retry_after r) = Ok d -> Eff.accepts d = true ->
  Eff.try_ (Progress.try_body repr w a au url ls) (Progress.except_body a ls) st
  = (Done (Progress.Continue, after ls (Progress.last_err ls)),
     Trace.push st [Get url (Progress.headers au); Sleep d]).
Proof.
  intros Hget H429 Hp Hd.
  unfold Eff.try_, Progress.try_body. unfold Eff.bind at 1.
  rewrite requests_get_push, Hget, H429. cbn [Z.eqb Pos.eqb].
  rewrite Hp. cbn [Eff.lift]. unfold Eff.bind at 1. cbn [Eff.ret].
  erewrite bind_done by (apply sleep_push, Hd).
  cbn [Eff.ret]. now rewrite push_push.
Qed.

(** A 429 whose header [float] cannot read. *)
Lemma step_429_unread (ls : Progress.attempt_state) (st : state) (r : response)
    (e : exn) :
  http_get w (gets st) = Response r -> status_code r = 429 ->
  Progress.pause_of repr a (retry_after r) = Err e ->
  Eff.accepts (Progress.retry_backoff a) = true ->
  Eff.try_ (Progress.try_body repr w a au url ls) (Progress.except_body a ls) st
  = (Done (Progress.Continue, after ls (Some e)),
     Trace.push st [Get url (Progress.headers au);
                    Sleep (Progress.retry_backoff a)]).
Proof.
  intros Hget H429 Hp Hb.
  unfold Eff.try_, Progress.try_body. unfold Eff.bind at 1.
  rewrite requests_get_push, Hget, H429. cbn [Z.eqb Pos.eqb].
  rewrite Hp. cbn [Eff.lift]. unfold Eff.bind at 1. cbn [Eff.raise].
  apply except_step, Hb.
Qed.

(** A 429 whose pause [time.sleep] refuses for its length. *)
Lemma step_429_too_long (ls : Progress.attempt_state) (st : state) (r : response)
    (d : Q) :
  http_get w (gets st) = Response r -> status_code r = 429 ->
  Progress.pause_of repr a (retry_after r) = Ok d ->
  Qle_bool 0 d = true -> Qle_bool d Eff.SLEEP_MAX = false ->
  Eff.accepts (Progress.retry_backoff a) = true ->
  exists msg,
    Eff.try_ (Progress.try_body repr w a au url ls) (Progress.except_body a ls) st
    = (Done (Progress.Continue, after ls (Some (OverflowError msg))),
       Trace.push st [Get url (Progress.headers au);
                      Sleep (Progress.retry_backoff a)]).
Proof.
  intros Hget H429 Hp H0 H1 Hb. eexists.
  unfold Eff.try_, Progress.try_body. unfold Eff.bind at 1.
  rewrite requests_get_push, Hget, H429. cbn [Z.eqb Pos.eqb].
  rewrite Hp. cbn [Eff.lift]. unfold Eff.bind at 1. cbn [Eff.ret].
  unfold Eff.bind at 1. unfold Eff.sleep, Eff.sleep_error. rewrite H0, H1.
  cbn [Eff.raise].
  apply except_step, Hb.
Qed.

End Paused.

Lemma digits_value_snoc (t : string) (c : ascii) :
  forall acc, Text.digits_value acc (t ++ String c "")
              = 10 * Text.digits_value acc t + (Z.of_N (N_of_ascii c) - 48).
Proof.
  induction t as [|x r IH]; intros acc; [reflexivity|].
  cbn [append Text.digits_value]. apply IH.
Qed.

Lemma pause_of_digits (repr : json -> string) (a : Progress.args) (t : string) :
  Text.str_isdigit t = true ->
  Progress.pause_of repr a (Some t) = Py.float_of_digits repr t.
Proof.
  intros H. unfold Progress.pause_of. cbn [Progress.text_of Progress.truthy].
  rewrite H. unfold Text.str_isdigit in H. now apply andb_prop in H as [-> _].
Qed.

Lemma pause_of_other (repr : json -> string) (a : Progress.args)
    (ra : option string) :
  ra = None \/ (exists t, ra = Some t /\ Text.str_isdigit t = false) ->
  Progress.pause_of repr a ra = Ok (Progress.retry_backoff a).
Proof.
  unfold Progress.pause_of. intros [->|[t [-> Ht]]]; [reflexivity|].
  cbn [Progress.text_of]. rewrite Ht. now rewrite andb_false_r.
Qed.

(** C4, amended.  When an attempt is answered 429 the loop reads
    [Retry-After].  A header of decimal digits that denotes at most
    9223372036 seconds makes it sleep that long, and no header or a header
    that is not made of digits makes it sleep the configured backoff; in
    both cases the next attempt for the identifier comes only after that
    pause and the error of earlier attempts is kept.  A header of digits
    that [float] cannot read (a superscript digit) or that [time.sleep]
    refuses (more than 9223372036 seconds) makes the attempt fail like a
    request error: the exception is recorded and the loop sleeps the
    backoff.  With [Retry-After: 2] the pause is 2 seconds.  The loop
    ends, after at most [max_retries + 1] requests for the identifier. *)
Theorem C4_retry_after_honoured_and_bounded (repr : json -> string) (w : world)
    (a : Progress.args) (au : Progress.auth) (url : string) :
  (forall fuel ls st r,
      Progress.attempt ls <= Progress.max_retries a ->
      http_get w (gets st) = Response r -> status_code r = 429 ->
      let after e := {| Progress.attempt := Progress.attempt ls + 1;
                        Progress.last_err := e;
                        Progress.rows := Progress.rows ls;
                        Progress.ok := Progress.ok ls |} in
      (forall t, retry_after r = Some t ->
         t <> "" -> Text.forall_chars Text.isdigit t = true ->
         Text.digits_value 0 t <= 9223372036 ->
         Progress.retry_loop repr w a (S fuel) au url ls st
         = Progress.retry_loop repr w a fuel au url (after (Progress.last_err ls))
             (Trace.push st [Get url (Progress.headers au);
                             Sleep (inject_Z (Text.digits_value 0 t))]))
      /\ ((retry_after r = None
           \/ exists t, retry_after r = Some t /\ Text.str_isdigit t = false) ->
          Eff.accepts (Progress.retry_backoff a) = true ->
          Progress.retry_loop repr w a (S fuel) au url ls st
          = Progress.retry_loop repr w a fuel au url (after (Progress.last_err ls))
              (Trace.push st [Get url (Progress.headers au);
                              Sleep (Progress.retry_backoff a)]))
      /\ (forall t, retry_after r = Some t -> Text.str_isdigit t = true ->
          Text.forall_chars Text.isdigit t = false ->
          Eff.accepts (Progress.retry_backoff a) = true ->
          exists msg,
            Progress.retry_loop repr w a (S fuel) au url ls st
            = Progress.retry_loop repr w a fuel au url
                (after (Some (ValueError msg)))
                (Trace.push st [Get url (Progress.headers au);
                                Sleep (Progress.retry_backoff a)]))
      /\ (forall t, retry_after r = Some t ->
          t <> "" -> Text.forall_chars Text.isdigit t = true ->
          9223372036 < Text.digits_value 0 t ->
          Eff.accepts (Progress.retry_backoff a) = true ->
          exists msg,
            Progress.retry_loop repr w a (S fuel) au url ls st
            = Progress.retry_loop repr w a fuel au url
                (after (Some (OverflowError msg)))
                (Trace.push st [Get url (Progress.headers au);
                                Sleep (Progress.retry_backoff a)])))
  /\ (forall t, t <> "" -> Text.forall_chars Text.isdigit t = true ->
                Text.str_isdigit t = true /\ 0 <= Text.digits_value 0 t)
  /\ (forall t c, Text.digits_value 0 (t ++ String c "")
                  = 10 * Text.digits_value 0 t + (Z.of_N (N_of_ascii c) - 48))
  /\ Progress.pause_of repr a (Some "2") = Ok 2%Q
  /\ (Eff.accepts (Progress.retry_backoff a) = true ->
      forall ls st, Progress.attempt ls = 0 ->
        exists ls' evs,
          Progress.retry_loop repr w a (Progress.retry_fuel a) au url ls st
          = (Done ls', Trace.push st evs)
          /\ Forall (Trace.lookup_event url (Progress.headers au)) evs
          /\ (Trace.count Trace.is_get evs
              <= Z.to_nat (Progress.max_retries a + 1))%nat).
Proof.
  split; [|split; [|split; [|split]]].
  - intros fuel ls st r Hguard Hget H429 after.
    apply Z.leb_le in Hguard.
    split; [|split; [|split]].
    + intros t Hra Hne Hdigit Hmax.
      destruct (float_of_decimal repr t Hne Hdigit) as [Hd Hf].
      cbn [Progress.retry_loop]. rewrite Hguard.
      erewrite bind_done; swap 1 2.
      { apply (step_429 _ _ _ _ _ _ _ r (inject_Z (Text.digits_value 0 t)));
          [assumption|assumption| |].
        - rewrite Hra, pause_of_digits by assumption. exact Hf.
        - apply accepts_inject. split; [|assumption].
          apply digits_value_nonneg; [assumption|lia]. }
      reflexivity.
    + intros Hra Hb.
      cbn [Progress.retry_loop]. rewrite Hguard.
      erewrite bind_done; swap 1 2.
      { apply (step_429 _ _ _ _ _ _ _ r (Progress.retry_backoff a));
          [assumption|assumption| |assumption].
        now apply pause_of_other. }
      reflexivity.
    + intros t Hra Hd Hsup Hb.
      destruct (float_of_superscript repr t Hsup) as [e He].
      assert (Hval : exists msg, e = ValueError msg).
      { unfold Py.float_of_digits in He. rewrite Hsup, andb_false_r in He.
        injection He as <-. eauto. }
      destruct Hval as [msg ->]. exists msg.
      cbn [Progress.retry_loop]. rewrite Hguard.
      erewrite bind_done; swap 1 2.
      { apply (step_429_unread _ _ _ _ _ _ _ r (ValueError msg));
          [assumption|assumption| |assumption].
        rewrite Hra, pause_of_digits by assumption. exact He. }
      reflexivity.
    + intros t Hra Hne Hdigit Hmax Hb.
      destruct (float_of_decimal repr t Hne Hdigit) as [Hd Hf].
      destruct (step_429_too_long repr w a au url ls st r
                  (inject_Z (Text.digits_value 0 t)) Hget H429) as [msg Hstep].
      * rewrite Hra, pause_of_digits by assumption. exact Hf.
      * apply Qle_bool_iff. unfold Qle. cbn.
        assert (0 <= Text.digits_value 0 t)
          by (apply digits_value_nonneg; [assumption|lia]).
        lia.
      * apply not_true_is_false. intros H. apply Qle_bool_iff in H.
        unfold Qle, Eff.SLEEP_MAX in H. cbn [Qnum Qden inject_Z] in H. lia.
      * assumption.
      * exists msg. cbn [Progress.retry_loop]. rewrite Hguard.
        erewrite bind_done by exact Hstep. reflexivity.
  - intros t Hne Ht. split; [apply (float_of_decimal repr t Hne Ht)|].
    apply digits_value_nonneg; [assumption|lia].
  - intros t c. apply digits_value_snoc.
  - reflexivity.
  - intros Hb ls st H0.
    destruct (retry_loop_spec repr w a au url Hb (Progress.retry_fuel a) ls st)
      as [ls' [evs [Hrun [Hevs [Hcount _]]]]].
    { unfold Progress.retry_fuel. rewrite H0. lia. }
    exists ls', evs. split; [exact Hrun|]. split; [exact Hevs|].
    rewrite H0 in Hcount. now rewrite Z.sub_0_r in Hcount.
Qed.

(** C4 as stated fails for a header that denotes more seconds than
    [time.sleep] accepts: [Retry-After: 9223372037] is a non-negative
    integer string, yet the three attempts are each followed by the
    backoff of 0.8 seconds, not by a pause of 9223372037 seconds, and the
    loop ends with the [OverflowError] as its last error. *)
Lemma C4_counterexample_retry_after_too_long :
  Text.str_isdigit "9223372037" = true
  /\ Text.digits_value 0 "9223372037" = 9223372037
  /\ Progress.retry_loop Sample.repr0
       (Config.always (Sample.too_many (Some "9223372037"))) Sample.key_args
       (Progress.retry_fuel Sample.key_args) Sample.key_auth
       "https://api.insee.fr/api-sirene/3.11/siret/12345678901234"
       {| Progress.attempt := 0; Progress.last_err := None;
          Progress.rows := []; Progress.ok := 0 |} initial
     = (Done {| Progress.attempt := 3;
                Progress.last_err :=
                  Some (OverflowError "timestamp too large to convert to C _PyTime_t");
                Progress.rows := []; Progress.ok := 0 |},
        Trace.push initial
          [ Get "https://api.insee.fr/api-sirene/3.11/siret/12345678901234"
              (Progress.headers Sample.key_auth);
            Sleep (8 # 10);
            Get "https://api.insee.fr/api-sirene/3.11/siret/12345678901234"
              (Progress.headers Sample.key_auth);
            Sleep (8 # 10);
            Get "https://api.insee.fr/api-sirene/3.11/siret/12345678901234"
              (Progress.headers Sample.key_auth);
            Sleep (8 # 10) ]).
Proof. vm_compute. repeat split. Qed.

(** ** Start-up: credentials and token *)

Lemma log_push (a : Progress.args) (msg : string) (st : state) :
  Progress.log a msg st = (Done tt, Trace.push st (Logs.lines a msg)).
Proof.
  unfold Progress.log, Logs.lines.
  erewrite bind_done by (now apply emit_push).
  destruct (Progress.truthy (Progress.log_file a)).
  - rewrite emit_push by reflexivity. now rewrite push_push.
  - reflexivity.
Qed.

Lemma log_lines_local (a : Progress.args) (msg : string) :
  Forall (fun ev => Trace.is_network ev = false) (Logs.lines a msg).
Proof.
  unfold Logs.lines. destruct (Progress.truthy (Progress.log_file a));
    repeat constructor.
Qed.

Lemma get_token_outcome (w : world) (cid cs : string) (st : state) :
  Progress.get_token w cid cs st
  = (Logs.token_outcome Progress.TOKEN_URL (http_post w (posts st)),
     Trace.push st [Post Progress.TOKEN_URL cid cs]).
Proof.
  unfold Progress.get_token. unfold Eff.bind at 1.
  rewrite requests_post_push.
  destruct (http_post w (posts st)) as [e|r]; [reflexivity|].
  unfold Logs.token_outcome, Eff.bind at 1, Eff.raise_for_status.
  destruct ((400 <=? status_code r) && (status_code r <? 500)); [reflexivity|].
  destruct ((500 <=? status_code r) && (status_code r <? 600)); [reflexivity|].
  cbn [Eff.ret]. unfold Eff.bind, Eff.lift.
  destruct (body r) as [js|e]; cbn; [|reflexivity].
  now destruct (Py.get js "access_token").
Qed.

(** A [.env] file with a comment, blanks around the sign and quotes. *)
Example read_env_file_example :
  Progress.read_env_file
    (Some ("# cles INSEE" ++ V1.newline ++ V1.newline
           ++ "INSEE_API_KEY = 'abc'" ++ V1.newline
           ++ "sans signe" ++ V1.newline
           ++ "INSEE_CLIENT_ID=id=1" ++ V1.newline))
  = [("INSEE_API_KEY", "abc"); ("INSEE_CLIENT_ID", "id=1")].
Proof. reflexivity. Qed.

Lemma or_priority (cli env file : option string) :
  Progress.or_ (Progress.or_ cli env) file
  = if Progress.truthy cli then cli
    else if Progress.truthy env then env else file.
Proof.
  unfold Progress.or_. destruct (Progress.truthy cli) eqn:Hc;
    [now rewrite Hc | reflexivity].
Qed.

(** The start-up (lines 167-186), from any state.  Each credential is the
    command-line value if there is one, else the environment variable, else
    the value of the [.env] file.  A resolved API key selects the API-key
    mode, with no network activity; otherwise a resolved client id and
    secret select OAuth2, whose first network activity is the token request
    with that pair; otherwise the start-up logs a message for the user and
    exits with status 1, having made no request.  An API key that only the
    [.env] file provides selects the API-key mode. *)
Lemma startup_modes (repr : json -> string) (w : world)
    (a : Progress.args) (sur : Progress.surroundings) (st : state) :
  let file := Progress.env_get (Progress.read_env_file (Progress.dotenv sur)) in
  let key := Progress.resolve_api_key a sur in
  let cid := Progress.resolve_client_id a sur in
  let secret := Progress.resolve_client_secret a sur in
  let first := fun cli env fil : option string =>
    if Progress.truthy cli then cli
    else if Progress.truthy env then env else fil in
  (key = first (Progress.api_key a) (Progress.getenv sur "INSEE_API_KEY")
           (file "INSEE_API_KEY")
   /\ cid = first (Progress.client_id a) (Progress.getenv sur "INSEE_CLIENT_ID")
              (file "INSEE_CLIENT_ID")
   /\ secret = first (Progress.client_secret a)
                 (Progress.getenv sur "INSEE_CLIENT_SECRET")
                 (file "INSEE_CLIENT_SECRET"))
  /\ (Progress.truthy key = true ->
      Progress.startup repr w a sur st
      = (Done {| Progress.headers :=
                   [("X-INSEE-Api-Key-Integration", Progress.text_of key);
                    ("Accept", "application/json")];
                 Progress.base_url := Progress.APIKEY_BASE ++ Progress.api_version a;
                 Progress.mode := "API-KEY (v" ++ Progress.api_version a ++ ")" |},
         st))
  /\ (Progress.truthy key = false ->
      Progress.truthy cid = true -> Progress.truthy secret = true ->
      exists o,
        Progress.startup repr w a sur st
        = (o, Trace.push st [Post Progress.TOKEN_URL (Progress.text_of cid)
                               (Progress.text_of secret)])
        /\ forall token,
             Logs.token_outcome Progress.TOKEN_URL (http_post w (posts st)) = Done token ->
             o = Done {| Progress.headers :=
                           [("Authorization", "Bearer " ++ Py.str repr token);
                            ("Accept", "application/json")];
                         Progress.base_url := Progress.rstrip_slash (Progress.oauth_base a);
                         Progress.mode := "OAUTH2" |})
  /\ (Progress.truthy key = false ->
      Progress.truthy cid = false \/ Progress.truthy secret = false ->
      Progress.startup repr w a sur st
      = (Exited 1, Trace.push st (Logs.lines a Logs.no_credentials))
      /\ Eff.exit_status (@Exited Progress.auth 1) = Some 1
      /\ Forall (fun ev => Trace.is_network ev = false)
           (Logs.lines a Logs.no_credentials))
  /\ Progress.startup repr w (Config.default None)
       {| Progress.getenv := fun _ => None;
          Progress.dotenv := Some "INSEE_API_KEY=abc";
          Progress.input_file := None;
          Progress.pandas := Loader.Pandas3;
          Progress.tqdm := true;
          Progress.excel_writer := fun _ _ => None |} st
     = (Done {| Progress.headers := [("X-INSEE-Api-Key-Integration", "abc");
                                     ("Accept", "application/json")];
                Progress.base_url := "https://api.insee.fr/api-sirene/3.11";
                Progress.mode := "API-KEY (v3.11)" |},
        st).
Proof.
  intros file key cid secret first.
  split; [|split; [|split; [|split]]].
  - repeat split; apply or_priority.
  - intros Hkey. unfold Progress.startup. fold key. now rewrite Hkey.
  - intros Hkey Hcid Hsecret. unfold Progress.startup.
    fold key cid secret. rewrite Hkey, Hcid, Hsecret. cbn [negb orb].
    unfold Eff.bind. rewrite get_token_outcome.
    destruct (Logs.token_outcome Progress.TOKEN_URL (http_post w (posts st)));
      (eexists; split; [reflexivity|]); intros token Ht;
      [injection Ht as ->; reflexivity | discriminate Ht ..].
  - intros Hkey Hmiss. split; [|split].
    + unfold Progress.startup. fold key cid secret. rewrite Hkey.
      assert (Hor : negb (Progress.truthy cid) || negb (Progress.truthy secret) = true).
      { destruct Hmiss as [-> | ->]; [reflexivity|apply orb_true_r]. }
      rewrite Hor. erewrite bind_done by apply log_push. reflexivity.
    + reflexivity.
    + apply log_lines_local.
  - reflexivity.
Qed.

(** ** Field names and checkpoint tables *)

Lemma insert_key_In (k x : string) (l : list string) :
  In x (Progress.insert_key k l) <-> x = k \/ In x l.
Proof.
  induction l as [|y r IH]; cbn.
  - intuition.
  - destruct (String.eqb_spec y k) as [->|Hne].
    + cbn. intuition.
    + destruct (String.ltb k y); cbn; [intuition|].
      rewrite IH. intuition.
Qed.

Lemma ltb_lt (s t : string) : String.ltb s t = true <-> String_as_OT.lt s t.
Proof.
  rewrite <- String_as_OT.cmp_lt. unfold String.ltb, String_as_OT.cmp.
  destruct (String.compare s t); intuition discriminate.
Qed.

Lemma not_ltb_gt (s t : string) :
  String.ltb s t = false -> s <> t -> String_as_OT.lt t s.
Proof.
  intros Hlt Hne. apply String_as_OT.cmp_lt.
  rewrite String_as_OT.cmp_antisym. unfold String.ltb, String_as_OT.cmp in *.
  destruct (String.compare s t) eqn:Hc; [|discriminate|reflexivity].
  apply String.compare_eq_iff in Hc. contradiction.
Qed.

Lemma insert_key_sorted (k : string) (l : list string) :
  StronglySorted String_as_OT.lt l ->
  StronglySorted String_as_OT.lt (Progress.insert_key k l).
Proof.
  induction 1 as [|y r Hr IH Hy]; cbn.
  - repeat constructor.
  - destruct (String.eqb_spec y k) as [->|Hne]; [now constructor|].
    destruct (String.ltb k y) eqn:Hlt.
    + apply ltb_lt in Hlt. constructor; [now constructor|].
      constructor; [assumption|].
      eapply Forall_impl; [|exact Hy]. intros z Hz.
      eapply String_as_OT.lt_trans; eassumption.
    + constructor; [assumption|].
      apply Forall_forall. intros z Hz. apply insert_key_In in Hz as [->|Hz].
      * apply not_ltb_gt; [assumption|congruence].
      * rewrite Forall_forall in Hy. now apply Hy.
Qed.

Lemma sorted_NoDup (l : list string) :
  StronglySorted String_as_OT.lt l -> NoDup l.
Proof.
  induction 1 as [|y r Hr IH Hy]; constructor; [|assumption].
  intros Hin. rewrite Forall_forall in Hy. specialize (Hy y Hin).
  apply String_as_OT.lt_not_eq in Hy. apply Hy. reflexivity.
Qed.

Lemma fold_insert_key (ks : list string) :
  forall acc,
    (forall x, In x (fold_left (fun acc k => Progress.insert_key k acc) ks acc)
               <-> In x ks \/ In x acc)
    /\ (StronglySorted String_as_OT.lt acc ->
        StronglySorted String_as_OT.lt
          (fold_left (fun acc k => Progress.insert_key k acc) ks acc)).
Proof.
  induction ks as [|k r IH]; intros acc; cbn [fold_left].
  - split; [intros x; cbn; intuition | auto].
  - destruct (IH (Progress.insert_key k acc)) as [Hin Hs]. split.
    + intros x. rewrite Hin, insert_key_In. cbn. intuition.
    + intros H. now apply Hs, insert_key_sorted.
Qed.

Lemma fieldnames_In (rows : list record) (k : string) :
  In k (Progress.fieldnames_of rows)
  <-> exists r, In r rows /\ In k (Progress.keys r).
Proof.
  unfold Progress.fieldnames_of.
  rewrite (proj1 (fold_insert_key _ _)), in_flat_map. cbn. intuition.
Qed.

Lemma fieldnames_NoDup (rows : list record) :
  NoDup (Progress.fieldnames_of rows).
Proof.
  apply sorted_NoDup, fold_insert_key. constructor.
Qed.

Lemma csv_line_render (header : list string) (r : record) :
  (forall k, In k (Progress.keys r) -> In k header) ->
  Progress.csv_line header r = Ok (Checkpoint.render header r).
Proof.
  intros H. unfold Progress.csv_line.
  replace (filter _ (Progress.keys r)) with (@nil string); [reflexivity|].
  symmetry. induction (Progress.keys r) as [|k ks IH]; [reflexivity|].
  cbn. assert (Hk : Loader.mem k header = true) by (apply mem_In, H; now left).
  rewrite Hk. cbn. apply IH. intros k' Hk'. apply H. now right.
Qed.

Lemma csv_lines_render (header : list string) (rows : list record) :
  (forall r k, In r rows -> In k (Progress.keys r) -> In k header) ->
  Progress.csv_lines header rows = (map (Checkpoint.render header) rows, None).
Proof.
  induction rows as [|r rest IH]; intros H; [reflexivity|].
  cbn [Progress.csv_lines map].
  rewrite csv_line_render by (intros k Hk; apply (H r); [now left|assumption]).
  rewrite IH; [reflexivity|]. intros r' k Hr'. apply H. now right.
Qed.

(** Writing the checkpoint never fails: the header holds every key. *)
Lemma write_checkpoint_push (rows : list record) (path : string) (st : state) :
  Progress.write_checkpoint_csv rows path (Progress.fieldnames_of rows) st
  = (Done tt, Trace.push st [WriteCsv path (fst (Checkpoint.table rows))
                               (snd (Checkpoint.table rows))]).
Proof.
  unfold Progress.write_checkpoint_csv.
  rewrite csv_lines_render.
  - erewrite bind_done by (now apply emit_push). reflexivity.
  - intros r k Hr Hk. apply fieldnames_In. eauto.
Qed.

(** ** One identifier *)

Lemma opt_log_push (a : Progress.args) (c : bool) (msg : string) (st : state) :
  (if c then Progress.log a msg else Eff.ret tt) st
  = (Done tt, Trace.push st (if c then Logs.lines a msg else [])).
Proof.
  destruct c; [apply log_push|]. now rewrite push_nil.
Qed.

Lemma log_lines_are_logs (a : Progress.args) (msg : string) :
  Forall (fun ev => Rows.is_log ev = true) (Logs.lines a msg).
Proof.
  unfold Logs.lines. destruct (Progress.truthy (Progress.log_file a));
    repeat constructor.
Qed.

Lemma checkpoint_step (a : Progress.args) (ckpt : string) (total i : Z)
    (rows : list record) (st : state) :
  (if (0 <? Progress.checkpoint_rows a)
      && ((i mod Progress.checkpoint_rows a =? 0) || (i =? total))
   then Eff.bind
          (Progress.write_checkpoint_csv rows ckpt (Progress.fieldnames_of rows))
          (fun _ => Progress.log a
             ("Checkpoint écrit: " ++ ckpt ++ " (lignes="
              ++ Text.str_of_nat (length rows) ++ ")"))
   else Eff.ret tt) st
  = (Done tt, Trace.push st (Checkpoint.events a ckpt total i rows)).
Proof.
  unfold Checkpoint.events, Checkpoint.due.
  destruct ((0 <? Progress.checkpoint_rows a)
            && ((i mod Progress.checkpoint_rows a =? 0) || (i =? total))).
  - erewrite bind_done by apply write_checkpoint_push.
    rewrite log_push, push_push. reflexivity.
  - now rewrite push_nil.
Qed.

Lemma pbar_update_push (bar : Progress.pbar) (v : Z) (st : state) :
  Progress.pbar_update bar v st
  = (Done tt, Trace.push st (Drawn.call bar (BarUpdate v))).
Proof.
  destruct bar; cbn [Progress.pbar_update Drawn.call].
  - now apply emit_push.
  - now rewrite push_nil.
Qed.

Lemma pbar_close_push (bar : Progress.pbar) (st : state) :
  Progress.pbar_close bar st = (Done tt, Trace.push st (Drawn.call bar BarClose)).
Proof.
  destruct bar; cbn [Progress.pbar_close Drawn.call].
  - now apply emit_push.
  - now rewrite push_nil.
Qed.

Lemma get_tqdm_push (sur : Progress.surroundings) (total : Z) (st : state) :
  Progress.get_tqdm sur total st
  = (Done (Drawn.bar_of sur),
     Trace.push st (Drawn.call (Drawn.bar_of sur) (BarOpen total))).
Proof.
  unfold Progress.get_tqdm, Drawn.bar_of. destruct (Progress.tqdm sur).
  - erewrite bind_done by (now apply emit_push). reflexivity.
  - cbn [Drawn.call]. now rewrite push_nil.
Qed.

Section Process.

Variable repr : json -> string.
Variable w : world.
Variable a : Progress.args.
Hypothesis Hsane : Config.sane a.

(** Processing one identifier always ends normally.  Its events are the
    lookup, then log lines, then the checkpoint step, then the update of
    the bar and the pause; the
    accumulator gains one row -- or none, and then every one of the
    [max_retries + 1] requests was answered 429 (or there was none to
    make). *)
Lemma process_spec (au : Progress.auth) (bar : Progress.pbar) (ckpt : string)
    (total i : Z) (s : string) (b : Progress.batch_state) (st : state) :
  exists b' lk logs rs,
    Progress.process repr w a au bar ckpt total i s b st
    = (Done b',
       Trace.push st (lk ++ logs
                      ++ Checkpoint.events a ckpt total i (Progress.b_rows b')
                      ++ Drawn.call bar (BarUpdate 1)
                      ++ [Sleep (Progress.sleep a)]))
    /\ Forall (Trace.lookup_event (Progress.build_url au s) (Progress.headers au)) lk
    /\ (0 <= Progress.max_retries a ->
        exists lk', lk = Get (Progress.build_url au s) (Progress.headers au) :: lk')
    /\ (Trace.count Trace.is_get lk <= Z.to_nat (Progress.max_retries a + 1))%nat
    /\ Forall (fun ev => Rows.is_log ev = true) logs
    /\ Progress.b_rows b' = (Progress.b_rows b ++ rs)%list
    /\ Rows.at_most_one_row s rs
    /\ (rs = [] ->
        forall j, (j < Z.to_nat (Progress.max_retries a + 1))%nat ->
                  Trace.is_429 (http_get w (gets st + j)) = true).
Proof.
  destruct Hsane as [Hsleep [Hbackoff Hevery]].
  unfold Progress.process.
  destruct (retry_loop_spec repr w a au (Progress.build_url au s) Hbackoff
              (Progress.retry_fuel a)
              {| Progress.attempt := 0; Progress.last_err := None;
                 Progress.rows := Progress.b_rows b; Progress.ok := Progress.b_ok b |}
              st)
    as [ls [lk [Hrun [Hlk [Hcount [Hhead Hres]]]]]].
  { unfold Progress.retry_fuel. cbn. lia. }
  cbn [Progress.attempt Progress.last_err Progress.rows Progress.ok] in *.
  rewrite Z.sub_0_r in *.
  erewrite bind_done by exact Hrun. cbv zeta.
  erewrite bind_done by apply opt_log_push.
  unfold Progress.py_mod. apply Z.eqb_neq in Hevery. rewrite Hevery.
  cbn [Eff.lift]. erewrite bind_done by reflexivity.
  erewrite bind_done by apply opt_log_push.
  erewrite bind_done by apply checkpoint_step.
  erewrite bind_done by apply pbar_update_push.
  erewrite bind_done by (apply sleep_push, Hsleep).
  unfold Eff.ret. rewrite !push_push.
  match goal with
  | |- context [(Done ?x, Trace.push st (lk ++ ?l1 ++ ?l2 ++ _ ++ _ ++ _))] =>
      set (logs1 := l1); set (logs2 := l2); set (b1 := x)
  end.
  assert (Hlogs : Forall (fun ev => Rows.is_log ev = true) (logs1 ++ logs2)).
  { apply Forall_app. subst logs1 logs2. split;
      match goal with |- Forall _ (if ?c then _ else _) =>
        destruct c; [apply log_lines_are_logs|constructor] end. }
  assert (Hshape : forall rs,
             Progress.b_rows b1 = (Progress.b_rows b ++ rs)%list ->
             Rows.at_most_one_row s rs ->
             (rs = [] ->
              forall j, (j < Z.to_nat (Progress.max_retries a + 1))%nat ->
                        Trace.is_429 (http_get w (gets st + j)) = true) ->
             exists b' lk0 logs rs0,
               (Done b1,
                Trace.push st (lk ++ logs1 ++ logs2
                               ++ Checkpoint.events a ckpt total i (Progress.b_rows b1)
                               ++ Drawn.call bar (BarUpdate 1)
                               ++ [Sleep (Progress.sleep a)]))
               = (Done b',
                  Trace.push st (lk0 ++ logs
                                 ++ Checkpoint.events a ckpt total i (Progress.b_rows b')
                                 ++ Drawn.call bar (BarUpdate 1)
                                 ++ [Sleep (Progress.sleep a)]))
               /\ Forall (Trace.lookup_event (Progress.build_url au s)
                            (Progress.headers au)) lk0
               /\ (0 <= Progress.max_retries a ->
                   exists lk', lk0 = Get (Progress.build_url au s)
                                       (Progress.headers au) :: lk')
               /\ (Trace.count Trace.is_get lk0
                   <= Z.to_nat (Progress.max_retries a + 1))%nat
               /\ Forall (fun ev => Rows.is_log ev = true) logs
               /\ Progress.b_rows b' = (Progress.b_rows b ++ rs0)%list
               /\ Rows.at_most_one_row s rs0
               /\ (rs0 = [] ->
                   forall j, (j < Z.to_nat (Progress.max_retries a + 1))%nat ->
                             Trace.is_429 (http_get w (gets st + j)) = true)).
  { intros rs H1 H2 H3. exists b1, lk, (logs1 ++ logs2)%list, rs.
    split; [now rewrite <- app_assoc|]. auto 10. }
  clearbody logs1 logs2.
  destruct Hres as [[js [row [Hrow [Hrows [Hok Herr]]]]]
                   |[Hrows [Hok [_ Hlost]]]].
  - (* a row was extracted *)
    apply (Hshape [row]).
    + subst b1. rewrite Herr. exact Hrows.
    + right. exists row. split; [reflexivity|]. left.
      eapply extract_fields_keys, Hrow.
    + discriminate.
  - destruct (Progress.last_err ls) as [e|] eqn:Herr.
    + (* a failure row *)
      apply (Hshape [[("siret", JStr s); ("erreur", JStr (str_exn e))]]).
      * subst b1. cbn [Progress.b_rows]. now rewrite Hrows.
      * right. eexists. split; [reflexivity|]. right. split; reflexivity.
      * discriminate.
    + (* nothing *)
      apply (Hshape []).
      * subst b1. cbn [Progress.b_rows]. now rewrite Hrows, app_nil_r.
      * now left.
      * intros _. apply Hlost. reflexivity.
Qed.

End Process.

(** ** The batch *)

Lemma inside_batch_facts (evs : list event) :
  Forall Quiet.inside_batch evs ->
  Trace.count Trace.is_post evs = 0%nat /\ Trace.excel_files evs = [].
Proof.
  unfold Trace.count.
  induction 1 as [|ev evs [Hp Hx] _ [IH1 IH2]]; [now split|].
  cbn [filter]. rewrite Hp. split; [exact IH1|].
  destruct ev; try discriminate Hx; exact IH2.
Qed.

Lemma lookup_events_inside (url : string) (h : list (string * string))
    (evs : list event) :
  Forall (Trace.lookup_event url h) evs -> Forall Quiet.inside_batch evs.
Proof.
  apply Forall_impl. intros ev [->|[d ->]]; now split.
Qed.

Lemma logs_inside (evs : list event) :
  Forall (fun ev => Rows.is_log ev = true) evs -> Forall Quiet.inside_batch evs.
Proof.
  apply Forall_impl. intros ev H. destruct ev; try discriminate H; now split.
Qed.

Lemma checkpoint_events_inside (a : Progress.args) (ckpt : string) (total i : Z)
    (rows : list record) :
  Forall Quiet.inside_batch (Checkpoint.events a ckpt total i rows).
Proof.
  unfold Checkpoint.events. destruct (Checkpoint.due a total i); [|constructor].
  constructor; [now split|]. apply logs_inside, log_lines_are_logs.
Qed.

Lemma bar_call_inside (bar : Progress.pbar) (c : bar_call) :
  Forall Quiet.inside_batch (Drawn.call bar c).
Proof. destruct bar; repeat constructor. Qed.

Lemma bind_assoc {A B C} (m : M A) (f : A -> M B) (g : B -> M C) (st : state) :
  Eff.bind (Eff.bind m f) g st = Eff.bind m (fun x => Eff.bind (f x) g) st.
Proof.
  unfold Eff.bind. destruct (m st) as [[x| | |] st']; reflexivity.
Qed.

Lemma bind_ext {A B} (m : M A) (f g : A -> M B) (st : state) :
  (forall x st', f x st' = g x st') -> Eff.bind m f st = Eff.bind m g st.
Proof.
  intros H. unfold Eff.bind. destruct (m st) as [[x| | |] st']; auto.
Qed.

Lemma batch_app (repr : json -> string) (w : world) (a : Progress.args)
    (au : Progress.auth) (bar : Progress.pbar) (ckpt : string) (total : Z)
    (l1 l2 : list string) :
  forall i b st,
    Progress.batch repr w a au bar ckpt total i (l1 ++ l2) b st
    = Eff.bind (Progress.batch repr w a au bar ckpt total i l1 b)
        (fun b1 => Progress.batch repr w a au bar ckpt total
                     (i + Z.of_nat (length l1)) l2 b1) st.
Proof.
  induction l1 as [|s r IH]; intros i b st.
  - cbn [app Progress.batch length]. unfold Eff.bind, Eff.ret.
    now rewrite Z.add_0_r.
  - cbn [app Progress.batch length]. rewrite bind_assoc.
    apply bind_ext. intros b1 st1. rewrite IH. apply bind_ext.
    intros b2 st2. f_equal. lia.
Qed.

Section Batch.

Variable repr : json -> string.
Variable w : world.
Variable a : Progress.args.
Hypothesis Hsane : Config.sane a.
Variable au : Progress.auth.
Variable bar : Progress.pbar.
Variable ckpt : string.
Variable total : Z.

(** The loop over the identifiers always ends normally.  Each identifier
    contributes at most one row, in order; exactly one when the server
    never answers 429 to [max_retries + 1] requests in a row.  Every
    identifier is requested when the retry count is not negative.  The
    loop asks for no token and writes no spreadsheet. *)
Lemma batch_spec (sirets : list string) :
  forall (i : Z) (b : Progress.batch_state) (st : state),
  exists b' evs per,
    Progress.batch repr w a au bar ckpt total i sirets b st
    = (Done b', Trace.push st evs)
    /\ Progress.b_rows b' = (Progress.b_rows b ++ concat per)%list
    /\ Forall2 Rows.at_most_one_row sirets per
    /\ (Rows.never_only_429 w (Z.to_nat (Progress.max_retries a + 1)) ->
        Forall2 Rows.one_row sirets per)
    /\ (0 <= Progress.max_retries a ->
        forall s, In s sirets ->
                  In (Get (Progress.build_url au s) (Progress.headers au)) evs)
    /\ Forall Quiet.inside_batch evs.
Proof.
  induction sirets as [|s rest IH]; intros i b st.
  - exists b, [], []. rewrite push_nil. cbn. rewrite app_nil_r.
    repeat split; try constructor. intros _ s [].
  - cbn [Progress.batch].
    destruct (process_spec repr w a Hsane au bar ckpt total i s b st)
      as [b1 [lk [logs [rs [Hrun [Hlk [Hhead [_ [Hlogs [Hrows [Hone Hlost]]]]]]]]]]].
    erewrite bind_done by exact Hrun.
    destruct (IH (i + 1) b1 (Trace.push st (lk ++ logs
                   ++ Checkpoint.events a ckpt total i (Progress.b_rows b1)
                   ++ Drawn.call bar (BarUpdate 1)
                   ++ [Sleep (Progress.sleep a)])))
      as [b' [evs [per [Hrun' [Hrows' [Hper [Hper1 [Hgets Hq]]]]]]]].
    exists b', ((lk ++ logs ++ Checkpoint.events a ckpt total i (Progress.b_rows b1)
                 ++ Drawn.call bar (BarUpdate 1)
                 ++ [Sleep (Progress.sleep a)]) ++ evs)%list, (rs :: per).
    split; [now rewrite Hrun', push_push|].
    split; [rewrite Hrows', Hrows; cbn [concat]; now rewrite app_assoc|].
    split; [now constructor|].
    split.
    { intros Hnever. constructor; [|now apply Hper1].
      destruct Hone as [->|H1]; [|exact H1].
      destruct (Hnever (gets st)) as [j [Hj Hfalse]].
      rewrite (Hlost eq_refl j Hj) in Hfalse. discriminate. }
    split.
    { intros Hmax s' [<-|Hin].
      - destruct (Hhead Hmax) as [lk' ->]. now left.
      - apply in_or_app. right. now apply Hgets. }
    repeat (apply Forall_app; split); try assumption.
    + eapply lookup_events_inside, Hlk.
    + now apply logs_inside.
    + apply checkpoint_events_inside.
    + apply bar_call_inside.
    + repeat constructor.
Qed.

End Batch.

(** ** The whole run *)

Lemma excel_files_app (l1 l2 : list event) :
  Trace.excel_files (l1 ++ l2) = (Trace.excel_files l1 ++ Trace.excel_files l2)%list.
Proof.
  induction l1 as [|ev r IH]; [reflexivity|].
  destruct ev; cbn; rewrite IH; reflexivity.
Qed.

Lemma logs_no_excel (evs : list event) :
  Forall (fun ev => Rows.is_log ev = true) evs -> Trace.excel_files evs = [].
Proof. intros H. now apply inside_batch_facts, logs_inside. Qed.

(** The start-up, when it succeeds, has at most asked for a token. *)
Lemma startup_done (repr : json -> string) (w : world) (a : Progress.args)
    (sur : Progress.surroundings) (st st1 : state) (au : Progress.auth) :
  Progress.startup repr w a sur st = (Done au, st1) ->
  exists evs, st1 = Trace.push st evs
              /\ Trace.excel_files evs = []
              /\ Trace.count Trace.is_get evs = 0%nat.
Proof.
  unfold Progress.startup.
  destruct (Progress.truthy (Progress.resolve_api_key a sur)).
  - intros H. injection H as _ <-. exists []. now rewrite push_nil.
  - destruct (negb _ || negb _).
    + erewrite bind_done by apply log_push. discriminate.
    + unfold Eff.bind. rewrite get_token_outcome.
      destruct (Logs.token_outcome _ _); try discriminate.
      intros H. injection H as _ <-. eexists. split; [reflexivity|]. now split.
Qed.


Lemma concat_at_most_one_row (sirets : list string) (per : list (list record)) :
  Forall2 Rows.at_most_one_row sirets per ->
  Forall (fun row => Shape.is_enriched row \/ Shape.is_failure row) (concat per)
  /\ (length (concat per) <= length sirets)%nat.
Proof.
  induction 1 as [|s rs sirets per Hrs _ [IH1 IH2]]; [split; [constructor|reflexivity]|].
  cbn [concat length]. rewrite length_app.
  destruct Hrs as [->|[row [-> Hrow]]]; cbn.
  - split; [assumption|lia].
  - split; [|lia]. constructor; [|assumption].
    destruct Hrow as [?|[? _]]; auto.
Qed.

Lemma summary_are_logs (a : Progress.args) (n : nat) (b : Progress.batch_state)
    (ckpt : string) :
  Forall (fun ev => Rows.is_log ev = true) (Tally.summary a n b ckpt).
Proof.
  unfold Tally.summary. repeat (apply Forall_app; split); apply log_lines_are_logs.
Qed.

(** The export and the summary: nothing but the exception when the export
    is refused. *)
Lemma export_run (repr : json -> string) (a : Progress.args)
    (sur : Progress.surroundings) (n : nat) (ckpt : string)
    (b : Progress.batch_state) (st : state) :
  Progress.export repr a sur (Z.of_nat n) ckpt b st
  = match Excel.refusal repr (Progress.excel_writer sur) (Progress.output a)
            (Progress.b_rows b) with
    | Some e => (Raised e, st)
    | None => (Done tt,
               Trace.push st (WriteExcel (Progress.output a) (Progress.b_rows b)
                              :: Tally.summary a n b ckpt))
    end.
Proof.
  unfold Progress.export, Excel.to_excel.
  destruct (Excel.refusal repr (Progress.excel_writer sur) (Progress.output a)
              (Progress.b_rows b)) as [e|]; [reflexivity|].
  erewrite bind_done by (now apply emit_push).
  repeat (erewrite bind_done by apply log_push).
  rewrite log_push, !push_push. reflexivity.
Qed.

(** [main] is the export of what [collect] hands over. *)
Lemma main_run (repr : json -> string) (w : world) (a : Progress.args)
    (sur : Progress.surroundings) (st : state) :
  Progress.main repr w a sur st
  = match Progress.collect repr w a sur st with
    | (Done r, st2) =>
        Progress.export repr a sur (fst (fst r)) (snd (fst r)) (snd r) st2
    | (Raised e, st2) => (Raised e, st2)
    | (Exited c, st2) => (Exited c, st2)
    | (OutOfFuel, st2) => (OutOfFuel, st2)
    end.
Proof.
  unfold Progress.main, Eff.bind.
  now destruct (Progress.collect repr w a sur st) as [[r| | |] st2].
Qed.

Lemma main_after_collect (repr : json -> string) (w : world) (a : Progress.args)
    (sur : Progress.surroundings) (st st2 : state) (n : nat) (ckpt : string)
    (b : Progress.batch_state) :
  Progress.collect repr w a sur st = (Done (Z.of_nat n, ckpt, b), st2) ->
  Progress.main repr w a sur st
  = match Excel.refusal repr (Progress.excel_writer sur) (Progress.output a)
            (Progress.b_rows b) with
    | Some e => (Raised e, st2)
    | None => (Done tt,
               Trace.push st2 (WriteExcel (Progress.output a) (Progress.b_rows b)
                               :: Tally.summary a n b ckpt))
    end.
Proof.
  intros H. rewrite main_run, H. cbn [fst snd]. apply export_run.
Qed.

Section Main.

Variable repr : json -> string.
Variable w : world.
Variable a : Progress.args.
Variable sur : Progress.surroundings.
Hypothesis Hsane : Config.sane a.

Variable sirets : list string.
Hypothesis Hload :
  Progress.load_sirets (Progress.pandas sur) (Progress.input_file sur) = Ok sirets.
Hypothesis Hsome : sirets <> [].

Variable st st1 : state.
Variable au : Progress.auth.
Hypothesis Hstart : Progress.startup repr w a sur st = (Done au, st1).

Variable ckpt : string.
Hypothesis Hckpt : Progress.checkpoint_path a = Ok ckpt.


End Main.
(** ** Completion of the run *)

(** Without a valid identifier the run stops before the credentials. *)
Lemma main_without_identifier (repr : json -> string) (w : world)
    (a : Progress.args) (sur : Progress.surroundings) (st : state) :
  Progress.load_sirets (Progress.pandas sur) (Progress.input_file sur) = Ok [] ->
  Progress.main repr w a sur st
  = (Exited 0, Trace.push st (Logs.lines a Logs.no_valid_siret)).
Proof.
  intros Hload. rewrite main_run. unfold Progress.collect. rewrite Hload.
  cbn [Eff.lift]. erewrite bind_done by reflexivity. cbv zeta.
  cbn [length Z.of_nat Z.eqb].
  unfold Eff.bind at 1. unfold Eff.bind at 1. rewrite log_push. reflexivity.
Qed.

(** How the run ends once [collect] has handed over its rows. *)
Lemma exports_after_collect (repr : json -> string) (w : world)
    (a : Progress.args) (sur : Progress.surroundings) (st2 : state) (n : nat)
    (ckpt : string) (b : Progress.batch_state) :
  Progress.collect repr w a sur initial = (Done (Z.of_nat n, ckpt, b), st2) ->
  Trace.excel_files (trace st2) = [] ->
  Claims.exports repr w a sur (Progress.b_rows b).
Proof.
  intros Hc Hx. unfold Claims.exports. cbv zeta.
  rewrite (main_after_collect _ _ _ _ _ _ _ _ _ Hc).
  destruct (Excel.refusal repr (Progress.excel_writer sur) (Progress.output a)
              (Progress.b_rows b)) as [e|]; cbn [fst snd Eff.exit_status].
  - auto.
  - split; [reflexivity|]. split; [reflexivity|].
    cbn [trace Trace.push]. rewrite excel_files_app, Hx.
    cbn [app Trace.excel_files].
    now rewrite (logs_no_excel _ (summary_are_logs _ _ _ _)).
Qed.




(** The export can end the run as well: a lookup answered with a name
    that holds the control character U+0001 gives a row that openpyxl
    refuses; the run ends with the exception, status 1, and no
    spreadsheet. *)
Example export_refuses_control_character :
  (exists msg,
      fst (Progress.main Sample.repr0 (Config.always Flaky.control_character)
             Sample.key_args (Config.bare [Some Sample.siret1]) initial)
      = Raised (IllegalCharacterError msg))
  /\ Eff.exit_status
       (fst (Progress.main Sample.repr0 (Config.always Flaky.control_character)
               Sample.key_args (Config.bare [Some Sample.siret1]) initial))
     = Some 1
  /\ Trace.excel_files
       (trace (snd (Progress.main Sample.repr0
                      (Config.always Flaky.control_character)
                      Sample.key_args (Config.bare [Some Sample.siret1]) initial)))
     = []
  /\ Trace.count Trace.is_get
       (trace (snd (Progress.main Sample.repr0
                      (Config.always Flaky.control_character)
                      Sample.key_args (Config.bare [Some Sample.siret1]) initial)))
     = 1%nat.
Proof. vm_compute. repeat split. eexists. reflexivity. Qed.

(** So does a writer that knows no engine for the suffix [.txt]. *)
Example export_refuses_unknown_suffix :
  fst (Progress.main Sample.repr0 (Config.always Sample.ok) Flaky.to_text_file
         (Config.xlsx_only [Some Sample.siret1]) initial)
  = Raised (ValueError "No engine for filetype: 'txt'")
  /\ Eff.exit_status
       (fst (Progress.main Sample.repr0 (Config.always Sample.ok)
               Flaky.to_text_file (Config.xlsx_only [Some Sample.siret1]) initial))
     = Some 1
  /\ Trace.excel_files
       (trace (snd (Progress.main Sample.repr0 (Config.always Sample.ok)
                      Flaky.to_text_file (Config.xlsx_only [Some Sample.siret1])
                      initial)))
     = [].
Proof. vm_compute. repeat split. Qed.

(** ** One row per identifier *)





(** The 429 slip, evaluated: when every attempt for an identifier is
    answered 429, the loop ends with [last_err] still [None] and the
    identifier gets no row at all. *)
Lemma rate_limited_identifier_gets_no_row :
  fst (Progress.main Sample.repr0 (Config.always (Sample.too_many (Some "2")))
         Sample.key_args (Config.bare [Some Sample.siret1]) initial)
  = Done tt
  /\ Trace.excel_files
       (trace (snd (Progress.main Sample.repr0
                      (Config.always (Sample.too_many (Some "2")))
                      Sample.key_args (Config.bare [Some Sample.siret1]) initial)))
     = [("./enrichi_insee.xlsx", [])]
  /\ Trace.count Trace.is_get
       (trace (snd (Progress.main Sample.repr0
                      (Config.always (Sample.too_many (Some "2")))
                      Sample.key_args (Config.bare [Some Sample.siret1]) initial)))
     = 3%nat.
Proof. vm_compute. repeat split. Qed.

(** ** Shapes of the rows *)

Lemma row_of_classified (s : string) (r : record) :
  Rows.row_of s r -> Claims.classified r.
Proof.
  intros [H|[H _]]; [left|right]; (split; [exact H|]);
    unfold Shape.is_enriched, Shape.is_failure in H; rewrite H; cbn.
  - intros Hin. repeat (destruct Hin as [Hin|Hin]; [discriminate Hin|]). exact Hin.
  - auto.
Qed.

(** C10.  Every record the canonical variant appends to the accumulator
    has one of two key sets: the eleven keys of an extraction, without
    [erreur], or the two keys [siret] and [erreur]; so the [erreur] key
    tells a failure from a success.  (The loop ends normally for every
    world, under a configuration whose delays [time.sleep] accepts.) *)
Theorem C10_rows_have_two_shapes (repr : json -> string) (w : world)
    (a : Progress.args) (Hsane : Config.sane a) :
  (forall payload r,
      Progress.extract_fields repr payload = Ok r ->
      Progress.keys r = Shape.enriched_keys /\ ~ In "erreur" (Progress.keys r))
  /\ (forall s e,
        Progress.keys [("siret", JStr s); ("erreur", JStr (str_exn e))]
        = Shape.failure_keys)
  /\ Shape.enriched_keys <> Shape.failure_keys
  /\ (forall au bar ckpt total i sirets b st,
        Claims.appends_classified repr w a au bar ckpt total i sirets b st).
Proof.
  split; [|split; [|split]].
  - intros payload r Hr. apply extract_fields_keys in Hr.
    destruct (row_of_classified "" r (or_introl Hr)) as [[H1 H2]|[H1 _]].
    + now split.
    + unfold Shape.is_enriched, Shape.is_failure in *. rewrite Hr in H1.
      discriminate H1.
  - reflexivity.
  - discriminate.
  - intros au bar ckpt total i sirets b st.
    destruct (batch_spec repr w a Hsane au bar ckpt total sirets i b st)
      as [b' [evs [per [Hrun [Hrows [Hper _]]]]]].
    exists b', (Trace.push st evs), (concat per).
    split; [exact Hrun|]. split; [exact Hrows|].
    clear Hrows Hrun. induction Hper as [|s rs sirets' per' Hrs _ IH]; [constructor|].
    cbn [concat]. apply Forall_app. split; [|exact IH].
    destruct Hrs as [->|[row [-> Hrow]]]; [constructor|].
    constructor; [|constructor]. eapply row_of_classified, Hrow.
Qed.

(** An instance of C10. *)
Lemma C10_witness :
  Config.sane Sample.key_args
  /\ forall au bar ckpt total i sirets b st,
       Claims.appends_classified Sample.repr0 (Config.always Sample.ok)
         Sample.key_args au bar ckpt total i sirets b st.
Proof.
  assert (Hsane : Config.sane Sample.key_args)
    by (split; [reflexivity | split; [reflexivity | discriminate]]).
  split; [exact Hsane|].
  exact (proj2 (proj2 (proj2
           (C10_rows_have_two_shapes Sample.repr0 (Config.always Sample.ok)
              Sample.key_args Hsane)))).
Defined.

(** ** Checkpoints *)

Lemma csv_file_app (path : string) (l1 l2 : list event) :
  Trace.csv_file path (l1 ++ l2)
  = match Trace.csv_file path l2 with
    | Some c => Some c
    | None => Trace.csv_file path l1
    end.
Proof.
  induction l1 as [|ev r IH]; cbn [app Trace.csv_file].
  - now destruct (Trace.csv_file path l2).
  - rewrite IH. now destruct (Trace.csv_file path l2).
Qed.

Lemma csv_file_none (path : string) (evs : list event) :
  Forall (fun ev => Trace.is_write_csv ev = false) evs ->
  Trace.csv_file path evs = None.
Proof.
  induction 1 as [|ev r Hev _ IH]; [reflexivity|].
  cbn [Trace.csv_file]. rewrite IH. destruct ev; try reflexivity. discriminate Hev.
Qed.

Lemma logs_no_csv (evs : list event) :
  Forall (fun ev => Rows.is_log ev = true) evs ->
  Forall (fun ev => Trace.is_write_csv ev = false) evs.
Proof.
  apply Forall_impl. intros ev H. destruct ev; try discriminate H; reflexivity.
Qed.

(** After an identifier for which the checkpoint is due, the checkpoint
    file holds the table of the accumulated rows. *)
Lemma bar_call_no_csv (bar : Progress.pbar) (c : bar_call) :
  Forall (fun ev => Trace.is_write_csv ev = false) (Drawn.call bar c).
Proof. destruct bar; repeat constructor. Qed.

Lemma csv_file_after_due (a : Progress.args) (ckpt : string) (total i : Z)
    (rows : list record) (pre lk logs : list event) (bar : Progress.pbar) (d : Q) :
  Checkpoint.due a total i = true ->
  Trace.csv_file ckpt
    (pre ++ lk ++ logs ++ Checkpoint.events a ckpt total i rows
     ++ Drawn.call bar (BarUpdate 1) ++ [Sleep d])
  = Some (Checkpoint.table rows).
Proof.
  intros Hdue. unfold Checkpoint.events. rewrite Hdue.
  rewrite !csv_file_app. cbn [Trace.csv_file].
  rewrite (csv_file_none ckpt (Drawn.call bar _)) by apply bar_call_no_csv.
  rewrite (csv_file_none ckpt (Logs.lines a _))
    by apply logs_no_csv, log_lines_are_logs.
  rewrite String.eqb_refl. now destruct (Checkpoint.table rows).
Qed.

Lemma lookup_events_no_csv (url : string) (h : list (string * string))
    (evs : list event) :
  Forall (Trace.lookup_event url h) evs ->
  Forall (fun ev => Trace.is_write_csv ev = false) evs.
Proof. apply Forall_impl. now intros ev [->|[d ->]]. Qed.

(** With a checkpoint interval that is not positive the loop writes no
    checkpoint at all. *)
Lemma batch_without_checkpoint (repr : json -> string) (w : world)
    (a : Progress.args) (au : Progress.auth) (bar : Progress.pbar)
    (ckpt : string) (total : Z) :
  Config.sane a -> Progress.checkpoint_rows a <= 0 ->
  forall sirets i b st,
  exists b' evs,
    Progress.batch repr w a au bar ckpt total i sirets b st
    = (Done b', Trace.push st evs)
    /\ Forall (fun ev => Trace.is_write_csv ev = false) evs.
Proof.
  intros Hsane HM. induction sirets as [|s rest IH]; intros i b st.
  - exists b, []. rewrite push_nil. split; [reflexivity|constructor].
  - cbn [Progress.batch].
    destruct (process_spec repr w a Hsane au bar ckpt total i s b st)
      as [b1 [lk [logs [rs [Hrun [Hlk [_ [_ [Hlogs _]]]]]]]]].
    erewrite bind_done by exact Hrun.
    destruct (IH (i + 1) b1 (Trace.push st (lk ++ logs
                   ++ Checkpoint.events a ckpt total i (Progress.b_rows b1)
                   ++ Drawn.call bar (BarUpdate 1)
                   ++ [Sleep (Progress.sleep a)])))
      as [b' [evs [Hrun' Hevs]]].
    eexists b', _. split; [rewrite Hrun', push_push; reflexivity|].
    assert (Hnot : Checkpoint.due a total i = false).
    { unfold Checkpoint.due. apply andb_false_intro1. now apply Z.ltb_ge. }
    unfold Checkpoint.events. rewrite Hnot.
    repeat (apply Forall_app; split); try assumption.
    + eapply lookup_events_no_csv, Hlk.
    + now apply logs_no_csv.
    + constructor.
    + apply bar_call_no_csv.
    + repeat constructor.
Qed.

Lemma with_suffix_name (p q : Pathlib.path) (sfx : string) :
  Pathlib.with_suffix p sfx = Ok q ->
  Pathlib.name q = Pathlib.stem p ++ sfx
  /\ removelast (Pathlib.parts q) = removelast (Pathlib.parts p)
  /\ Pathlib.root q = Pathlib.root p.
Proof.
  unfold Pathlib.with_suffix. destruct (Pathlib.name p); [discriminate|].
  intros H. injection H as <-. unfold Pathlib.name. cbn [Pathlib.parts Pathlib.root].
  split; [apply last_last|]. split; [apply removelast_last|reflexivity].
Qed.

Section Checkpoints.

Variable repr : json -> string.
Variable w : world.
Variable a : Progress.args.
Variable au : Progress.auth.
Variable bar : Progress.pbar.
Variable ckpt : string.
Variable sirets : list string.
Variable st : state.

Let total : Z := Z.of_nat (length sirets).
Let b0 : Progress.batch_state :=
  {| Progress.b_rows := []; Progress.b_ok := 0; Progress.b_ko := 0 |}.

(** C9, amended.  Under a configuration whose delays [time.sleep] accepts
    and whose logging period is not 0: with a positive checkpoint interval
    [M], after each identifier whose number is a multiple of [M], and
    after the last one, the checkpoint file holds the full accumulated
    result sequence: one line per record accumulated so far, under a
    header that is the union of the keys of those records, each record
    rendered with the empty text in the columns it lacks.  With an
    interval that is not positive no checkpoint is written, not even after
    the last identifier.  The file is the output path with its suffix
    replaced by [.checkpoint.csv]. *)
Theorem C9_checkpoint_holds_accumulated_rows (Hsane : Config.sane a) :
  (0 < Progress.checkpoint_rows a ->
   forall k : nat,
     (1 <= k <= length sirets)%nat ->
     Z.of_nat k mod Progress.checkpoint_rows a = 0 \/ k = length sirets ->
     exists bk stk b st' later,
      Progress.batch repr w a au bar ckpt total 1 (firstn k sirets) b0 st
      = (Done bk, stk)
      /\ Progress.batch repr w a au bar ckpt total 1 sirets b0 st = (Done b, st')
      /\ trace st' = (trace stk ++ later)%list
      /\ Trace.csv_file ckpt (trace stk) = Some (Checkpoint.table (Progress.b_rows bk))
      /\ (forall key, In key (fst (Checkpoint.table (Progress.b_rows bk)))
                      <-> exists r, In r (Progress.b_rows bk)
                                    /\ In key (Progress.keys r))
      /\ NoDup (fst (Checkpoint.table (Progress.b_rows bk)))
      /\ snd (Checkpoint.table (Progress.b_rows bk))
         = map (fun r => map (fun key => Py.dict_get r key (JStr ""))
                           (fst (Checkpoint.table (Progress.b_rows bk))))
             (Progress.b_rows bk))
  /\ (Progress.checkpoint_rows a <= 0 ->
      exists b evs,
        Progress.batch repr w a au bar ckpt total 1 sirets b0 st
        = (Done b, Trace.push st evs)
        /\ Forall (fun ev => Trace.is_write_csv ev = false) evs)
  /\ (forall p, Pathlib.with_suffix (Pathlib.Path (Progress.output a)) ".checkpoint.csv"
                = Ok p ->
                Progress.checkpoint_path a = Ok (Pathlib.to_string p)
                /\ Pathlib.name p
                   = Pathlib.stem (Pathlib.Path (Progress.output a)) ++ ".checkpoint.csv"
                /\ removelast (Pathlib.parts p)
                   = removelast (Pathlib.parts (Pathlib.Path (Progress.output a)))
                /\ Pathlib.root p = Pathlib.root (Pathlib.Path (Progress.output a)))
  /\ Progress.checkpoint_path (Config.default None) = Ok "enrichi_insee.checkpoint.csv".
Proof.
  split; [|split; [|split; [|reflexivity]]].
  - (* the prefix of [k] identifiers: all but the last, then the last *)
    intros HM k Hk Hdue.
    assert (Hne : firstn k sirets <> []).
    { intros H. apply (f_equal (@length string)) in H.
      rewrite length_firstn in H. cbn in H. lia. }
    destruct (exists_last Hne) as [pre [s Hpre]].
    assert (Hlen : length pre = (k - 1)%nat).
    { apply (f_equal (@length string)) in Hpre.
      rewrite length_firstn, length_app in Hpre. cbn in Hpre. lia. }
    destruct (batch_spec repr w a Hsane au bar ckpt total pre 1 b0 st)
      as [b1 [evs1 [per1 [Hrun1 _]]]].
    destruct (process_spec repr w a Hsane au bar ckpt total
                (1 + Z.of_nat (length pre)) s b1 (Trace.push st evs1))
      as [bk [lk [logs [rs [Hrunk [_ [_ [_ [Hlogs _]]]]]]]]].
    assert (Hprefix : Progress.batch repr w a au bar ckpt total 1 (firstn k sirets) b0 st
                      = (Done bk,
                         Trace.push (Trace.push st evs1)
                           (lk ++ logs
                            ++ Checkpoint.events a ckpt total
                                 (1 + Z.of_nat (length pre)) (Progress.b_rows bk)
                            ++ Drawn.call bar (BarUpdate 1)
                            ++ [Sleep (Progress.sleep a)]))).
    { rewrite Hpre, batch_app. erewrite bind_done by exact Hrun1.
      cbn [Progress.batch]. erewrite bind_done by exact Hrunk. reflexivity. }
    destruct (batch_spec repr w a Hsane au bar ckpt total (skipn k sirets)
                (1 + Z.of_nat (length (firstn k sirets))) bk
                (Trace.push (Trace.push st evs1)
                   (lk ++ logs
                    ++ Checkpoint.events a ckpt total
                         (1 + Z.of_nat (length pre)) (Progress.b_rows bk)
                    ++ Drawn.call bar (BarUpdate 1)
                    ++ [Sleep (Progress.sleep a)])))
      as [b [later [per2 [Hrun2 _]]]].
    assert (Hi : 1 + Z.of_nat (length pre) = Z.of_nat k) by lia.
    assert (Hd : Checkpoint.due a total (Z.of_nat k) = true).
    { unfold Checkpoint.due. apply andb_true_intro. split; [now apply Z.ltb_lt|].
      apply orb_true_intro. destruct Hdue as [H|H].
      - left. now apply Z.eqb_eq.
      - right. apply Z.eqb_eq. subst total. now rewrite H. }
    eexists bk, _, b, _, later.
    split; [exact Hprefix|]. split.
    { transitivity (Progress.batch repr w a au bar ckpt total 1
                      (firstn k sirets ++ skipn k sirets) b0 st);
        [now rewrite firstn_skipn|].
      rewrite batch_app. erewrite bind_done by exact Hprefix. exact Hrun2. }
    split; [reflexivity|]. split.
    { cbn [trace Trace.push]. rewrite Hi.
      now apply csv_file_after_due. }
    split; [intros key; apply fieldnames_In|].
    split; [apply fieldnames_NoDup|reflexivity].
  - intros HM. now apply batch_without_checkpoint.
  - intros p Hp. split.
    + unfold Progress.checkpoint_path. now rewrite Hp.
    + now apply with_suffix_name.
Qed.

End Checkpoints.

(** An instance of C9: two identifiers and a checkpoint after each; the
    file after the first one holds the first row. *)
Lemma C9_witness :
  Config.sane Logged.args
  /\ 0 < Progress.checkpoint_rows Logged.args
  /\ (1 <= 1 <= length [Sample.siret1; Sample.siret2])%nat
  /\ Z.of_nat 1 mod Progress.checkpoint_rows Logged.args = 0
  /\ exists bk stk,
       Progress.batch Sample.repr0 (Config.always Sample.ok) Logged.args
         Sample.key_auth Progress.TqdmBar Sample.checkpoint_csv 2 1
         (firstn 1 [Sample.siret1; Sample.siret2])
         {| Progress.b_rows := []; Progress.b_ok := 0; Progress.b_ko := 0 |} initial
       = (Done bk, stk)
       /\ length (Progress.b_rows bk) = 1%nat
       /\ Trace.csv_file Sample.checkpoint_csv (trace stk)
          = Some (Checkpoint.table (Progress.b_rows bk)).
Proof.
  assert (Hsane : Config.sane Logged.args)
    by (split; [reflexivity | split; [reflexivity | discriminate]]).
  assert (HM : 0 < Progress.checkpoint_rows Logged.args) by reflexivity.
  assert (Hk : (1 <= 1 <= length [Sample.siret1; Sample.siret2])%nat)
    by (cbn; lia).
  assert (Hdue : Z.of_nat 1 mod Progress.checkpoint_rows Logged.args = 0)
    by reflexivity.
  split; [exact Hsane|]. split; [exact HM|]. split; [exact Hk|].
  split; [exact Hdue|].
  destruct (proj1 (C9_checkpoint_holds_accumulated_rows Sample.repr0
                     (Config.always Sample.ok) Logged.args Sample.key_auth
                     Progress.TqdmBar Sample.checkpoint_csv
                     [Sample.siret1; Sample.siret2] initial Hsane)
              HM 1%nat Hk (or_introl Hdue))
    as [bk [stk [b [st' [later [H1 [_ [_ [H2 _]]]]]]]]].
  exists bk, stk. split; [exact H1|]. split; [|exact H2].
  cbn in H1. injection H1 as <- _. reflexivity.
Defined.

(** C9 as stated fails with [--checkpoint-rows 0]: the run of one
    identifier ends normally and exports its row, yet no checkpoint is
    written, not even at the final identifier. *)
Lemma C9_counterexample_interval_zero :
  Progress.checkpoint_rows Flaky.no_checkpoint = 0
  /\ fst (Progress.main Sample.repr0 (Config.always Sample.ok) Flaky.no_checkpoint
            (Config.bare [Some Sample.siret1]) initial)
     = Done tt
  /\ map (fun f => length (snd f))
       (Trace.excel_files
          (trace (snd (Progress.main Sample.repr0 (Config.always Sample.ok)
                         Flaky.no_checkpoint (Config.bare [Some Sample.siret1])
                         initial))))
     = [1%nat]
  /\ Progress.checkpoint_path Flaky.no_checkpoint = Ok Sample.checkpoint_csv
  /\ Trace.csv_file Sample.checkpoint_csv
       (trace (snd (Progress.main Sample.repr0 (Config.always Sample.ok)
                      Flaky.no_checkpoint (Config.bare [Some Sample.siret1])
                      initial)))
     = None
  /\ Trace.count Trace.is_write_csv
       (trace (snd (Progress.main Sample.repr0 (Config.always Sample.ok)
                      Flaky.no_checkpoint (Config.bare [Some Sample.siret1])
                      initial)))
     = 0%nat.
Proof. vm_compute. repeat split. Qed.

(** ** Token renewal and exit statuses: the canonical variant against its
       siblings *)

(** In the canonical variant no lookup asks for a token, whatever the
    server answers. *)
Lemma lookups_never_post (repr : json -> string) (w : world) (a : Progress.args)
    (Hsane : Config.sane a) (au : Progress.auth) (bar : Progress.pbar)
    (ckpt : string) (total i : Z)
    (sirets : list string) (b : Progress.batch_state) (st : state) :
  exists b' st',
    Progress.batch repr w a au bar ckpt total i sirets b st = (Done b', st')
    /\ posts st' = posts st.
Proof.
  destruct (batch_spec repr w a Hsane au bar ckpt total sirets i b st)
    as [b' [evs [per [Hrun [_ [_ [_ [_ Hq]]]]]]]].
  exists b', (Trace.push st evs). split; [exact Hrun|].
  cbn [posts Trace.push]. rewrite (proj1 (inside_batch_facts _ Hq)). lia.
Qed.

(** C2, the code at the failing input.  OAuth2 mode, one identifier, the
    first two lookups answered 401, the third 200.  The canonical variant
    asks for a token once, at start-up, and never again: it repeats the
    request three times with the same bearer token and ends with an
    enriched record.  The sibling [enrich_sirets_insee_1.py], on the same
    answers, asks for a new token once after the first 401, repeats the
    request once, and records the failure of the identifier; the run goes
    on to write its spreadsheet. *)
Theorem C2_canonical_variant_never_renews_token :
  Siblings.requests
    (snd (Progress.main Sample.repr0 Siblings.expired_twice Sample.oauth_args
            Siblings.sur initial))
  = [ Post Progress.TOKEN_URL "id" "secret";
      Get Siblings.url1 Siblings.bearer_t0;
      Get Siblings.url1 Siblings.bearer_t0;
      Get Siblings.url1 Siblings.bearer_t0 ]
  /\ (exists row,
        Trace.excel_files
          (trace (snd (Progress.main Sample.repr0 Siblings.expired_twice
                         Sample.oauth_args Siblings.sur initial)))
        = [("./enrichi_insee.xlsx", [row])]
        /\ Progress.keys row = Shape.enriched_keys)
  /\ Siblings.requests
       (snd (V1.main Sample.repr0 Siblings.expired_twice Siblings.v1_args
               Siblings.sur initial))
     = [ Post V1.TOKEN_URL "id" "secret";
         Get Siblings.url1 [("Authorization", "Bearer t0")];
         Post V1.TOKEN_URL "id" "secret";
         Get Siblings.url1 [("Authorization", "Bearer t1")] ]
  /\ Trace.excel_files
       (trace (snd (V1.main Sample.repr0 Siblings.expired_twice Siblings.v1_args
                      Siblings.sur initial)))
     = [("./enrichi_insee.xlsx",
         [[("siret", JStr Sample.siret1);
           ("erreur", JStr (Siblings.unauthorized_msg Siblings.url1))]])]
  /\ fst (V1.main Sample.repr0 Siblings.expired_twice Siblings.v1_args
            Siblings.sur initial)
     = Done tt.
Proof.
  vm_compute. split; [reflexivity|]. split; [eexists; split; reflexivity|].
  repeat split.
Qed.

(** C6, the code at the failing input.  OAuth2 credentials, a token
    endpoint that answers 401.  The canonical variant lets the HTTP error
    of the token request escape: the interpreter ends with status 1, the
    status of the run without credentials.  The sibling
    [enrich_sirets_insee_v2.py] reports the authentication failure with
    its HTTP status and exits with status 2.  A run that completes, its
    only identifier failed, exits with status 0. *)
Theorem C6_token_refusal_exits_like_missing_credentials :
  fst (Progress.main Sample.repr0 Siblings.token_refused Sample.oauth_args
         Siblings.sur initial)
  = Raised (HTTPError 401 (Siblings.unauthorized_msg Progress.TOKEN_URL))
  /\ Eff.exit_status
       (fst (Progress.main Sample.repr0 Siblings.token_refused Sample.oauth_args
               Siblings.sur initial))
     = Some 1
  /\ Eff.exit_status
       (fst (Progress.main Sample.repr0 Siblings.token_refused
               (Config.default None) Siblings.sur initial))
     = Some 1
  /\ trace (snd (Progress.main Sample.repr0 Siblings.token_refused
                   (Config.default None) Siblings.sur initial))
     = [Stdout Logs.no_credentials]
  /\ fst (V2.main Sample.repr0 Siblings.token_refused Siblings.v2_args
            Siblings.sur initial)
     = Exited 2
  /\ trace (snd (V2.main Sample.repr0 Siblings.token_refused Siblings.v2_args
                   Siblings.sur initial))
     = [ Post Progress.TOKEN_URL "id" "secret";
         Stderr "Echec d'authentification (401). Vérifiez vos identifiants et droits d'accès." ]
  /\ Eff.exit_status
       (fst (Progress.main Sample.repr0 (Config.always Sample.unavailable)
               Sample.key_args Siblings.sur initial))
     = Some 0.
Proof. vm_compute. repeat split. Qed.

(** ** The siblings, in general *)

(** [enrich_sirets_insee_1.py] does what C2 asks: on a 401 it asks for a
    token once and repeats the request with it; a second 401 makes the
    failure record of the identifier, and the loop goes on. *)
Lemma v1_renews_token_once (repr : json -> string) (w : world) (a : V1.args)
    (cid cs siret : string) (rows : list record) (st : state)
    (r1 r2 : response) (tok : json) :
  String.length siret = 14%nat ->
  http_get w (gets st) = Response r1 -> status_code r1 = 401 ->
  Logs.token_outcome V1.TOKEN_URL (http_post w (posts st)) = Done tok ->
  http_get w (S (gets st)) = Response r2 -> status_code r2 = 401 ->
  Eff.accepts (V1.sleep a) = true ->
  V1.process repr w a cid cs siret rows st
  = (Done (rows ++ [[("siret", JStr siret);
                     ("erreur", JStr ("401 Client Error: " ++ reason r2
                                      ++ " for url: " ++ V1.SIRET_URL ++ siret))]])%list,
     {| gets := S (S (gets st));
        posts := S (posts st);
        trace := (trace st
                  ++ [ Get (V1.SIRET_URL ++ siret) (shared_headers st);
                       Post V1.TOKEN_URL cid cs;
                       Get (V1.SIRET_URL ++ siret) (V1.bearer repr tok);
                       Sleep (V1.sleep a) ])%list;
        shared_headers := V1.bearer repr tok |}).
Proof.
  intros Hlen Hget1 H1 Htok Hget2 H2 Hsleep.
  unfold V1.process. rewrite Hlen. cbn [Nat.eqb negb].
  assert (Htry : Eff.try_ (V1.try_body repr w cid cs siret rows)
                   (fun e => Eff.ret (rows ++ [[("siret", JStr siret);
                                               ("erreur", JStr (str_exn e))]])%list) st
                 = (Done (rows ++ [[("siret", JStr siret);
                                   ("erreur", JStr ("401 Client Error: " ++ reason r2
                                                    ++ " for url: " ++ V1.SIRET_URL
                                                    ++ siret))]])%list,
                    {| gets := S (S (gets st));
                       posts := S (posts st);
                       trace := (trace st
                                 ++ [ Get (V1.SIRET_URL ++ siret) (shared_headers st);
                                      Post V1.TOKEN_URL cid cs;
                                      Get (V1.SIRET_URL ++ siret)
                                        (V1.bearer repr tok) ])%list;
                       shared_headers := V1.bearer repr tok |})).
  { unfold Eff.try_, V1.try_body.
    erewrite bind_done by reflexivity.
    erewrite bind_done by (rewrite requests_get_push, Hget1; reflexivity).
    rewrite H1. cbn [Z.eqb Pos.eqb].
    assert (Hpost : http_post w (posts (Trace.push st
                      [Get (V1.SIRET_URL ++ siret) (shared_headers st)]))
                    = http_post w (posts st)).
    { cbn [posts Trace.push]. f_equal. unfold Trace.count. cbn. lia. }
    erewrite bind_done.
    2:{ erewrite bind_done.
        2:{ change (V1.get_token w cid cs) with (Progress.get_token w cid cs).
            rewrite get_token_outcome, Hpost.
            change Progress.TOKEN_URL with V1.TOKEN_URL. rewrite Htok. reflexivity. }
        erewrite bind_done by reflexivity.
        erewrite bind_done by reflexivity.
        unfold Eff.requests_get. cbn [gets posts trace shared_headers Trace.push].
        unfold Trace.count. cbn [filter Trace.is_get Trace.is_post length].
        rewrite !Nat.add_0_r, !Nat.add_1_r, Hget2. reflexivity. }
    unfold Eff.bind, Eff.raise_for_status. rewrite H2.
    cbn [Z.leb Z.ltb Z.compare Pos.compare Pos.compare_cont andb].
    unfold Eff.raise, Eff.ret. cbn [str_exn].
    now rewrite <- !app_assoc. }
  erewrite bind_done by exact Htry.
  apply sleep_error_accepts in Hsleep.
  unfold Eff.bind, Eff.sleep. rewrite Hsleep. unfold Eff.emit, Eff.ret.
  cbn [posts gets trace shared_headers]. rewrite <- !app_assoc. reflexivity.
Qed.

(** [enrich_sirets_insee_1.py] records an identifier that is not 14
    characters long. *)
Lemma v1_records_invalid_identifier (repr : json -> string) (w : world)
    (a : V1.args) (cid cs siret : string) (rows : list record) (st : state) :
  String.length siret <> 14%nat ->
  V1.process repr w a cid cs siret rows st
  = (Done (rows ++ [[("siret", JStr siret); ("erreur", JStr "SIRET invalide")]])%list,
     st).
Proof.
  intros H. unfold V1.process. apply Nat.eqb_neq in H. now rewrite H.
Qed.

(** [enrich_sirets_insee_v2.py] does what C6 asks: a token request refused
    with an HTTP error status ends the process with status 2, after a
    message that carries the status. *)
Lemma v2_token_refusal_exits_2 (w : world) (cid cs : string) (st : state)
    (r : response) :
  http_post w (posts st) = Response r -> 400 <= status_code r < 600 ->
  V2.try_get_token w cid cs st
  = (Exited 2,
     Trace.push st
       [ Post Progress.TOKEN_URL cid cs;
         Stderr ("Echec d'authentification (" ++ Text.str_of_Z (status_code r)
                 ++ "). Vérifiez vos identifiants et droits d'accès.") ]).
Proof.
  intros Hpost Hstatus. unfold V2.try_get_token.
  change (V2.get_token w cid cs st) with (Progress.get_token w cid cs st).
  rewrite get_token_outcome, Hpost. unfold Logs.token_outcome.
  destruct ((400 <=? status_code r) && (status_code r <? 500)) eqn:H4.
  - erewrite bind_done by (now apply emit_push). now rewrite push_push.
  - assert (H5 : (500 <=? status_code r) && (status_code r <? 600) = true) by lia.
    rewrite H5. erewrite bind_done by (now apply emit_push). now rewrite push_push.
Qed.

(** The canonical variant on the same refusal: the error escapes [main],
    which ends the interpreter with status 1. *)
Lemma progress_token_refusal_escapes (repr : json -> string) (w : world)
    (a : Progress.args) (sur : Progress.surroundings) (sirets : list string)
    (r : response) :
  Progress.load_sirets (Progress.pandas sur) (Progress.input_file sur) = Ok sirets ->
  sirets <> [] ->
  Progress.truthy (Progress.resolve_api_key a sur) = false ->
  Progress.truthy (Progress.resolve_client_id a sur) = true ->
  Progress.truthy (Progress.resolve_client_secret a sur) = true ->
  http_post w 0%nat = Response r -> 400 <= status_code r < 600 ->
  exists m st,
    Progress.main repr w a sur initial = (Raised (HTTPError (status_code r) m), st)
    /\ Eff.exit_status (fst (Progress.main repr w a sur initial)) = Some 1.
Proof.
  intros Hload Hsome Hkey Hcid Hcs Hpost Hstatus.
  assert (Htotal : (Z.of_nat (length sirets) =? 0) = false).
  { apply Z.eqb_neq. destruct sirets; [contradiction|]. cbn [length]. lia. }
  assert (Hrun : exists m,
             Progress.startup repr w a sur initial
             = (Raised (HTTPError (status_code r) m),
                Trace.push initial
                  [Post Progress.TOKEN_URL
                     (Progress.text_of (Progress.resolve_client_id a sur))
                     (Progress.text_of (Progress.resolve_client_secret a sur))])).
  { unfold Progress.startup. rewrite Hkey, Hcid, Hcs. cbn [negb orb].
    unfold Eff.bind. rewrite get_token_outcome. cbn [posts initial].
    rewrite Hpost. unfold Logs.token_outcome.
    destruct ((400 <=? status_code r) && (status_code r <? 500)) eqn:H4;
      [eexists; reflexivity|].
    assert (H5 : (500 <=? status_code r) && (status_code r <? 600) = true) by lia.
    rewrite H5. eexists; reflexivity. }
  destruct Hrun as [m Hrun].
  assert (Hmain : Progress.main repr w a sur initial
                  = (Raised (HTTPError (status_code r) m),
                     Trace.push initial
                       [Post Progress.TOKEN_URL
                          (Progress.text_of (Progress.resolve_client_id a sur))
                          (Progress.text_of (Progress.resolve_client_secret a sur))])).
  { rewrite main_run. unfold Progress.collect. rewrite Hload. cbn [Eff.lift].
    erewrite bind_done by reflexivity. cbv zeta. rewrite Htotal.
    erewrite bind_done by reflexivity.
    unfold Eff.bind at 1. rewrite Hrun. reflexivity. }
  exists m. eexists. split; [exact Hmain|]. now rewrite Hmain.
Qed.

(** Without credentials, and with a valid identifier in the input, the
    canonical variant exits with status 1 after its message, without any
    request. *)
Lemma progress_without_credentials (repr : json -> string) (w : world)
    (a : Progress.args) (sur : Progress.surroundings) (sirets : list string) :
  Progress.load_sirets (Progress.pandas sur) (Progress.input_file sur) = Ok sirets ->
  sirets <> [] ->
  Progress.truthy (Progress.resolve_api_key a sur) = false ->
  Progress.truthy (Progress.resolve_client_id a sur) = false
  \/ Progress.truthy (Progress.resolve_client_secret a sur) = false ->
  Progress.main repr w a sur initial
  = (Exited 1, Trace.push initial (Logs.lines a Logs.no_credentials)).
Proof.
  intros Hload Hsome Hkey Hmiss.
  assert (Htotal : (Z.of_nat (length sirets) =? 0) = false).
  { apply Z.eqb_neq. destruct sirets; [contradiction|]. cbn [length]. lia. }
  rewrite main_run. unfold Progress.collect. rewrite Hload. cbn [Eff.lift].
  erewrite bind_done by reflexivity. cbv zeta. rewrite Htotal.
  erewrite bind_done by reflexivity.
  unfold Eff.bind at 1. unfold Progress.startup. rewrite Hkey.
  assert (Hor : negb (Progress.truthy (Progress.resolve_client_id a sur))
                || negb (Progress.truthy (Progress.resolve_client_secret a sur)) = true).
  { destruct Hmiss as [-> | ->]; [reflexivity|apply orb_true_r]. }
  rewrite Hor. erewrite bind_done by apply log_push. reflexivity.
Qed.

(* ------------------------------------------------------------------ *)
(** * Further properties of the scripts *)

(** ** Invariants of traces, for every outcome of a run *)

Section Emits.

Variable P : list event -> Prop.
Hypothesis HP : Invariant.monoid P.

Lemma emits_weaken {A} (Q : list event -> Prop) (m : M A) :
  (forall evs, Q evs -> P evs) -> Invariant.emits Q m -> Invariant.emits P m.
Proof.
  intros H Hm st. destruct (Hm st) as [evs [Ht HQ]]. exists evs. auto.
Qed.

Lemma emits_silent {A} (m : M A) :
  (forall st, trace (snd (m st)) = trace st) -> Invariant.emits P m.
Proof.
  intros H st. exists []. rewrite H, app_nil_r. split; [reflexivity|apply HP].
Qed.

Lemma emits_ret {A} (x : A) : Invariant.emits P (Eff.ret x).
Proof. now apply emits_silent. Qed.

Lemma emits_raise {A} (e : exn) : Invariant.emits P (@Eff.raise A e).
Proof. now apply emits_silent. Qed.

Lemma emits_exit {A} (c : Z) : Invariant.emits P (@Eff.sys_exit A c).
Proof. now apply emits_silent. Qed.

Lemma emits_lift {A} (r : res A) : Invariant.emits P (Eff.lift r).
Proof. destruct r; [apply emits_ret|apply emits_raise]. Qed.

Lemma emits_one {A} (m : M A) (ev : event) :
  (forall st, trace (snd (m st)) = (trace st ++ [ev])%list) -> P [ev] ->
  Invariant.emits P m.
Proof. intros H Hev st. exists [ev]. auto. Qed.

Lemma emits_emit (ev : event) : P [ev] -> Invariant.emits P (Eff.emit ev).
Proof. now apply emits_one. Qed.

Lemma emits_sleep (d : Q) : P [Sleep d] -> Invariant.emits P (Eff.sleep d).
Proof.
  intros H. unfold Eff.sleep. destruct (Eff.sleep_error d);
    [apply emits_raise|now apply emits_emit].
Qed.

Lemma emits_get (w : world) (url : string) (h : list (string * string)) :
  P [Get url h] -> Invariant.emits P (Eff.requests_get w url h).
Proof.
  apply emits_one. intros st. unfold Eff.requests_get.
  now destruct (http_get w (gets st)).
Qed.

Lemma emits_post (w : world) (url cid cs : string) :
  P [Post url cid cs] -> Invariant.emits P (Eff.requests_post w url cid cs).
Proof.
  apply emits_one. intros st. unfold Eff.requests_post.
  now destruct (http_post w (posts st)).
Qed.

Lemma emits_raise_for_status (r : response) (url : string) :
  Invariant.emits P (Eff.raise_for_status r url).
Proof.
  unfold Eff.raise_for_status.
  destruct (_ && _); [apply emits_raise|].
  destruct (_ && _); [apply emits_raise|apply emits_ret].
Qed.

(** Sequencing: the continuation is only run on what [m] returns. *)
Lemma emits_bind_from {A B} (m : M A) (k : A -> M B) :
  Invariant.emits P m ->
  (forall x st st', m st = (Done x, st') -> Invariant.emits P (k x)) ->
  Invariant.emits P (Eff.bind m k).
Proof.
  intros Hm Hk st. unfold Eff.bind.
  destruct (Hm st) as [e1 [Ht1 H1]].
  destruct (m st) as [[x|e|c|] st1] eqn:Hrun; cbn [snd] in Ht1;
    try (solve [exists e1; cbn [snd]; auto]).
  destruct (Hk x st st1 Hrun st1) as [e2 [Ht2 H2]].
  exists (e1 ++ e2)%list. rewrite Ht2, Ht1, app_assoc.
  split; [reflexivity|now apply HP].
Qed.

Lemma emits_bind {A B} (m : M A) (k : A -> M B) :
  Invariant.emits P m -> (forall x, Invariant.emits P (k x)) ->
  Invariant.emits P (Eff.bind m k).
Proof. intros Hm Hk. apply emits_bind_from; auto. Qed.

Lemma emits_bind_lift {A B} (r : res A) (k : A -> M B) :
  (forall x, r = Ok x -> Invariant.emits P (k x)) ->
  Invariant.emits P (Eff.bind (Eff.lift r) k).
Proof.
  intros Hk. apply emits_bind_from; [apply emits_lift|].
  intros x st st' H. apply Hk.
  destruct r; unfold Eff.lift, Eff.ret, Eff.raise in H; congruence.
Qed.

Lemma emits_try {A} (m : M A) (h : exn -> M A) :
  Invariant.emits P m -> (forall e, Invariant.emits P (h e)) ->
  Invariant.emits P (Eff.try_ m h).
Proof.
  intros Hm Hh st. unfold Eff.try_.
  destruct (Hm st) as [e1 [Ht1 H1]].
  destruct (m st) as [[x|e|c|] st1] eqn:Hrun; cbn [snd] in Ht1;
    try (solve [exists e1; cbn [snd]; auto]).
  destruct (Hh e st1) as [e2 [Ht2 H2]].
  exists (e1 ++ e2)%list. rewrite Ht2, Ht1, app_assoc.
  split; [reflexivity|now apply HP].
Qed.

End Emits.

(** Two phases: what [m] emits, then what the continuation emits. *)
Lemma emits_then {A B} (P Q : list event -> Prop) (m : M A) (k : A -> M B) :
  Q [] ->
  Invariant.emits P m -> (forall x, Invariant.emits Q (k x)) ->
  Invariant.emits (Invariant.then_ P Q) (Eff.bind m k).
Proof.
  intros HQ Hm Hk st. unfold Eff.bind.
  destruct (Hm st) as [e1 [Ht1 H1]].
  destruct (m st) as [[x|e|c|] st1] eqn:Hrun; cbn [snd] in Ht1;
    try (solve [exists e1; cbn [snd]; split; [assumption|];
                exists e1, []; rewrite app_nil_r; auto]).
  destruct (Hk x st1) as [e2 [Ht2 H2]].
  exists (e1 ++ e2)%list. rewrite Ht2, Ht1, app_assoc.
  split; [reflexivity|]. exists e1, e2. auto.
Qed.

Lemma monoid_Forall (p : event -> Prop) : Invariant.monoid (Forall p).
Proof.
  split; [constructor|]. intros e1 e2 H1 H2. apply Forall_app. now split.
Qed.

Lemma stdout_lines_app (e1 e2 : list event) :
  Footprint.stdout_lines (e1 ++ e2)
  = (Footprint.stdout_lines e1 ++ Footprint.stdout_lines e2)%list.
Proof. apply flat_map_app. Qed.

Lemma appended_app (path : string) (e1 e2 : list event) :
  Footprint.appended path (e1 ++ e2)
  = (Footprint.appended path e1 ++ Footprint.appended path e2)%list.
Proof. apply flat_map_app. Qed.

Lemma monoid_mirrored (path : string) : Invariant.monoid (Footprint.mirrored path).
Proof.
  split; [reflexivity|]. unfold Footprint.mirrored. intros e1 e2 H1 H2.
  now rewrite appended_app, stdout_lines_app, H1, H2.
Qed.

(** ** The canonical variant, step by step *)

Section EmitsProgress.

Variable repr : json -> string.
Variable w : world.
Variable a : Progress.args.
Variable P : list event -> Prop.
Hypothesis HP : Invariant.monoid P.
Hypothesis P_log : forall msg, P (Logs.lines a msg).
Hypothesis P_sleep : forall d, P [Sleep d].

Lemma emits_log (msg : string) : Invariant.emits P (Progress.log a msg).
Proof.
  intros st. exists (Logs.lines a msg). rewrite log_push. auto.
Qed.

Lemma emits_when_log (c : bool) (msg : string) :
  Invariant.emits P (if c then Progress.log a msg else Eff.ret tt).
Proof. destruct c; [apply emits_log|now apply emits_ret]. Qed.

Lemma emits_retry_loop (au : Progress.auth) (url : string) :
  P [Get url (Progress.headers au)] ->
  forall fuel ls, Invariant.emits P (Progress.retry_loop repr w a fuel au url ls).
Proof.
  intros Hget. induction fuel as [|fuel IH]; intros ls; cbn [Progress.retry_loop];
    destruct (Progress.attempt ls <=? Progress.max_retries a);
    try (now apply emits_ret); [now apply emits_silent|].
  apply emits_bind; [assumption| |].
  - apply emits_try; [assumption| |].
    + unfold Progress.try_body.
      apply emits_bind; [assumption|now apply emits_get|]. intros r.
      destruct (status_code r =? 429).
      * apply emits_bind; [assumption|now apply emits_lift|]. intros d.
        apply emits_bind; [assumption|now apply emits_sleep|]. intros _.
        now apply emits_ret.
      * apply emits_bind; [assumption|now apply emits_raise_for_status|]. intros _.
        apply emits_bind; [assumption|now apply emits_lift|]. intros js.
        apply emits_bind; [assumption|now apply emits_lift|]. intros row.
        now apply emits_ret.
    + intros e. unfold Progress.except_body.
      apply emits_bind; [assumption|now apply emits_sleep|]. intros _.
      now apply emits_ret.
  - intros [[|] ls']; [apply IH|now apply emits_ret].
Qed.

Lemma emits_write_checkpoint (rows : list record) (path : string)
    (fieldnames : list string) :
  (forall lines, P [WriteCsv path fieldnames lines]) ->
  Invariant.emits P (Progress.write_checkpoint_csv rows path fieldnames).
Proof.
  intros H. unfold Progress.write_checkpoint_csv.
  destruct (Progress.csv_lines fieldnames rows) as [lines e].
  apply emits_bind; [assumption|now apply emits_emit|]. intros _.
  destruct e; [now apply emits_raise|now apply emits_ret].
Qed.

Lemma emits_call (bar : Progress.pbar) (c : bar_call) (m : M unit) :
  (forall st, m st = (Done tt, Trace.push st (Drawn.call bar c))) ->
  P (Drawn.call bar c) -> Invariant.emits P m.
Proof.
  intros Hm H st. exists (Drawn.call bar c). rewrite Hm. auto.
Qed.

Lemma emits_process (au : Progress.auth) (bar : Progress.pbar) (ckpt : string)
    (total i : Z) (s : string) (b : Progress.batch_state) :
  P [Get (Progress.build_url au s) (Progress.headers au)] ->
  (forall h l, P [WriteCsv ckpt h l]) ->
  (forall c, P (Drawn.call bar c)) ->
  Invariant.emits P (Progress.process repr w a au bar ckpt total i s b).
Proof.
  intros Hget Hcsv Hbar. unfold Progress.process.
  apply emits_bind; [assumption|now apply emits_retry_loop|]. intros ls.
  apply emits_bind; [assumption|apply emits_when_log|]. intros _.
  apply emits_bind; [assumption|now apply emits_lift|]. intros m.
  apply emits_bind; [assumption|apply emits_when_log|]. intros _.
  apply emits_bind; [assumption| |].
  - destruct (_ && _); [|now apply emits_ret].
    apply emits_bind; [assumption|now apply emits_write_checkpoint|]. intros _.
    apply emits_log.
  - intros _. apply emits_bind; [assumption| |].
    + apply (emits_call bar (BarUpdate 1)); [apply pbar_update_push|apply Hbar].
    + intros _. apply emits_bind; [assumption|now apply emits_sleep|]. intros _.
      now apply emits_ret.
Qed.

Lemma emits_batch (au : Progress.auth) (bar : Progress.pbar) (ckpt : string)
    (total : Z) (sirets : list string) :
  (forall s, In s sirets -> P [Get (Progress.build_url au s) (Progress.headers au)]) ->
  (forall h l, P [WriteCsv ckpt h l]) ->
  (forall c, P (Drawn.call bar c)) ->
  forall i b, Invariant.emits P (Progress.batch repr w a au bar ckpt total i sirets b).
Proof.
  intros Hget Hcsv Hbar. induction sirets as [|s rest IH]; intros i b;
    cbn [Progress.batch]; [now apply emits_ret|].
  apply emits_bind; [assumption| |].
  - apply emits_process; [apply Hget; now left|assumption|assumption].
  - intros b'. apply IH. intros s' Hs'. apply Hget. now right.
Qed.

Lemma emits_get_token (cid cs : string) :
  P [Post Progress.TOKEN_URL cid cs] ->
  Invariant.emits P (Progress.get_token w cid cs).
Proof.
  intros H. unfold Progress.get_token.
  apply emits_bind; [assumption|now apply emits_post|]. intros r.
  apply emits_bind; [assumption|now apply emits_raise_for_status|]. intros _.
  apply emits_bind; [assumption|now apply emits_lift|]. intros js.
  now apply emits_lift.
Qed.

Lemma emits_startup (sur : Progress.surroundings) :
  (forall cid cs, P [Post Progress.TOKEN_URL cid cs]) ->
  Invariant.emits P (Progress.startup repr w a sur).
Proof.
  intros H. unfold Progress.startup.
  destruct (Progress.truthy (Progress.resolve_api_key a sur)); [now apply emits_ret|].
  destruct (negb _ || negb _).
  - apply emits_bind; [assumption|apply emits_log|]. intros _. now apply emits_exit.
  - apply emits_bind; [assumption|now apply emits_get_token|]. intros t.
    now apply emits_ret.
Qed.

(** What follows the line naming the mode in [collect]. *)
Lemma emits_lookups (sur : Progress.surroundings) (sirets : list string)
    (au : Progress.auth) :
  (forall s, In s sirets ->
             P [Get (Progress.build_url au s) (Progress.headers au)]) ->
  (forall p h l, Progress.checkpoint_path a = Ok p -> P [WriteCsv p h l]) ->
  (forall c, P (Drawn.call (Drawn.bar_of sur) c)) ->
  Invariant.emits P (Mode.lookups repr w a sur au sirets).
Proof.
  intros Hget Hcsv Hbar. unfold Mode.lookups.
  apply emits_bind_lift; [assumption|]. intros ckpt Hckpt.
  apply emits_bind_from; [assumption| |].
  { intros st. eexists. rewrite get_tqdm_push. split; [reflexivity|apply Hbar]. }
  intros bar st st' Hbar'. rewrite get_tqdm_push in Hbar'.
  injection Hbar' as <- _.
  apply emits_bind; [assumption| |].
  { apply emits_batch; try assumption. intros h l. now apply Hcsv. }
  intros b. apply emits_bind; [assumption| |].
  { apply (emits_call (Drawn.bar_of sur) BarClose);
      [apply pbar_close_push|apply Hbar]. }
  intros _. now apply emits_ret.
Qed.

(** What follows the start-up in [collect]. *)
Lemma emits_gather (sur : Progress.surroundings) (sirets : list string)
    (au : Progress.auth) :
  (forall s, In s sirets ->
             P [Get (Progress.build_url au s) (Progress.headers au)]) ->
  (forall p h l, Progress.checkpoint_path a = Ok p -> P [WriteCsv p h l]) ->
  (forall c, P (Drawn.call (Drawn.bar_of sur) c)) ->
  Invariant.emits P
    (Progress.log a ("Mode: " ++ Progress.mode au ++ " | Total SIRET à traiter: "
                     ++ Text.str_of_Z (Z.of_nat (length sirets))) ;;;
     checkpoint_csv <- Eff.lift (Progress.checkpoint_path a) ;;
     bar <- Progress.get_tqdm sur (Z.of_nat (length sirets)) ;;
     b <- Progress.batch repr w a au bar checkpoint_csv (Z.of_nat (length sirets)) 1
            sirets {| Progress.b_rows := []; Progress.b_ok := 0; Progress.b_ko := 0 |} ;;
     Progress.pbar_close bar ;;;
     Eff.ret (Z.of_nat (length sirets), checkpoint_csv, b))%eff.
Proof.
  intros Hget Hcsv Hbar.
  apply emits_bind; [assumption|apply emits_log|]. intros _.
  now apply emits_lookups.
Qed.

Lemma emits_collect (sur : Progress.surroundings) :
  (forall au sirets s st st',
      Progress.load_sirets (Progress.pandas sur) (Progress.input_file sur)
      = Ok sirets ->
      In s sirets ->
      Progress.startup repr w a sur st = (Done au, st') ->
      P [Get (Progress.build_url au s) (Progress.headers au)]) ->
  (forall p h l, Progress.checkpoint_path a = Ok p -> P [WriteCsv p h l]) ->
  (forall c, P (Drawn.call (Drawn.bar_of sur) c)) ->
  (forall cid cs, P [Post Progress.TOKEN_URL cid cs]) ->
  Invariant.emits P (Progress.collect repr w a sur).
Proof.
  intros Hget Hcsv Hbar Hpost. unfold Progress.collect.
  apply emits_bind_lift; [assumption|]. intros sirets Hload.
  apply emits_bind; [assumption| |].
  { destruct (_ =? 0); [|now apply emits_ret].
    apply emits_bind; [assumption|apply emits_log|]. intros _. now apply emits_exit. }
  intros _. apply emits_bind_from; [assumption|now apply emits_startup|].
  intros au st st' Hstart.
  apply emits_gather; try assumption.
  intros s Hs. now apply (Hget au sirets s st st').
Qed.

Lemma emits_to_excel (writer : string -> list record -> option exn)
    (path : string) (rows : list record) :
  P [WriteExcel path rows] ->
  Invariant.emits P (Excel.to_excel repr writer path rows).
Proof.
  intros H. unfold Excel.to_excel.
  destruct (Excel.refusal repr writer path rows);
    [now apply emits_raise|now apply emits_emit].
Qed.

Lemma emits_export (sur : Progress.surroundings) (total : Z) (ckpt : string)
    (b : Progress.batch_state) :
  (forall rows, P [WriteExcel (Progress.output a) rows]) ->
  Invariant.emits P (Progress.export repr a sur total ckpt b).
Proof.
  intros Hxl. unfold Progress.export.
  apply emits_bind; [assumption|now apply emits_to_excel|]. intros _.
  repeat (apply emits_bind; [assumption|apply emits_log|]; intros _).
  apply emits_log.
Qed.

(** The whole of [main]. *)
Lemma emits_main (sur : Progress.surroundings) :
  (forall au sirets s st st',
      Progress.load_sirets (Progress.pandas sur) (Progress.input_file sur)
      = Ok sirets ->
      In s sirets ->
      Progress.startup repr w a sur st = (Done au, st') ->
      P [Get (Progress.build_url au s) (Progress.headers au)]) ->
  (forall p h l, Progress.checkpoint_path a = Ok p -> P [WriteCsv p h l]) ->
  (forall rows, P [WriteExcel (Progress.output a) rows]) ->
  (forall cid cs, P [Post Progress.TOKEN_URL cid cs]) ->
  (forall c, P (Drawn.call (Drawn.bar_of sur) c)) ->
  Invariant.emits P (Progress.main repr w a sur).
Proof.
  intros Hget Hcsv Hxl Hpost Hbar. unfold Progress.main.
  apply emits_bind; [assumption|now apply emits_collect|]. intros r.
  now apply emits_export.
Qed.

End EmitsProgress.

Lemma emits_initial {A} (P : list event -> Prop) (m : M A) :
  Invariant.emits P m -> P (trace (snd (m initial))).
Proof.
  intros H. destruct (H initial) as [evs [-> Hevs]]. exact Hevs.
Qed.

Lemma startup_base (repr : json -> string) (w : world) (a : Progress.args)
    (sur : Progress.surroundings) (st st' : state) (au : Progress.auth) :
  Progress.startup repr w a sur st = (Done au, st') ->
  In (Progress.base_url au) (Footprint.bases a).
Proof.
  unfold Progress.startup, Footprint.bases.
  destruct (Progress.truthy (Progress.resolve_api_key a sur)).
  - intros H. injection H as <- _. now left.
  - destruct (negb _ || negb _).
    + erewrite bind_done by apply log_push. discriminate.
    + unfold Eff.bind. rewrite get_token_outcome.
      destruct (Logs.token_outcome _ _); try discriminate.
      intros H. injection H as <- _. right; now left.
Qed.

Lemma lines_mirrored (a : Progress.args) (lf msg : string) :
  Progress.log_file a = Some lf -> lf <> "" ->
  Footprint.mirrored lf (Logs.lines a msg).
Proof.
  intros Hlf Hne. unfold Logs.lines, Footprint.mirrored. rewrite Hlf.
  cbn [Progress.truthy Progress.text_of].
  destruct (lf =? "")%string eqn:E; [apply String.eqb_eq in E; contradiction|].
  cbn. now rewrite String.eqb_refl.
Qed.

(** X1.  With [--log-file], every line printed on the standard output is also
    appended to the log file, in the same order, and nothing else is:
    whatever the server answers and however the run ends. *)
Theorem log_file_mirrors_stdout (repr : json -> string) (w : world)
    (a : Progress.args) (sur : Progress.surroundings) (lf : string) :
  Progress.log_file a = Some lf -> lf <> "" ->
  Footprint.appended lf (trace (snd (Progress.main repr w a sur initial)))
  = Footprint.stdout_lines (trace (snd (Progress.main repr w a sur initial))).
Proof.
  intros Hlf Hne.
  apply (emits_initial (Footprint.mirrored lf)).
  apply emits_main; try reflexivity.
  - apply monoid_mirrored.
  - intros msg. now apply lines_mirrored.
  - intros c. now destruct (Drawn.bar_of sur).
Qed.

Lemma log_file_mirrors_stdout_witness :
  Footprint.appended "run.log"
    (trace (snd (Progress.main Sample.repr0 Logged.server Logged.args Logged.sur initial)))
  = Footprint.stdout_lines
      (trace (snd (Progress.main Sample.repr0 Logged.server Logged.args Logged.sur initial)))
  /\ length (Footprint.stdout_lines
               (trace (snd (Progress.main Sample.repr0 Logged.server Logged.args
                              Logged.sur initial)))) = 13%nat.
Proof.
  split.
  - apply (log_file_mirrors_stdout Sample.repr0 Logged.server Logged.args Logged.sur);
      [reflexivity|discriminate].
  - vm_compute. reflexivity.
Defined.

Lemma lines_allowed (a : Progress.args) (sur : Progress.surroundings)
    (msg : string) :
  Forall (Footprint.allowed a sur) (Logs.lines a msg).
Proof.
  unfold Logs.lines. constructor; [exact I|].
  destruct (Progress.log_file a) as [lf|] eqn:Hlf; cbn [Progress.truthy];
    [|constructor].
  destruct (lf =? "")%string eqn:E; cbn [negb]; [constructor|].
  constructor; [|constructor]. cbn. rewrite Hlf. split; [reflexivity|].
  intros ->. discriminate.
Qed.

(** X2.  A run only appends to the log file given with [--log-file], only
    writes the checkpoint file and the output spreadsheet, only posts to the
    token endpoint, and never prints a line on the standard error: the
    only thing it puts there is the [tqdm] progress bar, and only when
    [tqdm] is installed.  This holds whatever the server answers and
    however the run ends (the traceback of an exception that ends the run
    is the interpreter's, not an event of the run). *)
Theorem run_touches_only_its_files (repr : json -> string) (w : world)
    (a : Progress.args) (sur : Progress.surroundings) :
  Forall (Footprint.allowed a sur)
    (trace (snd (Progress.main repr w a sur initial)))
  /\ (Progress.tqdm sur = false ->
      Forall (fun ev => match ev with Bar _ => False | _ => True end)
        (trace (snd (Progress.main repr w a sur initial)))).
Proof.
  assert (H : Forall (Footprint.allowed a sur)
                (trace (snd (Progress.main repr w a sur initial)))).
  { apply (emits_initial (Forall (Footprint.allowed a sur))).
    apply emits_main; try (intros; repeat constructor; assumption).
    - apply monoid_Forall.
    - apply lines_allowed.
    - intros c. unfold Drawn.bar_of.
      destruct (Progress.tqdm sur) eqn:E; repeat constructor. exact E. }
  split; [exact H|].
  intros Hno. eapply Forall_impl; [|exact H].
  intros ev Hev. destruct ev; try exact I. cbn in Hev. congruence.
Qed.

Lemma lines_lookup_of (a : Progress.args) (sirets : list string) (msg : string) :
  Forall (Footprint.lookup_of a sirets) (Logs.lines a msg).
Proof.
  unfold Logs.lines. constructor; [exact I|].
  destruct (Progress.truthy _); repeat constructor.
Qed.

(** X3.  Every request of a run that is not the token request is the lookup of
    an identifier loaded from the input file, at one of the two Sirene
    bases: nothing else is ever requested, whatever the server answers. *)
Theorem lookups_only_for_loaded_identifiers (repr : json -> string) (w : world)
    (a : Progress.args) (sur : Progress.surroundings) :
  Forall (Footprint.lookup_of a (Footprint.loaded sur))
    (trace (snd (Progress.main repr w a sur initial))).
Proof.
  apply (emits_initial (Forall (Footprint.lookup_of a (Footprint.loaded sur)))).
  apply emits_main; try (intros; repeat constructor; assumption).
  - apply monoid_Forall.
  - apply lines_lookup_of.
  - intros au sirets s st st' Hload Hs Hstart. repeat constructor.
    exists (Progress.base_url au), s. unfold Footprint.loaded. rewrite Hload.
    split; [|split; [assumption|reflexivity]].
    exact (startup_base _ _ _ _ _ _ _ Hstart).
  - intros c. destruct (Drawn.bar_of sur); repeat constructor.
Qed.

(** ** Token requests *)

Lemma no_post_count (evs : list event) :
  Forall Footprint.no_post evs -> Trace.count Trace.is_post evs = 0%nat.
Proof.
  unfold Trace.count. induction 1 as [|ev evs H _ IH]; [reflexivity|].
  cbn [filter]. unfold Footprint.no_post in H. now rewrite H.
Qed.

Lemma quiet_then {A B} (n : nat) (m : M A) (k : A -> M B) :
  Invariant.emits (Forall Footprint.no_post) m ->
  (forall x, Invariant.emits (Footprint.posts_at_most n) (k x)) ->
  Invariant.emits (Footprint.posts_at_most n) (Eff.bind m k).
Proof.
  intros Hm Hk.
  apply (emits_weaken _ (Invariant.then_ (Forall Footprint.no_post)
                                         (Footprint.posts_at_most n))).
  - intros evs [e1 [e2 [-> [H1 H2]]]]. unfold Footprint.posts_at_most in *.
    rewrite count_app, (no_post_count _ H1). exact H2.
  - apply emits_then; [|assumption|assumption].
    unfold Footprint.posts_at_most. cbn. lia.
Qed.

Lemma then_quiet {A B} (n : nat) (m : M A) (k : A -> M B) :
  Invariant.emits (Footprint.posts_at_most n) m ->
  (forall x, Invariant.emits (Forall Footprint.no_post) (k x)) ->
  Invariant.emits (Footprint.posts_at_most n) (Eff.bind m k).
Proof.
  intros Hm Hk.
  apply (emits_weaken _ (Invariant.then_ (Footprint.posts_at_most n)
                                         (Forall Footprint.no_post))).
  - intros evs [e1 [e2 [-> [H1 H2]]]]. unfold Footprint.posts_at_most in *.
    rewrite count_app, (no_post_count _ H2). lia.
  - apply emits_then; [constructor|assumption|assumption].
Qed.

Lemma lines_no_post (a : Progress.args) (msg : string) :
  Forall Footprint.no_post (Logs.lines a msg).
Proof.
  unfold Logs.lines. constructor; [reflexivity|].
  destruct (Progress.truthy _); repeat constructor.
Qed.

Lemma startup_posts (repr : json -> string) (w : world) (a : Progress.args)
    (sur : Progress.surroundings) :
  Invariant.emits (Footprint.posts_at_most (Footprint.token_requests a sur))
    (Progress.startup repr w a sur).
Proof.
  intros st. unfold Progress.startup, Footprint.token_requests.
  destruct (Progress.truthy (Progress.resolve_api_key a sur)).
  - exists []. cbn. rewrite app_nil_r. split; [reflexivity|].
    unfold Footprint.posts_at_most. cbn. lia.
  - destruct (negb _ || negb _).
    + erewrite bind_done by apply log_push. cbn.
      eexists. split; [reflexivity|]. unfold Footprint.posts_at_most.
      rewrite (no_post_count _ (lines_no_post _ _)). lia.
    + unfold Eff.bind. rewrite get_token_outcome.
      exists [Post Progress.TOKEN_URL
                (Progress.text_of (Progress.resolve_client_id a sur))
                (Progress.text_of (Progress.resolve_client_secret a sur))].
      split; [now destruct (Logs.token_outcome _ _)|].
      unfold Footprint.posts_at_most. cbn. lia.
Qed.

(** X4.  A run asks for a token at most once, and never when an API key is
    given (on the command line, in the environment or in [.env]): the
    client credentials are then not sent at all.  This holds whatever the
    server answers and however the run ends. *)
Theorem token_requested_at_most_once (repr : json -> string) (w : world)
    (a : Progress.args) (sur : Progress.surroundings) :
  (Trace.count Trace.is_post (trace (snd (Progress.main repr w a sur initial)))
   <= Footprint.token_requests a sur)%nat.
Proof.
  apply (emits_initial (Footprint.posts_at_most (Footprint.token_requests a sur))).
  unfold Progress.main.
  apply then_quiet.
  2:{ intros r. apply emits_export; try (intros; repeat constructor; assumption).
      - apply monoid_Forall.
      - apply lines_no_post. }
  unfold Progress.collect.
  apply quiet_then; [apply emits_lift, monoid_Forall|]. intros sirets.
  apply quiet_then.
  { destruct (_ =? 0); [|apply emits_ret, monoid_Forall].
    apply emits_bind; [apply monoid_Forall| |].
    - apply emits_log. apply lines_no_post.
    - intros _. apply emits_exit, monoid_Forall. }
  intros _. apply then_quiet; [apply startup_posts|]. intros au.
  apply emits_gather; try (intros; repeat constructor; assumption).
  - apply monoid_Forall.
  - apply lines_no_post.
  - intros c. destruct (Drawn.bar_of sur); repeat constructor.
Qed.

(** ** The retry loop, answer by answer *)

Section Attempts.

Variable repr : json -> string.
Variable w : world.
Variable a : Progress.args.
Variable au : Progress.auth.
Variable url : string.
Hypothesis Hbackoff : Eff.accepts (Progress.retry_backoff a) = true.

Let bump (ls : Progress.attempt_state) (e : option exn) : Progress.attempt_state :=
  {| Progress.attempt := Progress.attempt ls + 1; Progress.last_err := e;
     Progress.rows := Progress.rows ls; Progress.ok := Progress.ok ls |}.

Let get : event := Get url (Progress.headers au).

(** One iteration, read off the answer to its request. *)
Lemma attempt_read (ls : Progress.attempt_state) (st : state) :
  Eff.try_ (Progress.try_body repr w a au url ls) (Progress.except_body a ls) st
  = match Attempt.read repr a url (http_get w (gets st)) with
    | Attempt.Row row =>
        (Done (Progress.Break,
               {| Progress.attempt := Progress.attempt ls;
                  Progress.last_err := None;
                  Progress.rows := (Progress.rows ls ++ [row])%list;
                  Progress.ok := S (Progress.ok ls) |}),
         Trace.push st [get])
    | Attempt.Limited d =>
        (Done (Progress.Continue, bump ls (Progress.last_err ls)),
         Trace.push st [get; Sleep d])
    | Attempt.Failed e =>
        (Done (Progress.Continue, bump ls (Some e)),
         Trace.push st [get; Sleep (Progress.retry_backoff a)])
    end.
Proof.
  assert (Hexc : forall e st1,
             Progress.except_body a ls e (Trace.push st1 [get])
             = (Done (Progress.Continue, bump ls (Some e)),
                Trace.push st1 [get; Sleep (Progress.retry_backoff a)])).
  { intros e st1. unfold Progress.except_body.
    erewrite bind_done by (apply sleep_push, Hbackoff).
    unfold Eff.ret. now rewrite push_push. }
  unfold Eff.try_, Progress.try_body, Attempt.read.
  unfold Eff.bind at 1. rewrite requests_get_push. fold get.
  destruct (http_get w (gets st)) as [e|r]; [apply Hexc|].
  destruct (status_code r =? 429).
  - destruct (Progress.pause_of repr a (retry_after r)) as [d|e];
      cbn [Eff.lift]; unfold Eff.bind at 1; [|apply Hexc].
    unfold Eff.ret at 1. unfold Eff.bind at 1, Eff.sleep.
    destruct (Eff.sleep_error d) as [e|] eqn:Hd; [apply Hexc|].
    rewrite emit_push by reflexivity.
    unfold Eff.ret. now rewrite push_push.
  - unfold Eff.bind at 1, Eff.raise_for_status.
    destruct ((400 <=? status_code r) && (status_code r <? 500)); [apply Hexc|].
    destruct ((500 <=? status_code r) && (status_code r <? 600)); [apply Hexc|].
    unfold Eff.ret at 1.
    destruct (body r) as [js|e]; cbn [Eff.lift]; unfold Eff.bind at 1;
      [|apply Hexc].
    unfold Eff.ret at 1.
    destruct (Progress.extract_fields repr js) as [row|e]; cbn [Eff.lift];
      [reflexivity|apply Hexc].
Qed.

(** The loop over a run of answers none of which gives a row: one request
    and one pause for each, and the loop goes on behind them. *)
Lemma retry_loop_skip (m : nat) :
  forall (fuel : nat) (ls : Progress.attempt_state) (st : state),
    Progress.attempt ls + Z.of_nat m <= Progress.max_retries a + 1 ->
    forallb (fun r => negb (Attempt.is_row r)) (Attempt.answers repr w a url st m) = true ->
    exists evs,
      Progress.retry_loop repr w a (m + fuel) au url ls st
      = Progress.retry_loop repr w a fuel au url
          {| Progress.attempt := Progress.attempt ls + Z.of_nat m;
             Progress.last_err :=
               Attempt.last_error (Progress.last_err ls)
                 (Attempt.answers repr w a url st m);
             Progress.rows := Progress.rows ls;
             Progress.ok := Progress.ok ls |}
          (Trace.push st evs)
      /\ evs = flat_map (fun r => [get; Sleep (Attempt.pause a r)])
                 (Attempt.answers repr w a url st m).
Proof.
  induction m as [|m IH]; intros fuel ls st Hle Hnone.
  - exists []. rewrite push_nil, Z.add_0_r. cbn. split; [|reflexivity].
    now destruct ls.
  - cbn [Nat.add Progress.retry_loop].
    assert (Hguard : (Progress.attempt ls <=? Progress.max_retries a) = true)
      by (apply Z.leb_le; lia).
    rewrite Hguard.
    unfold Attempt.answers in Hnone |- *. cbn [seq map forallb] in Hnone |- *.
    rewrite Nat.add_0_r in *.
    apply andb_prop in Hnone as [Hfirst Hrest].
    rewrite <- seq_shift, map_map in Hrest |- *.
    unfold Eff.bind at 1. rewrite attempt_read.
    destruct (Attempt.read repr a url (http_get w (gets st))) as [row|d|e] eqn:Hread;
      [discriminate| |].
    + destruct (IH fuel (bump ls (Progress.last_err ls))
                  (Trace.push st [get; Sleep d]))
        as [evs [Hrun Hevs]].
      { cbn. lia. }
      { unfold Attempt.answers. cbn [gets Trace.push Trace.count filter
                                      Trace.is_get get length].
        erewrite map_ext; [exact Hrest|]. intros j. cbn.
        now replace (gets st + 1 + j)%nat with (gets st + S j)%nat by lia. }
      eexists. split.
      * rewrite Hrun, push_push. cbn [Progress.attempt Progress.last_err
                                       Progress.rows Progress.ok bump].
        unfold Attempt.answers.
        cbn [gets Trace.push Trace.count filter Trace.is_get get length].
        erewrite (map_ext (fun j => Attempt.read repr a url
                                      (http_get w (gets st + 1 + j))));
          [|intros j; now replace (gets st + 1 + j)%nat
                        with (gets st + S j)%nat by lia].
        cbn [Attempt.last_error fold_left].
        replace (Progress.attempt ls + 1 + Z.of_nat m)
          with (Progress.attempt ls + Z.of_nat (S m)) by lia.
        reflexivity.
      * cbn [flat_map Attempt.pause app]. rewrite Hevs. unfold Attempt.answers.
        cbn [gets Trace.push Trace.count filter Trace.is_get get length].
        do 2 f_equal. f_equal. apply map_ext. intros j.
        now replace (gets st + 1 + j)%nat with (gets st + S j)%nat by lia.
    + destruct (IH fuel (bump ls (Some e))
                  (Trace.push st [get; Sleep (Progress.retry_backoff a)]))
        as [evs [Hrun Hevs]].
      { cbn. lia. }
      { unfold Attempt.answers. cbn [gets Trace.push Trace.count filter
                                      Trace.is_get get length].
        erewrite map_ext; [exact Hrest|]. intros j. cbn.
        now replace (gets st + 1 + j)%nat with (gets st + S j)%nat by lia. }
      eexists. split.
      * rewrite Hrun, push_push. cbn [Progress.attempt Progress.last_err
                                       Progress.rows Progress.ok bump].
        unfold Attempt.answers.
        cbn [gets Trace.push Trace.count filter Trace.is_get get length].
        erewrite (map_ext (fun j => Attempt.read repr a url
                                      (http_get w (gets st + 1 + j))));
          [|intros j; now replace (gets st + 1 + j)%nat
                        with (gets st + S j)%nat by lia].
        cbn [Attempt.last_error fold_left].
        replace (Progress.attempt ls + 1 + Z.of_nat m)
          with (Progress.attempt ls + Z.of_nat (S m)) by lia.
        reflexivity.
      * cbn [flat_map Attempt.pause app]. rewrite Hevs. unfold Attempt.answers.
        cbn [gets Trace.push Trace.count filter Trace.is_get get length].
        do 2 f_equal. f_equal. apply map_ext. intros j.
        now replace (gets st + 1 + j)%nat with (gets st + S j)%nat by lia.
Qed.

End Attempts.

(** ** One identifier, from the loop's result on *)

Lemma lines_no_get (a : Progress.args) (msg : string) :
  Trace.count Trace.is_get (Logs.lines a msg) = 0%nat.
Proof.
  unfold Logs.lines. now destruct (Progress.truthy _).
Qed.

Lemma when_lines_no_get (a : Progress.args) (c : bool) (msg : string) :
  Trace.count Trace.is_get (if c then Logs.lines a msg else []) = 0%nat.
Proof. destruct c; [apply lines_no_get|reflexivity]. Qed.

Lemma checkpoint_events_no_get (a : Progress.args) (ckpt : string) (total i : Z)
    (rows : list record) :
  Trace.count Trace.is_get (Checkpoint.events a ckpt total i rows) = 0%nat.
Proof.
  unfold Checkpoint.events. destruct (Checkpoint.due a total i); [|reflexivity].
  change (WriteCsv ?p ?h ?l :: ?r) with ([WriteCsv p h l] ++ r)%list.
  rewrite count_app, lines_no_get. reflexivity.
Qed.

Lemma bar_call_no_get (bar : Progress.pbar) (c : bar_call) :
  Trace.count Trace.is_get (Drawn.call bar c) = 0%nat.
Proof. now destruct bar. Qed.

(** Among answers that give no row, the last error is none exactly when
    every answer was a 429 whose pause was taken. *)
Lemma last_error_none (l : list Attempt.result) :
  forall start,
    forallb (fun r => negb (Attempt.is_row r)) l = true ->
    (Attempt.last_error start l = None
     <-> start = None /\ forallb Attempt.is_limited l = true).
Proof.
  unfold Attempt.last_error.
  induction l as [|r l IH]; intros start Hl; cbn [fold_left forallb].
  - tauto.
  - cbn [forallb] in Hl. apply andb_prop in Hl as [Hr Hl].
    rewrite (IH _ Hl). destruct r as [row|d|e]; cbn [Attempt.is_limited andb].
    + discriminate.
    + tauto.
    + split; [intros [H _]; discriminate|intros [_ H]; discriminate].
Qed.

Lemma pauses_count (a : Progress.args) (get : event) (l : list Attempt.result) :
  Trace.is_get get = true ->
  Trace.count Trace.is_get
    (flat_map (fun r => [get; Sleep (Attempt.pause a r)]) l) = length l.
Proof.
  intros H. unfold Trace.count. induction l as [|r l IH]; [reflexivity|].
  cbn [flat_map app filter length]. rewrite H. cbn [Trace.is_get length].
  now rewrite IH.
Qed.

Lemma answers_length (repr : json -> string) (w : world) (a : Progress.args)
    (url : string) (st : state) (n : nat) :
  length (Attempt.answers repr w a url st n) = n.
Proof. unfold Attempt.answers. now rewrite length_map, length_seq. Qed.

Section ProcessRun.

Variable repr : json -> string.
Variable w : world.
Variable a : Progress.args.
Hypothesis Hsane : Config.sane a.
Variable au : Progress.auth.
Variable bar : Progress.pbar.
Variable ckpt : string.
Variable total i : Z.
Variable s : string.
Variable b : Progress.batch_state.

(** Once the retry loop has ended, the identifier is settled: the
    accumulator is updated, the log lines and the checkpoint are written,
    and the script pauses; no request is made any more. *)
Lemma process_run (st st1 : state) (ls : Progress.attempt_state) :
  Progress.retry_loop repr w a (Progress.retry_fuel a) au
    (Progress.build_url au s) (Attempt.enter b) st = (Done ls, st1) ->
  exists tail,
    Progress.process repr w a au bar ckpt total i s b st
    = (Done (Attempt.settle s b ls), Trace.push st1 tail)
    /\ Trace.count Trace.is_get tail = 0%nat
    /\ Forall Quiet.inside_batch tail.
Proof.
  intros Hrun. destruct Hsane as [Hsleep [Hbackoff Hevery]].
  unfold Attempt.enter in Hrun.
  unfold Progress.process, Attempt.settle, Attempt.failure.
  erewrite bind_done by exact Hrun. cbv zeta.
  erewrite bind_done by apply opt_log_push.
  unfold Progress.py_mod. apply Z.eqb_neq in Hevery. rewrite Hevery.
  cbn [Eff.lift]. erewrite bind_done by reflexivity.
  erewrite bind_done by apply opt_log_push.
  erewrite bind_done by apply checkpoint_step.
  erewrite bind_done by apply pbar_update_push.
  erewrite bind_done by (apply sleep_push, Hsleep).
  unfold Eff.ret. rewrite !push_push.
  match goal with
  | |- context [(Done _, Trace.push st1 ?t)] => exists t
  end.
  split; [reflexivity|]. split.
  - rewrite !count_app, !when_lines_no_get, checkpoint_events_no_get,
      bar_call_no_get. reflexivity.
  - rewrite !Forall_app. repeat split.
    + destruct (Progress.verbose a); [|constructor].
      apply logs_inside, log_lines_are_logs.
    + match goal with |- Forall _ (if ?c then _ else _) => destruct c end;
        [|constructor]. apply logs_inside, log_lines_are_logs.
    + apply checkpoint_events_inside.
    + apply bar_call_inside.
    + repeat constructor.
Qed.

Let url : string := Progress.build_url au s.

(** The loop when the first [m] answers give no row and the next one does. *)
Lemma loop_first_success (st : state) (m : nat) (row : record) :
  Z.of_nat m <= Progress.max_retries a ->
  forallb (fun r => negb (Attempt.is_row r)) (Attempt.answers repr w a url st m) = true ->
  Attempt.read repr a url (http_get w (gets st + m)) = Attempt.Row row ->
  exists st1,
    Progress.retry_loop repr w a (Progress.retry_fuel a) au url (Attempt.enter b) st
    = (Done {| Progress.attempt := Z.of_nat m; Progress.last_err := None;
               Progress.rows := (Progress.b_rows b ++ [row])%list;
               Progress.ok := S (Progress.b_ok b) |}, st1)
    /\ gets st1 = (gets st + m + 1)%nat.
Proof.
  intros Hm Hnone Hrow. destruct Hsane as [_ [Hbackoff _]].
  destruct (retry_loop_skip repr w a au url Hbackoff m
              (S (Z.to_nat (Progress.max_retries a) - m)) (Attempt.enter b) st)
    as [evs [Hrun Hevs]]; [cbn; lia|exact Hnone|].
  replace (Progress.retry_fuel a)
    with (m + S (Z.to_nat (Progress.max_retries a) - m))%nat
    by (unfold Progress.retry_fuel; lia).
  rewrite Hrun. cbn [Progress.retry_loop Progress.attempt Attempt.enter].
  rewrite Z.add_0_l.
  replace (Z.of_nat m <=? Progress.max_retries a) with true
    by (symmetry; now apply Z.leb_le).
  unfold Eff.bind at 1. rewrite attempt_read by exact Hbackoff.
  assert (Hgets : gets (Trace.push st evs) = (gets st + m)%nat).
  { cbn [gets Trace.push]. rewrite Hevs, pauses_count by reflexivity.
    now rewrite answers_length. }
  rewrite Hgets, Hrow. unfold Eff.ret.
  cbn [Progress.attempt Progress.last_err Progress.rows Progress.ok Attempt.enter].
  eexists. split; [reflexivity|].
  cbn [gets Trace.push Trace.count filter Trace.is_get length].
  cbn [gets Trace.push] in Hgets. lia.
Qed.

(** The loop when none of the [max_retries + 1] answers gives a row. *)
Lemma loop_exhausted (st : state) :
  forallb (fun r => negb (Attempt.is_row r))
    (Attempt.answers repr w a url st (Progress.retry_fuel a)) = true ->
  exists st1,
    Progress.retry_loop repr w a (Progress.retry_fuel a) au url (Attempt.enter b) st
    = (Done {| Progress.attempt := Z.of_nat (Progress.retry_fuel a);
               Progress.last_err :=
                 Attempt.last_error None
                   (Attempt.answers repr w a url st (Progress.retry_fuel a));
               Progress.rows := Progress.b_rows b;
               Progress.ok := Progress.b_ok b |}, st1)
    /\ gets st1 = (gets st + Progress.retry_fuel a)%nat.
Proof.
  intros Hnone. destruct Hsane as [_ [Hbackoff _]].
  destruct (Z.ltb_spec (Progress.max_retries a) 0) as [Hneg|Hpos].
  - (* no attempt at all *)
    assert (Hfuel : Progress.retry_fuel a = 0%nat)
      by (unfold Progress.retry_fuel; lia).
    rewrite Hfuel. cbn [Progress.retry_loop Attempt.enter Progress.attempt].
    replace (0 <=? Progress.max_retries a) with false
      by (symmetry; apply Z.leb_gt; lia).
    exists st. split; [reflexivity|lia].
  - destruct (retry_loop_skip repr w a au url Hbackoff (Progress.retry_fuel a)
                0%nat (Attempt.enter b) st)
      as [evs [Hrun Hevs]];
      [unfold Progress.retry_fuel; cbn; lia|exact Hnone|].
    rewrite Nat.add_0_r in Hrun. rewrite Hrun.
    cbn [Progress.retry_loop Progress.attempt Attempt.enter Progress.last_err
         Progress.rows Progress.ok].
    replace (0 + Z.of_nat (Progress.retry_fuel a) <=? Progress.max_retries a)
      with false
      by (symmetry; apply Z.leb_gt; unfold Progress.retry_fuel; lia).
    unfold Eff.ret. eexists. split; [reflexivity|].
    cbn [gets Trace.push]. rewrite Hevs, pauses_count by reflexivity.
    now rewrite answers_length.
Qed.

Lemma process_first_success (st : state) (m : nat) (row : record) :
  Z.of_nat m <= Progress.max_retries a ->
  forallb (fun r => negb (Attempt.is_row r)) (Attempt.answers repr w a url st m) = true ->
  Attempt.read repr a url (http_get w (gets st + m)) = Attempt.Row row ->
  exists st',
    Progress.process repr w a au bar ckpt total i s b st
    = (Done {| Progress.b_rows := (Progress.b_rows b ++ [row])%list;
               Progress.b_ok := S (Progress.b_ok b);
               Progress.b_ko := Progress.b_ko b |}, st')
    /\ gets st' = (gets st + m + 1)%nat.
Proof.
  intros Hm Hnone Hrow.
  destruct (loop_first_success st m row Hm Hnone Hrow) as [st1 [Hloop Hgets]].
  destruct (process_run st st1 _ Hloop) as [tail [Hrun [Hcount _]]].
  exists (Trace.push st1 tail). split; [exact Hrun|].
  cbn [gets Trace.push]. lia.
Qed.

Lemma process_exhausted (st : state) :
  forallb (fun r => negb (Attempt.is_row r))
    (Attempt.answers repr w a url st (Progress.retry_fuel a)) = true ->
  exists st',
    Progress.process repr w a au bar ckpt total i s b st
    = (Done match Attempt.last_error None
                    (Attempt.answers repr w a url st (Progress.retry_fuel a)) with
            | Some e => {| Progress.b_rows := (Progress.b_rows b ++ [Attempt.failure s e])%list;
                           Progress.b_ok := Progress.b_ok b;
                           Progress.b_ko := S (Progress.b_ko b) |}
            | None => b
            end, st')
    /\ gets st' = (gets st + Progress.retry_fuel a)%nat
    /\ Trace.excel_files (trace st') = Trace.excel_files (trace st).
Proof.
  intros Hnone.
  destruct (loop_exhausted st Hnone) as [st1 [Hloop Hgets]].
  destruct (process_run st st1 _ Hloop) as [tail [Hrun [Hcount Hq]]].
  exists (Trace.push st1 tail). split; [|split].
  - rewrite Hrun. unfold Attempt.settle. cbn [Progress.last_err Progress.rows
                                               Progress.ok].
    destruct (Attempt.last_error None _); [reflexivity|now destruct b].
  - cbn [gets Trace.push]. lia.
  - (* the spreadsheet is for later *)
    cbn [trace Trace.push].
    rewrite excel_files_app, (proj2 (inside_batch_facts _ Hq)), app_nil_r.
    destruct Hsane as [_ [Hbackoff _]].
    destruct (retry_loop_spec repr w a au url Hbackoff (Progress.retry_fuel a)
                (Attempt.enter b) st) as [ls' [evs [Hspec [Hevs _]]]].
    { unfold Progress.retry_fuel. cbn. lia. }
    rewrite Hloop in Hspec. injection Hspec as _ ->.
    cbn [trace Trace.push].
    rewrite excel_files_app,
      (proj2 (inside_batch_facts _ (lookup_events_inside _ _ _ Hevs))).
    now rewrite app_nil_r.
Qed.

End ProcessRun.

(** X5.  A success after failed attempts erases them: when the first [m]
    answers for an identifier give no row (errors or 429) and answer
    [m + 1] does, with [m] at most the retry count, the identifier costs
    exactly [m + 1] requests, its row is the extracted one, and the failure
    count is left alone. *)
Theorem first_success_wins (repr : json -> string) (w : world)
    (a : Progress.args) (au : Progress.auth) (bar : Progress.pbar)
    (ckpt : string) (total i : Z)
    (s : string) (b : Progress.batch_state) (st : state) (m : nat) (row : record) :
  Config.sane a ->
  Z.of_nat m <= Progress.max_retries a ->
  forallb (fun r => negb (Attempt.is_row r))
    (Attempt.answers repr w a (Progress.build_url au s) st m) = true ->
  Attempt.read repr a (Progress.build_url au s) (http_get w (gets st + m))
  = Attempt.Row row ->
  exists st',
    Progress.process repr w a au bar ckpt total i s b st
    = (Done {| Progress.b_rows := (Progress.b_rows b ++ [row])%list;
               Progress.b_ok := S (Progress.b_ok b);
               Progress.b_ko := Progress.b_ko b |}, st')
    /\ gets st' = (gets st + m + 1)%nat.
Proof.
  intros Hsane. now apply process_first_success.
Qed.

(** X6.  When none of the [max_retries + 1] answers for an identifier gives a
    row, exactly that many requests are made; the failure record carries
    the message of the last attempt that raised an error -- a request
    error, an HTTP error, an answer that cannot be decoded or extracted, or
    a 429 whose [Retry-After] pause [float] or [time.sleep] refuses -- and
    the 429 answers that follow it, their pause taken, leave it in place.
    The accumulator and the counters are left as they were exactly when
    every answer was a 429 whose pause was taken -- or the retry count is
    negative, so that no request is made. *)
Theorem exhausted_retries_keep_last_error (repr : json -> string) (w : world)
    (a : Progress.args) (au : Progress.auth) (bar : Progress.pbar)
    (ckpt : string) (total i : Z)
    (s : string) (b : Progress.batch_state) (st : state) :
  Config.sane a ->
  forallb (fun r => negb (Attempt.is_row r))
    (Attempt.answers repr w a (Progress.build_url au s) st (Progress.retry_fuel a))
  = true ->
  exists st',
    Progress.process repr w a au bar ckpt total i s b st
    = (Done match Attempt.last_error None
                    (Attempt.answers repr w a (Progress.build_url au s) st
                       (Progress.retry_fuel a)) with
            | Some e => {| Progress.b_rows := (Progress.b_rows b ++ [Attempt.failure s e])%list;
                           Progress.b_ok := Progress.b_ok b;
                           Progress.b_ko := S (Progress.b_ko b) |}
            | None => b
            end, st')
    /\ gets st' = (gets st + Progress.retry_fuel a)%nat
    /\ (Attempt.last_error None
          (Attempt.answers repr w a (Progress.build_url au s) st
             (Progress.retry_fuel a)) = None
        <-> forallb Attempt.is_limited
              (Attempt.answers repr w a (Progress.build_url au s) st
                 (Progress.retry_fuel a)) = true).
Proof.
  intros Hsane Hnone.
  destruct (process_exhausted repr w a Hsane au bar ckpt total i s b st Hnone)
    as [st' [H1 [H2 _]]].
  exists st'. split; [exact H1|]. split; [exact H2|].
  rewrite (last_error_none _ None Hnone). tauto.
Qed.
Lemma key_args_sane : Config.sane Sample.key_args.
Proof. split; [reflexivity | split; [reflexivity | discriminate]]. Qed.

Lemma first_success_wins_witness :
  exists st',
    Progress.process Sample.repr0 Flaky.server Sample.key_args Sample.key_auth
      Progress.TqdmBar Sample.checkpoint_csv 1 1 Sample.siret1 Tally.empty initial
    = (Done {| Progress.b_rows := ([] ++ [Flaky.row1])%list;
               Progress.b_ok := 1; Progress.b_ko := 0 |}, st')
    /\ gets st' = (0 + 1 + 1)%nat.
Proof.
  apply (first_success_wins Sample.repr0 Flaky.server Sample.key_args
           Sample.key_auth Progress.TqdmBar Sample.checkpoint_csv 1 1
           Sample.siret1 Tally.empty initial 1 Flaky.row1).
  - exact key_args_sane.
  - cbn. lia.
  - reflexivity.
  - reflexivity.
Defined.

(** An instance of X6: a 503, then a 429 whose pause [time.sleep] refuses,
    then a 429 whose pause is taken; the failure record carries the
    message of the refused pause. *)
Lemma exhausted_retries_keep_last_error_witness :
  exists st',
    Progress.process Sample.repr0 Flaky.overloaded
      Sample.key_args Sample.key_auth Progress.Dummy Sample.checkpoint_csv 1 1
      Sample.siret1 Tally.empty initial
    = (Done {| Progress.b_rows :=
                 [[("siret", JStr Sample.siret1);
                   ("erreur",
                    JStr "timestamp too large to convert to C _PyTime_t")]];
               Progress.b_ok := 0; Progress.b_ko := 1 |}, st')
    /\ gets st' = 3%nat.
Proof.
  destruct (exhausted_retries_keep_last_error Sample.repr0 Flaky.overloaded
              Sample.key_args Sample.key_auth Progress.Dummy
              Sample.checkpoint_csv 1 1 Sample.siret1 Tally.empty initial
              key_args_sane eq_refl) as [st' [H1 [H2 _]]].
  exists st'. split; [exact H1|exact H2].
Defined.

(** ** Counters, requests and the end of a run *)

Lemma tally_app (l1 l2 : list record) :
  Tally.successes (l1 ++ l2) = (Tally.successes l1 + Tally.successes l2)%nat
  /\ Tally.failures (l1 ++ l2) = (Tally.failures l1 + Tally.failures l2)%nat.
Proof.
  unfold Tally.successes, Tally.failures. now rewrite !filter_app, !length_app.
Qed.


Section Account.

Variable repr : json -> string.
Variable w : world.
Variable a : Progress.args.
Hypothesis Hsane : Config.sane a.
Variable au : Progress.auth.
Variable bar : Progress.pbar.
Variable ckpt : string.
Variable total : Z.

(** One identifier: at most one row, counted as a success or as a
    failure; between one and [max_retries + 1] requests. *)
Lemma process_account (i : Z) (s : string) (b : Progress.batch_state) (st : state) :
  exists b' evs rs,
    Progress.process repr w a au bar ckpt total i s b st = (Done b', Trace.push st evs)
    /\ Progress.b_rows b' = (Progress.b_rows b ++ rs)%list
    /\ Progress.b_ok b' = (Progress.b_ok b + Tally.successes rs)%nat
    /\ Progress.b_ko b' = (Progress.b_ko b + Tally.failures rs)%nat
    /\ (length rs <= 1)%nat
    /\ (Trace.count Trace.is_get evs <= Progress.retry_fuel a)%nat
    /\ (0 <= Progress.max_retries a -> (1 <= Trace.count Trace.is_get evs)%nat)
    /\ Forall Quiet.inside_batch evs.
Proof.
  destruct Hsane as [Hsleep [Hbackoff Hevery]].
  destruct (retry_loop_spec repr w a au (Progress.build_url au s) Hbackoff
              (Progress.retry_fuel a) (Attempt.enter b) st)
    as [ls [lk [Hrun [Hlk [Hcount [Hhead Hres]]]]]].
  { unfold Progress.retry_fuel. cbn. lia. }
  destruct (process_run repr w a Hsane au bar ckpt total i s b st _ ls Hrun)
    as [tail [Hproc [Htail Hq]]].
  cbn [Attempt.enter Progress.attempt Progress.last_err Progress.rows Progress.ok]
    in Hcount, Hhead, Hres.
  rewrite Z.sub_0_r in Hcount.
  assert (Hshape : forall rs,
             Progress.b_rows (Attempt.settle s b ls) = (Progress.b_rows b ++ rs)%list ->
             Progress.b_ok (Attempt.settle s b ls)
             = (Progress.b_ok b + Tally.successes rs)%nat ->
             Progress.b_ko (Attempt.settle s b ls)
             = (Progress.b_ko b + Tally.failures rs)%nat ->
             (length rs <= 1)%nat ->
             exists b' evs rs0,
               Progress.process repr w a au bar ckpt total i s b st
               = (Done b', Trace.push st evs)
               /\ Progress.b_rows b' = (Progress.b_rows b ++ rs0)%list
               /\ Progress.b_ok b' = (Progress.b_ok b + Tally.successes rs0)%nat
               /\ Progress.b_ko b' = (Progress.b_ko b + Tally.failures rs0)%nat
               /\ (length rs0 <= 1)%nat
               /\ (Trace.count Trace.is_get evs <= Progress.retry_fuel a)%nat
               /\ (0 <= Progress.max_retries a ->
                   (1 <= Trace.count Trace.is_get evs)%nat)
               /\ Forall Quiet.inside_batch evs).
  { intros rs H1 H2 H3 H4.
    exists (Attempt.settle s b ls), (lk ++ tail)%list, rs.
    split; [now rewrite Hproc, push_push|].
    split; [exact H1|]. split; [exact H2|]. split; [exact H3|]. split; [exact H4|].
    rewrite count_app, Htail, Nat.add_0_r.
    split; [exact Hcount|]. split.
    - intros Hmax. destruct Hhead as [lk' ->]; [exact Hmax|].
      unfold Trace.count. cbn. lia.
    - apply Forall_app. split; [|exact Hq].
      eapply lookup_events_inside, Hlk. }
  unfold Attempt.settle in Hshape.
  destruct Hres as [[js [row [Hrow [Hrows [Hok Herr]]]]]|[Hrows [Hok [_ _]]]].
  - (* a row was extracted *)
    rewrite Herr in Hshape. cbn [Progress.b_rows Progress.b_ok Progress.b_ko] in Hshape.
    apply (Hshape [row]); [exact Hrows| | |cbn; lia].
    + rewrite Hok. unfold Tally.successes, Tally.failed. cbn [filter].
      rewrite (extract_fields_keys _ _ _ Hrow). cbn. lia.
    + unfold Tally.failures, Tally.failed. cbn [filter].
      rewrite (extract_fields_keys _ _ _ Hrow). cbn. lia.
  - destruct (Progress.last_err ls) as [e|];
      cbn [Progress.b_rows Progress.b_ok Progress.b_ko] in Hshape.
    + apply (Hshape [Attempt.failure s e]);
        [now rewrite Hrows|rewrite Hok; cbn; lia|cbn; lia|cbn; lia].
    + apply (Hshape []);
        [now rewrite Hrows, app_nil_r|rewrite Hok; cbn; lia|cbn; lia|cbn; lia].
Qed.

Lemma batch_account (sirets : list string) :
  forall (i : Z) (b : Progress.batch_state) (st : state),
  exists b' evs new,
    Progress.batch repr w a au bar ckpt total i sirets b st = (Done b', Trace.push st evs)
    /\ Progress.b_rows b' = (Progress.b_rows b ++ new)%list
    /\ Progress.b_ok b' = (Progress.b_ok b + Tally.successes new)%nat
    /\ Progress.b_ko b' = (Progress.b_ko b + Tally.failures new)%nat
    /\ (length new <= length sirets)%nat
    /\ (Trace.count Trace.is_get evs <= length sirets * Progress.retry_fuel a)%nat
    /\ (0 <= Progress.max_retries a ->
        (length sirets <= Trace.count Trace.is_get evs)%nat)
    /\ Forall Quiet.inside_batch evs.
Proof.
  induction sirets as [|s rest IH]; intros i b st.
  - exists b, [], []. rewrite push_nil, app_nil_r. cbn.
    repeat split; try lia. constructor.
  - cbn [Progress.batch].
    destruct (process_account i s b st)
      as [b1 [e1 [rs [Hrun [Hrows [Hok [Hko [Hlen [Hmax [Hmin Hq]]]]]]]]]].
    erewrite bind_done by exact Hrun.
    destruct (IH (i + 1) b1 (Trace.push st e1))
      as [b' [e2 [new [Hrun' [Hrows' [Hok' [Hko' [Hlen' [Hmax' [Hmin' Hq']]]]]]]]]].
    exists b', (e1 ++ e2)%list, (rs ++ new)%list.
    destruct (tally_app rs new) as [Hs Hf].
    split; [now rewrite Hrun', push_push|].
    split; [now rewrite Hrows', Hrows, app_assoc|].
    split; [rewrite Hok', Hok, Hs; lia|].
    split; [rewrite Hko', Hko, Hf; lia|].
    split; [rewrite length_app; cbn [length]; lia|].
    rewrite count_app. cbn [length].
    split; [lia|]. split; [intros H0; specialize (Hmin H0); specialize (Hmin' H0); lia|].
    apply Forall_app. now split.
Qed.

End Account.

Section CollectRun.

Variable repr : json -> string.
Variable w : world.
Variable a : Progress.args.
Variable sur : Progress.surroundings.
Variable sirets : list string.
Hypothesis Hload :
  Progress.load_sirets (Progress.pandas sur) (Progress.input_file sur) = Ok sirets.
Hypothesis Hsome : sirets <> [].
Variable st st1 : state.
Variable au : Progress.auth.
Hypothesis Hstart : Progress.startup repr w a sur st = (Done au, st1).
Variable ckpt : string.
Hypothesis Hckpt : Progress.checkpoint_path a = Ok ckpt.

Let total : Z := Z.of_nat (length sirets).
Let bar : Progress.pbar := Drawn.bar_of sur.

(** [collect] up to the loop over the identifiers. *)
Lemma collect_to_batch :
  Progress.collect repr w a sur st
  = Eff.bind
      (Progress.batch repr w a au bar ckpt total 1 sirets Tally.empty)
      (fun b => Progress.pbar_close bar ;;; Eff.ret (total, ckpt, b))%eff
      (Trace.push st1 (Tally.mode_line a au (length sirets)
                       ++ Drawn.call bar (BarOpen total))).
Proof.
  unfold Progress.collect. rewrite Hload. cbn [Eff.lift].
  erewrite bind_done by reflexivity. cbv zeta.
  assert (Htotal : (Z.of_nat (length sirets) =? 0) = false).
  { apply Z.eqb_neq. destruct sirets; [contradiction|]. cbn [length]. lia. }
  rewrite Htotal.
  erewrite bind_done by reflexivity.
  erewrite bind_done by exact Hstart.
  erewrite bind_done by apply log_push.
  rewrite Hckpt. cbn [Eff.lift]. erewrite bind_done by reflexivity.
  erewrite bind_done by apply get_tqdm_push.
  rewrite push_push. reflexivity.
Qed.

(** When the loop ends normally, [collect] hands over its result once the
    bar is closed. *)
Lemma collect_done (b : Progress.batch_state) (st2 : state) :
  Progress.batch repr w a au bar ckpt total 1 sirets Tally.empty
    (Trace.push st1 (Tally.mode_line a au (length sirets)
                     ++ Drawn.call bar (BarOpen total))) = (Done b, st2) ->
  Progress.collect repr w a sur st
  = (Done (total, ckpt, b), Trace.push st2 (Drawn.call bar BarClose)).
Proof.
  intros Hrun. rewrite collect_to_batch.
  erewrite bind_done by exact Hrun.
  erewrite bind_done by apply pbar_close_push. reflexivity.
Qed.

(** When the loop is left by an exception, [main] is too. *)
Lemma main_raised (e : exn) (st2 : state) :
  Progress.batch repr w a au bar ckpt total 1 sirets Tally.empty
    (Trace.push st1 (Tally.mode_line a au (length sirets)
                     ++ Drawn.call bar (BarOpen total))) = (Raised e, st2) ->
  Progress.main repr w a sur st = (Raised e, st2).
Proof.
  intros Hrun. rewrite main_run, collect_to_batch. unfold Eff.bind at 1.
  now rewrite Hrun.
Qed.

End CollectRun.

Lemma summary_total_line (a : Progress.args) (total : nat) (b : Progress.batch_state)
    (ckpt : string) :
  In (Stdout (Tally.total_line total (Progress.b_ok b) (Progress.b_ko b)))
     (Tally.summary a total b ckpt).
Proof.
  unfold Tally.summary. apply in_or_app. right. apply in_or_app. right.
  apply in_or_app. left. unfold Logs.lines. now left.
Qed.

Lemma logs_no_get (evs : list event) :
  Forall (fun ev => Rows.is_log ev = true) evs ->
  Trace.count Trace.is_get evs = 0%nat.
Proof.
  unfold Trace.count. induction 1 as [|ev evs H _ IH]; [reflexivity|].
  destruct ev; try discriminate H; exact IH.
Qed.

(** The export makes no request. *)
Lemma main_gets (repr : json -> string) (w : world) (a : Progress.args)
    (sur : Progress.surroundings) (st st2 : state) (n : nat) (ckpt : string)
    (b : Progress.batch_state) :
  Progress.collect repr w a sur st = (Done (Z.of_nat n, ckpt, b), st2) ->
  Trace.count Trace.is_get (trace (snd (Progress.main repr w a sur st)))
  = Trace.count Trace.is_get (trace st2).
Proof.
  intros Hc. rewrite (main_after_collect _ _ _ _ _ _ _ _ _ Hc).
  destruct (Excel.refusal _ _ _ _); cbn [snd]; [reflexivity|].
  cbn [trace Trace.push].
  change (WriteExcel ?p ?r :: ?l) with ([WriteExcel p r] ++ l)%list.
  rewrite !count_app, (logs_no_get _ (summary_are_logs _ _ _ _)).
  cbn. lia.
Qed.

Section MainAccount.

Variable repr : json -> string.
Variable w : world.
Variable a : Progress.args.
Hypothesis Hsane : Config.sane a.
Variable sur : Progress.surroundings.
Variable sirets : list string.
Hypothesis Hload :
  Progress.load_sirets (Progress.pandas sur) (Progress.input_file sur) = Ok sirets.
Hypothesis Hsome : sirets <> [].
Variable st1 : state.
Variable au : Progress.auth.
Hypothesis Hstart : Progress.startup repr w a sur initial = (Done au, st1).
Variable ckpt : string.
Hypothesis Hckpt : Progress.checkpoint_path a = Ok ckpt.

(** A run that gets past the start-up reaches the export, with its
    accounts. *)
Lemma collect_account :
  exists b st2,
    Progress.collect repr w a sur initial
    = (Done (Z.of_nat (length sirets), ckpt, b), st2)
    /\ Trace.excel_files (trace st2) = []
    /\ Progress.b_ok b = Tally.successes (Progress.b_rows b)
    /\ Progress.b_ko b = Tally.failures (Progress.b_rows b)
    /\ (length (Progress.b_rows b) <= length sirets)%nat
    /\ (Trace.count Trace.is_get (trace st2)
        <= length sirets * Progress.retry_fuel a)%nat
    /\ (0 <= Progress.max_retries a ->
        (length sirets <= Trace.count Trace.is_get (trace st2))%nat).
Proof.
  destruct (startup_done _ _ _ _ _ _ _ Hstart) as [evs0 [Hst1 [Hx0 Hg0]]].
  set (bar := Drawn.bar_of sur).
  set (total := Z.of_nat (length sirets)).
  destruct (batch_account repr w a Hsane au bar ckpt total sirets 1
              Tally.empty
              (Trace.push st1 (Tally.mode_line a au (length sirets)
                               ++ Drawn.call bar (BarOpen total))))
    as [b [evs [new [Hrun [Hrows [Hok [Hko [Hlen [Hmax [Hmin Hq]]]]]]]]]].
  cbn [Tally.empty Progress.b_rows Progress.b_ok Progress.b_ko app Nat.add]
    in Hrows, Hok, Hko.
  exists b. eexists.
  split; [exact (collect_done repr w a sur sirets Hload Hsome initial st1 au Hstart
                   ckpt Hckpt b _ Hrun)|].
  assert (Hmode : Forall (fun ev => Rows.is_log ev = true)
                    (Tally.mode_line a au (length sirets)))
    by apply log_lines_are_logs.
  rewrite Hst1. cbn [trace gets Trace.push initial app Nat.add].
  split.
  { rewrite !excel_files_app, Hx0, (logs_no_excel _ Hmode),
      (proj2 (inside_batch_facts _ Hq)),
      !(proj2 (inside_batch_facts _ (bar_call_inside _ _))).
    reflexivity. }
  split; [now rewrite Hok, Hrows|]. split; [now rewrite Hko, Hrows|].
  split; [now rewrite Hrows|].
  rewrite !count_app, Hg0, (logs_no_get _ Hmode), !bar_call_no_get.
  split; [lia|]. intros H0. specialize (Hmin H0). lia.
Qed.

End MainAccount.





(** ** Edge values of the command line *)

Section NoAttempt.

Variable repr : json -> string.
Variable w : world.
Variable a : Progress.args.
Hypothesis Hsane : Config.sane a.
Hypothesis Hneg : Progress.max_retries a < 0.
Variable au : Progress.auth.
Variable bar : Progress.pbar.
Variable ckpt : string.
Variable total : Z.

Lemma batch_no_attempt (sirets : list string) :
  forall (i : Z) (b : Progress.batch_state) (st : state),
  exists st',
    Progress.batch repr w a au bar ckpt total i sirets b st = (Done b, st')
    /\ gets st' = gets st
    /\ Trace.excel_files (trace st') = Trace.excel_files (trace st).
Proof.
  assert (Hfuel : Progress.retry_fuel a = 0%nat)
    by (unfold Progress.retry_fuel; lia).
  induction sirets as [|s rest IH]; intros i b st; cbn [Progress.batch].
  - exists st. now split.
  - destruct (process_exhausted repr w a Hsane au bar ckpt total i s b st)
      as [st1 [Hrun [Hgets Hx]]]; [now rewrite Hfuel|].
    rewrite Hfuel in Hrun, Hgets. cbn [Attempt.answers seq map Attempt.last_error
                                        fold_left] in Hrun.
    erewrite bind_done by exact Hrun.
    destruct (IH (i + 1) b st1) as [st' [Hrun' [Hgets' Hx']]].
    exists st'. split; [exact Hrun'|]. split; [lia|congruence].
Qed.

End NoAttempt.

(** X9.  With a negative [--max-retries] the retry loop is never entered: the
    run makes no lookup at all, yet gets through the loop and exports a
    table without any row; when the export succeeds the spreadsheet has no
    row and the run reports [OK: 0 | KO: 0], and when the writer refuses
    the output path the run ends with that exception. *)
Theorem negative_retry_count_looks_nothing_up (repr : json -> string) (w : world)
    (a : Progress.args) (sur : Progress.surroundings) (sirets : list string)
    (au : Progress.auth) (st1 : state) (ckpt : string) :
  Config.sane a ->
  Progress.max_retries a < 0 ->
  Progress.load_sirets (Progress.pandas sur) (Progress.input_file sur) = Ok sirets ->
  sirets <> [] ->
  Progress.startup repr w a sur initial = (Done au, st1) ->
  Progress.checkpoint_path a = Ok ckpt ->
  Claims.gathers repr w a sur []
  /\ Claims.exports repr w a sur []
  /\ Excel.refusal repr (Progress.excel_writer sur) (Progress.output a) []
     = Progress.excel_writer sur (Progress.output a) []
  /\ Trace.count Trace.is_get (trace (snd (Progress.main repr w a sur initial)))
     = 0%nat
  /\ (Progress.excel_writer sur (Progress.output a) [] = None ->
      In (Stdout (Tally.total_line (length sirets) 0 0))
         (trace (snd (Progress.main repr w a sur initial)))).
Proof.
  intros Hsane Hneg Hload Hsome Hstart Hckpt.
  set (bar := Drawn.bar_of sur).
  set (total := Z.of_nat (length sirets)).
  destruct (batch_no_attempt repr w a Hsane Hneg au bar ckpt total
              sirets 1 Tally.empty
              (Trace.push st1 (Tally.mode_line a au (length sirets)
                               ++ Drawn.call bar (BarOpen total))))
    as [st2 [Hbatch [Hgets Hx]]].
  pose proof (collect_done repr w a sur sirets Hload Hsome initial st1 au Hstart
                ckpt Hckpt _ _ Hbatch) as Hc.
  destruct (collect_account repr w a Hsane sur sirets Hload Hsome st1 au Hstart
              ckpt Hckpt)
    as [b [st3 [Hc' [Hx3 [_ [_ [_ [Hle _]]]]]]]].
  rewrite Hc in Hc'. injection Hc' as <- <-.
  assert (Hrefusal : Excel.refusal repr (Progress.excel_writer sur)
                       (Progress.output a) []
                     = Progress.excel_writer sur (Progress.output a) []).
  { unfold Excel.refusal. now destruct (Progress.excel_writer sur _ _). }
  split; [eexists _, ckpt, Tally.empty, _; split; [exact Hc|reflexivity]|].
  split; [exact (exports_after_collect _ _ _ _ _ _ _ _ Hc Hx3)|].
  split; [exact Hrefusal|]. split.
  - rewrite (main_gets _ _ _ _ _ _ _ _ _ Hc).
    replace (Progress.retry_fuel a) with 0%nat in Hle
      by (unfold Progress.retry_fuel; lia). lia.
  - intros Hnone. rewrite (main_after_collect _ _ _ _ _ _ _ _ _ Hc).
    cbn [Tally.empty Progress.b_rows]. rewrite Hrefusal, Hnone.
    cbn [snd trace Trace.push]. apply in_or_app. right. right.
    apply (summary_total_line a (length sirets) Tally.empty ckpt).
Qed.

(** An instance of X9: the default output path, and a writer that knows
    the suffix [.xlsx]. *)
Lemma negative_retry_count_looks_nothing_up_witness :
  Claims.gathers Sample.repr0 (Config.always Sample.ok) Flaky.no_attempt
    (Config.xlsx_only [Some Sample.siret1; Some Sample.siret2]) []
  /\ Claims.exports Sample.repr0 (Config.always Sample.ok) Flaky.no_attempt
       (Config.xlsx_only [Some Sample.siret1; Some Sample.siret2]) []
  /\ Excel.refusal Sample.repr0
       (Progress.excel_writer
          (Config.xlsx_only [Some Sample.siret1; Some Sample.siret2]))
       (Progress.output Flaky.no_attempt) []
     = Progress.excel_writer
         (Config.xlsx_only [Some Sample.siret1; Some Sample.siret2])
         (Progress.output Flaky.no_attempt) []
  /\ Trace.count Trace.is_get
       (trace (snd (Progress.main Sample.repr0 (Config.always Sample.ok)
                      Flaky.no_attempt
                      (Config.xlsx_only [Some Sample.siret1; Some Sample.siret2])
                      initial)))
     = 0%nat
  /\ (Progress.excel_writer
        (Config.xlsx_only [Some Sample.siret1; Some Sample.siret2])
        (Progress.output Flaky.no_attempt) [] = None ->
      In (Stdout (Tally.total_line (length [Sample.siret1; Sample.siret2]) 0 0))
         (trace (snd (Progress.main Sample.repr0 (Config.always Sample.ok)
                        Flaky.no_attempt
                        (Config.xlsx_only [Some Sample.siret1; Some Sample.siret2])
                        initial)))).
Proof.
  apply (negative_retry_count_looks_nothing_up Sample.repr0 (Config.always Sample.ok)
           Flaky.no_attempt
           (Config.xlsx_only [Some Sample.siret1; Some Sample.siret2])
           [Sample.siret1; Sample.siret2] Sample.key_auth initial
           Sample.checkpoint_csv).
  - split; [reflexivity | split; [reflexivity | discriminate]].
  - cbn. lia.
  - reflexivity.
  - discriminate.
  - reflexivity.
  - reflexivity.
Defined.

Lemma lines_save_nothing (a : Progress.args) (msg : string) :
  Saved.nothing (Logs.lines a msg).
Proof.
  unfold Logs.lines. constructor; [reflexivity|].
  destruct (Progress.truthy _); repeat constructor.
Qed.

Lemma lookup_events_save_nothing (url : string) (h : list (string * string))
    (evs : list event) :
  Forall (Trace.lookup_event url h) evs -> Saved.nothing evs.
Proof.
  apply Forall_impl. intros ev [->|[d ->]]; reflexivity.
Qed.

Section EveryZero.

Variable repr : json -> string.
Variable w : world.
Variable a : Progress.args.
Hypothesis Hbackoff : Eff.accepts (Progress.retry_backoff a) = true.
Hypothesis Hevery : Progress.every a = 0.
Variable au : Progress.auth.
Variable bar : Progress.pbar.
Variable ckpt : string.
Variable total : Z.

Lemma process_every_zero (i : Z) (s : string) (b : Progress.batch_state)
    (st : state) :
  exists msg evs,
    Progress.process repr w a au bar ckpt total i s b st
    = (Raised (ZeroDivisionError msg), Trace.push st evs)
    /\ Saved.nothing evs
    /\ (Trace.count Trace.is_get evs <= Progress.retry_fuel a)%nat.
Proof.
  destruct (retry_loop_spec repr w a au (Progress.build_url au s) Hbackoff
              (Progress.retry_fuel a) (Attempt.enter b) st)
    as [ls [lk [Hrun [Hlk [Hcount _]]]]].
  { unfold Progress.retry_fuel. cbn. lia. }
  cbn [Attempt.enter Progress.attempt] in Hcount. rewrite Z.sub_0_r in Hcount.
  unfold Attempt.enter in Hrun. unfold Progress.process.
  erewrite bind_done by exact Hrun. cbv zeta.
  erewrite bind_done by apply opt_log_push.
  unfold Progress.py_mod. rewrite Hevery. cbn [Z.eqb Eff.lift].
  unfold Eff.bind, Eff.raise. rewrite push_push.
  eexists _, _. split; [reflexivity|]. split.
  - apply Forall_app. split; [eapply lookup_events_save_nothing, Hlk|].
    destruct (Progress.verbose a); [apply lines_save_nothing|constructor].
  - rewrite count_app, when_lines_no_get. unfold Progress.retry_fuel. lia.
Qed.

End EveryZero.

(** X10.  [--every 0] stops the run at the first identifier: once its lookups
    are done the progress test divides by zero, the exception is not
    caught, and neither a checkpoint nor the spreadsheet has been written. *)
Theorem every_zero_aborts_the_run (repr : json -> string) (w : world)
    (a : Progress.args) (sur : Progress.surroundings) (sirets : list string)
    (au : Progress.auth) (st1 : state) (ckpt : string) :
  Eff.accepts (Progress.retry_backoff a) = true ->
  Progress.every a = 0 ->
  Progress.load_sirets (Progress.pandas sur) (Progress.input_file sur) = Ok sirets ->
  sirets <> [] ->
  Progress.startup repr w a sur initial = (Done au, st1) ->
  Progress.checkpoint_path a = Ok ckpt ->
  exists msg final,
    Progress.main repr w a sur initial = (Raised (ZeroDivisionError msg), final)
    /\ Saved.nothing (trace final)
    /\ (Trace.count Trace.is_get (trace final)
        <= Z.to_nat (Progress.max_retries a + 1))%nat.
Proof.
  intros Hbackoff Hevery Hload Hsome Hstart Hckpt.
  destruct sirets as [|s rest]; [contradiction|].
  destruct (process_every_zero repr w a Hbackoff Hevery au (Drawn.bar_of sur) ckpt
              (Z.of_nat (length (s :: rest))) 1 s Tally.empty
              (Trace.push st1 (Tally.mode_line a au (length (s :: rest))
                               ++ Drawn.call (Drawn.bar_of sur)
                                    (BarOpen (Z.of_nat (length (s :: rest)))))))
    as [msg [evs [Hproc [Hnone Hcount]]]].
  exists msg. eexists. split.
  - apply (main_raised repr w a sur (s :: rest) Hload Hsome initial st1 au Hstart
             ckpt Hckpt).
    cbn [Progress.batch]. unfold Eff.bind at 1. rewrite Hproc. reflexivity.
  - destruct (startup_done _ _ _ _ _ _ _ Hstart) as [evs0 [Hst1 [_ Hg0]]].
    assert (Hs : Invariant.emits Saved.nothing (Progress.startup repr w a sur)).
    { apply emits_startup;
        [apply monoid_Forall|apply lines_save_nothing|intros; repeat constructor]. }
    destruct (Hs initial) as [evs1 [Ht1 Hn1]].
    rewrite Hstart in Ht1. cbn [snd trace initial app] in Ht1.
    cbn [trace Trace.push]. rewrite Ht1. split.
    + repeat (apply Forall_app; split); try assumption.
      * apply lines_save_nothing.
      * destruct (Drawn.bar_of sur); repeat constructor.
    + rewrite Hst1 in Ht1. cbn [trace Trace.push initial app] in Ht1.
      rewrite <- Ht1, !count_app, Hg0, bar_call_no_get. unfold Tally.mode_line.
      rewrite lines_no_get. unfold Progress.retry_fuel in Hcount. lia.
Qed.

Lemma every_zero_aborts_the_run_witness :
  exists msg final,
    Progress.main Sample.repr0 (Config.always Sample.ok) Flaky.every_zero
      (Config.bare [Some Sample.siret1; Some Sample.siret2]) initial
    = (Raised (ZeroDivisionError msg), final)
    /\ Saved.nothing (trace final)
    /\ (Trace.count Trace.is_get (trace final)
        <= Z.to_nat (Progress.max_retries Flaky.every_zero + 1))%nat.
Proof.
  apply (every_zero_aborts_the_run Sample.repr0 (Config.always Sample.ok)
           Flaky.every_zero (Config.bare [Some Sample.siret1; Some Sample.siret2])
           [Sample.siret1; Sample.siret2] Sample.key_auth initial
           Sample.checkpoint_csv).
  - reflexivity.
  - reflexivity.
  - reflexivity.
  - discriminate.
  - reflexivity.
  - reflexivity.
Defined.

(** ** Text: stripping *)

Lemma string_app_assoc (x y z : string) : (x ++ y) ++ z = x ++ (y ++ z).
Proof. induction x as [|c r IH]; cbn; [reflexivity|now rewrite IH]. Qed.

Lemma rev_string_app (s acc : string) :
  Text.rev_string acc s = Text.rev_string "" s ++ acc.
Proof.
  revert acc. induction s as [|c r IH]; intros acc; cbn [Text.rev_string].
  - reflexivity.
  - rewrite (IH (String c acc)), (IH (String c "")).
    now rewrite string_app_assoc.
Qed.

Lemma append_nil_r (s : string) : s ++ "" = s.
Proof. induction s as [|c r IH]; cbn; [reflexivity|now rewrite IH]. Qed.

Lemma rev_string_snoc (s : string) (c : ascii) :
  Text.rev_string "" (s ++ String c "") = String c (Text.rev_string "" s).
Proof.
  induction s as [|x r IH]; cbn [append Text.rev_string]; [reflexivity|].
  rewrite (rev_string_app (r ++ String c "") (String x "")), IH. cbn [append].
  now rewrite (rev_string_app r (String x "")).
Qed.

Lemma rev_string_involutive (s : string) :
  Text.rev_string "" (Text.rev_string "" s) = s.
Proof.
  induction s as [|c r IH]; cbn [Text.rev_string]; [reflexivity|].
  now rewrite (rev_string_app r (String c "")), rev_string_snoc, IH.
Qed.

Lemma lstrip_snoc (p : ascii -> bool) (s : string) (c : ascii) :
  Text.lstrip_with p (s ++ String c "")
  = match Text.lstrip_with p s with
    | EmptyString => if p c then EmptyString else String c EmptyString
    | t => t ++ String c ""
    end.
Proof.
  induction s as [|x r IH]; cbn [append Text.lstrip_with]; [reflexivity|].
  destruct (p x); [exact IH|reflexivity].
Qed.

(** [rstrip], as the source computes it and read from the left. *)
Lemma rstrip_with_rec (p : ascii -> bool) (s : string) :
  Text.rstrip_with p s = Strip.rstrip_rec p s.
Proof.
  unfold Text.rstrip_with.
  induction s as [|c r IH]; cbn [Text.rev_string Strip.rstrip_rec]; [reflexivity|].
  rewrite (rev_string_app r (String c "")), lstrip_snoc, <- IH.
  destruct (Text.lstrip_with p (Text.rev_string "" r)) as [|x t] eqn:E.
  - cbn [Text.rev_string]. now destruct (p c).
  - rewrite rev_string_snoc. clear IH. cbn [Text.rev_string].
    rewrite (rev_string_app t (String x "")).
    now destruct (Text.rev_string "" t).
Qed.

Lemma rstrip_rec_last (p : ascii -> bool) (s : string) (c : ascii) :
  Strip.last_char (Strip.rstrip_rec p s) = Some c -> p c = false.
Proof.
  induction s as [|x r IH]; cbn [Strip.rstrip_rec]; [discriminate|].
  destruct (Strip.rstrip_rec p r) as [|y t].
  - destruct (p x) eqn:Hx; cbn; [discriminate|]. intros H. now injection H as <-.
  - exact IH.
Qed.

Lemma rstrip_rec_fixed (p : ascii -> bool) (s : string) :
  (forall c, Strip.last_char s = Some c -> p c = false) ->
  Strip.rstrip_rec p s = s.
Proof.
  induction s as [|x r IH]; intros H; cbn [Strip.rstrip_rec]; [reflexivity|].
  destruct r as [|y t].
  - cbn. now rewrite (H x eq_refl).
  - rewrite IH by (intros c Hc; apply H; exact Hc).
    reflexivity.
Qed.

Lemma rstrip_rec_first (p : ascii -> bool) (s : string) (c : ascii) :
  (forall x, Strip.first_char s = Some x -> p x = false) ->
  Strip.first_char (Strip.rstrip_rec p s) = Some c ->
  Strip.first_char s = Some c.
Proof.
  destruct s as [|x r]; cbn [Strip.rstrip_rec]; [discriminate|].
  intros H. destruct (Strip.rstrip_rec p r).
  - now rewrite (H x eq_refl).
  - auto.
Qed.

Lemma lstrip_first (p : ascii -> bool) (s : string) (c : ascii) :
  Strip.first_char (Text.lstrip_with p s) = Some c -> p c = false.
Proof.
  induction s as [|x r IH]; cbn [Text.lstrip_with]; [discriminate|].
  destruct (p x) eqn:Hx; [exact IH|]. cbn. intros H. now injection H as <-.
Qed.

Lemma lstrip_fixed (p : ascii -> bool) (s : string) :
  (forall c, Strip.first_char s = Some c -> p c = false) ->
  Text.lstrip_with p s = s.
Proof.
  destruct s as [|x r]; intros H; cbn [Text.lstrip_with]; [reflexivity|].
  now rewrite (H x eq_refl).
Qed.

(** What [strip] returns neither starts nor ends with a stripped character. *)
Lemma strip_with_clean (p : ascii -> bool) (s : string) :
  Strip.clean p (Text.strip_with p s).
Proof.
  unfold Text.strip_with. rewrite rstrip_with_rec. split.
  - intros c Hc. apply (lstrip_first p s).
    eapply rstrip_rec_first; [|exact Hc]. intros x. apply lstrip_first.
  - intros c. apply rstrip_rec_last.
Qed.

Lemma strip_with_fixed (p : ascii -> bool) (s : string) :
  Strip.clean p s -> Text.strip_with p s = s.
Proof.
  intros [Hf Hl]. unfold Text.strip_with.
  rewrite (lstrip_fixed p s Hf), rstrip_with_rec. now apply rstrip_rec_fixed.
Qed.

Lemma strip_with_idempotent (p : ascii -> bool) (s : string) :
  Text.strip_with p (Text.strip_with p s) = Text.strip_with p s.
Proof. apply strip_with_fixed, strip_with_clean. Qed.

Lemma last_char_snoc (s : string) (c : ascii) :
  Strip.last_char (s ++ String c "") = Some c.
Proof.
  induction s as [|x r IH]; [reflexivity|]. cbn [append Strip.last_char].
  destruct (r ++ String c "") eqn:E; [|exact IH].
  destruct r; discriminate.
Qed.

Lemma rstrip_rec_snoc (p : ascii -> bool) (s : string) (c : ascii) :
  p c = true -> Strip.rstrip_rec p (s ++ String c "") = Strip.rstrip_rec p s.
Proof.
  intros Hc. induction s as [|x r IH]; cbn [append Strip.rstrip_rec].
  - now rewrite Hc.
  - now rewrite IH.
Qed.

Lemma list_of_append (x y : string) :
  list_ascii_of_string (x ++ y)
  = (list_ascii_of_string x ++ list_ascii_of_string y)%list.
Proof. induction x as [|c r IH]; cbn; [reflexivity|now rewrite IH]. Qed.

Lemma append_inv_tail (x y z : string) : x ++ z = y ++ z -> x = y.
Proof.
  intros H. apply (f_equal list_ascii_of_string) in H.
  rewrite !list_of_append in H. apply app_inv_tail in H.
  apply (f_equal string_of_list_ascii) in H.
  now rewrite !string_of_list_ascii_of_string in H.
Qed.

(** X11.  Trailing slashes of [--oauth-base] do not count: the base with one
    more slash gives the same lookup addresses, and the base the lookups
    use never ends with a slash, so that the [/siret/] the script appends
    to it is never preceded by a slash: no lookup address ends with
    [//siret/] and the identifier. *)
Theorem oauth_base_trailing_slashes_ignored (base : string) :
  Progress.rstrip_slash (base ++ "/") = Progress.rstrip_slash base
  /\ (forall t, Progress.rstrip_slash base <> t ++ "/")
  /\ (forall au s t, Progress.base_url au = Progress.rstrip_slash base ->
                     Progress.build_url au s <> t ++ "//siret/" ++ s).
Proof.
  unfold Progress.rstrip_slash. rewrite !rstrip_with_rec.
  assert (Hend : forall t, Strip.rstrip_rec (Ascii.eqb "/") base <> t ++ "/").
  { intros t H.
    pose proof (rstrip_rec_last (Ascii.eqb "/") base "/"%char) as Hl.
    rewrite H, last_char_snoc in Hl. specialize (Hl eq_refl). discriminate. }
  split; [now apply rstrip_rec_snoc|]. split; [exact Hend|].
  intros au s t Hbase H. unfold Progress.build_url in H. rewrite Hbase in H.
  apply (Hend t).
  apply (append_inv_tail _ _ ("/siret/" ++ s)).
  rewrite H, string_app_assoc. reflexivity.
Qed.

(** ** Field extraction, further *)

(** X12.  The first address line of an extracted record is never an empty or
    blank text: it is null, or a non-empty text without white space at
    either end. *)
Theorem address_line_is_null_or_stripped (repr : json -> string)
    (payload : json) (r : record) :
  Progress.extract_fields repr payload = Ok r ->
  Shape.field r "adresse_ligne_1" = Some JNull
  \/ exists t, Shape.field r "adresse_ligne_1" = Some (JStr t)
               /\ t <> "" /\ Text.strip t = t.
Proof.
  unfold Progress.extract_fields. intros H. res_cases H. subst r.
  cbn [Shape.field Py.lookup String.eqb Ascii.eqb Bool.eqb].
  match goal with
  | |- context [Text.strip ?j] => destruct (Text.strip j =? "")%string eqn:E
  end; unfold Py.or_; cbn [Py.truthy]; rewrite E; cbn [negb].
  - now left.
  - right. eexists. split; [reflexivity|]. split.
    + intros Heq. rewrite Heq in E. discriminate.
    + apply strip_with_idempotent.
Qed.

Lemma address_line_is_null_or_stripped_witness :
  Shape.field
    [ ("siret", JStr Sample.siret1); ("siren", JStr "123456789");
      ("denomination", JNull); ("etat_etablissement", JNull);
      ("date_creation", JNull); ("tranche_effectifs", JNull); ("naf", JNull);
      ("libelle_naf", JStr ""); ("adresse_ligne_1", JStr "12 RUE DE LA PAIX");
      ("code_postal", JNull); ("commune", JNull) ] "adresse_ligne_1" = Some JNull
  \/ exists t,
       Shape.field
         [ ("siret", JStr Sample.siret1); ("siren", JStr "123456789");
           ("denomination", JNull); ("etat_etablissement", JNull);
           ("date_creation", JNull); ("tranche_effectifs", JNull); ("naf", JNull);
           ("libelle_naf", JStr ""); ("adresse_ligne_1", JStr "12 RUE DE LA PAIX");
           ("code_postal", JNull); ("commune", JNull) ] "adresse_ligne_1"
       = Some (JStr t)
       /\ t <> "" /\ Text.strip t = t.
Proof.
  apply (address_line_is_null_or_stripped Sample.repr0 Address.payload).
  reflexivity.
Defined.

(** X13.  The envelope is optional: a payload that holds the establishment
    under ["etablissement"] and the establishment itself (not empty, and
    without a truthy ["etablissement"] entry of its own) give the same
    record, or fail with the same error. *)
Theorem envelope_is_optional (repr : json -> string) (etab : dict) :
  etab <> [] ->
  Py.truthy (Py.dict_get etab "etablissement" JNull) = false ->
  Progress.extract_fields repr (JDict [("etablissement", JDict etab)])
  = Progress.extract_fields repr (JDict etab).
Proof.
  intros Hne Hno. unfold Progress.extract_fields.
  change (Py.get (JDict [("etablissement", JDict etab)]) "etablissement")
    with (Ok (JDict etab)).
  change (Py.get (JDict etab) "etablissement")
    with (Ok (Py.dict_get etab "etablissement" JNull)).
  cbn [res_bind].
  assert (H1 : Py.or_ (JDict etab) (JDict [("etablissement", JDict etab)]) = JDict etab).
  { unfold Py.or_. cbn [Py.truthy]. destruct etab; [contradiction|reflexivity]. }
  assert (H2 : Py.or_ (Py.dict_get etab "etablissement" JNull) (JDict etab)
               = JDict etab).
  { unfold Py.or_. now rewrite Hno. }
  rewrite H1, H2. reflexivity.
Qed.

Lemma envelope_is_optional_witness :
  Progress.extract_fields Sample.repr0 (JDict [("etablissement", JDict Address.bare)])
  = Progress.extract_fields Sample.repr0 (JDict Address.bare)
  /\ Progress.extract_fields Sample.repr0 (JDict Address.bare) = Ok Flaky.row1.
Proof.
  split.
  - apply (envelope_is_optional Sample.repr0 Address.bare);
      [discriminate|reflexivity].
  - reflexivity.
Defined.

(** ** The [.env] file *)

Lemma env_get_dict_set (d : list (string * string)) (k v k' : string) :
  Progress.env_get (Progress.dict_set d k v) k'
  = if (k =? k')%string then Some v else Progress.env_get d k'.
Proof.
  induction d as [|[x y] r IH]; cbn [Progress.dict_set Progress.env_get].
  - reflexivity.
  - destruct (x =? k)%string eqn:E; cbn [Progress.env_get].
    + apply String.eqb_eq in E. subst x. now destruct (k =? k')%string.
    + rewrite IH. destruct (x =? k')%string eqn:E'; [|reflexivity].
      apply String.eqb_eq in E'. subst x. rewrite String.eqb_sym in E.
      now rewrite E.
Qed.

Lemma dict_set_keys (d : list (string * string)) (k v : string) :
  NoDup (map fst d) ->
  NoDup (map fst (Progress.dict_set d k v))
  /\ forall x, In x (map fst (Progress.dict_set d k v)) <-> x = k \/ In x (map fst d).
Proof.
  induction d as [|[x y] r IH]; cbn [Progress.dict_set map fst]; intros Hd.
  - split; [repeat constructor; intros []|]. intros z. cbn. intuition.
  - inversion Hd as [|? ? Hx Hr]; subst.
    destruct (x =? k)%string eqn:E; cbn [map fst].
    + apply String.eqb_eq in E. subst x. split; [now constructor|].
      intros z. cbn. intuition.
    + destruct (IH Hr) as [IH1 IH2]. split.
      * constructor; [|exact IH1]. rewrite IH2. intros [->|Hin]; [|contradiction].
        rewrite String.eqb_refl in E. discriminate.
      * intros z. cbn. rewrite IH2. intuition.
Qed.

Lemma read_env_line_assignment (d : list (string * string)) (line : string) :
  Progress.read_env_line d line
  = match Env.assignment line with
    | Some (k, v) => Progress.dict_set d k v
    | None => d
    end.
Proof.
  unfold Progress.read_env_line, Env.assignment. cbv zeta.
  destruct (_ || _); [reflexivity|].
  now destruct (Text.split_once "=" (Text.strip line)) as [[k v]|].
Qed.

Lemma read_env_lines_get (lines : list string) (k : string) :
  forall d acc,
    Progress.env_get d k = acc ->
    Progress.env_get (fold_left Progress.read_env_line lines d) k
    = fold_left (fun acc line =>
                   match Env.assignment line with
                   | Some (k', v) => if (k' =? k)%string then Some v else acc
                   | None => acc
                   end) lines acc.
Proof.
  induction lines as [|line rest IH]; intros d acc Hd; cbn [fold_left];
    [exact Hd|].
  apply IH. rewrite read_env_line_assignment.
  destruct (Env.assignment line) as [[k' v]|]; [|exact Hd].
  now rewrite env_get_dict_set, Hd.
Qed.

Lemma read_env_lines_keys (lines : list string) :
  forall d, NoDup (map fst d) ->
            NoDup (map fst (fold_left Progress.read_env_line lines d)).
Proof.
  induction lines as [|line rest IH]; intros d Hd; cbn [fold_left]; [exact Hd|].
  apply IH. rewrite read_env_line_assignment.
  destruct (Env.assignment line) as [[k' v]|]; [|exact Hd].
  now apply dict_set_keys.
Qed.

(** X14.  In a [.env] file the last line that assigns a key decides its value;
    a key that no line assigns is absent, as is every key when the file is
    missing; and no key is listed twice. *)
Theorem env_file_last_assignment_wins (text : string) (k : string) :
  Progress.env_get (Progress.read_env_file (Some text)) k
  = Env.last_assigned k (Text.splitlines text)
  /\ Progress.env_get (Progress.read_env_file None) k = None
  /\ NoDup (map fst (Progress.read_env_file (Some text))).
Proof.
  unfold Progress.read_env_file, Env.last_assigned. split; [|split].
  - now apply read_env_lines_get.
  - reflexivity.
  - apply read_env_lines_keys. constructor.
Qed.

(** ** The token *)

(** X15.  A token answer without [access_token] is not refused: [get_token]
    returns [None], and the run goes on with the header
    [Authorization: Bearer None]. *)
Theorem missing_access_token_gives_bearer_none (repr : json -> string) (w : world)
    (a : Progress.args) (sur : Progress.surroundings) (st : state) (d : dict) :
  Progress.truthy (Progress.resolve_api_key a sur) = false ->
  Progress.truthy (Progress.resolve_client_id a sur) = true ->
  Progress.truthy (Progress.resolve_client_secret a sur) = true ->
  Token.answers w st d ->
  Py.lookup d "access_token" = None ->
  exists st',
    Progress.startup repr w a sur st = (Done (Token.oauth a "None"), st')
    /\ Progress.get_token w (Progress.text_of (Progress.resolve_client_id a sur))
         (Progress.text_of (Progress.resolve_client_secret a sur)) st
       = (Done JNull, st').
Proof.
  intros Hkey Hid Hsecret [r [Hpost [Hstatus Hbody]]] Hno.
  assert (Htoken : forall cid cs,
             Progress.get_token w cid cs st
             = (Done JNull, Trace.push st [Post Progress.TOKEN_URL cid cs])).
  { intros cid cs. rewrite get_token_outcome, Hpost.
    unfold Logs.token_outcome. rewrite Hstatus, Hbody. cbn.
    unfold Py.dict_get. now rewrite Hno. }
  unfold Progress.startup. rewrite Hkey, Hid, Hsecret. cbn [negb orb].
  eexists. split; [|apply Htoken].
  erewrite bind_done by apply Htoken. reflexivity.
Qed.

Lemma missing_access_token_gives_bearer_none_witness :
  exists st',
    Progress.startup Sample.repr0 Token.without_token Sample.oauth_args
      (Config.bare [Some Sample.siret1]) initial
    = (Done (Token.oauth Sample.oauth_args "None"), st')
    /\ Progress.get_token Token.without_token
         (Progress.text_of
            (Progress.resolve_client_id Sample.oauth_args
               (Config.bare [Some Sample.siret1])))
         (Progress.text_of
            (Progress.resolve_client_secret Sample.oauth_args
               (Config.bare [Some Sample.siret1]))) initial
       = (Done JNull, st').
Proof.
  apply (missing_access_token_gives_bearer_none Sample.repr0 Token.without_token
           Sample.oauth_args (Config.bare [Some Sample.siret1]) initial
           [("token_type", JStr "Bearer")]).
  - reflexivity.
  - reflexivity.
  - reflexivity.
  - eexists. split; [reflexivity|]. split; reflexivity.
  - reflexivity.
Defined.

(** ** The path of the checkpoint *)

Lemma substring_full (s : string) : substring 0 (String.length s) s = s.
Proof. induction s as [|c r IH]; cbn; [reflexivity|now rewrite IH]. Qed.

Lemma drop_0 (s : string) : Text.drop 0 s = s.
Proof. unfold Text.drop. rewrite Nat.sub_0_r. apply substring_full. Qed.

Lemma drop_S (i : nat) (c : ascii) (s : string) :
  Text.drop (S i) (String c s) = Text.drop i s.
Proof. reflexivity. Qed.

Lemma take_drop (s : string) :
  forall i, (i <= String.length s)%nat -> Text.take i s ++ Text.drop i s = s.
Proof.
  unfold Text.take.
  induction s as [|c r IH]; intros [|i] Hi; cbn [String.length] in Hi.
  - reflexivity.
  - lia.
  - cbn [substring append]. apply drop_0.
  - rewrite drop_S. cbn [substring append]. rewrite IH by lia. reflexivity.
Qed.

Lemma drop_length (s : string) :
  forall i, (i <= String.length s)%nat ->
            String.length (Text.drop i s) = (String.length s - i)%nat.
Proof.
  induction s as [|c r IH]; intros [|i] Hi; cbn [String.length] in Hi |- *.
  - reflexivity.
  - lia.
  - now rewrite drop_0.
  - rewrite drop_S, IH by lia. lia.
Qed.

(** From the last occurrence of [c] on, the text holds [c] once. *)
Lemma rfind_drop (c : ascii) (s : string) :
  forall i, Text.rfind c s = Some i ->
            (i < String.length s)%nat
            /\ exists t, Text.drop i s = String c t /\ Text.rfind c t = None.
Proof.
  induction s as [|x r IH]; intros i; cbn [Text.rfind]; [discriminate|].
  destruct (Text.rfind c r) as [j|] eqn:E.
  - intros H. injection H as <-. destruct (IH j eq_refl) as [Hj [t [Hd Ht]]].
    split; [cbn; lia|]. exists t. now rewrite drop_S.
  - destruct (Ascii.eqb x c) eqn:Hx; [|discriminate].
    intros H. injection H as <-. apply Ascii.eqb_eq in Hx. subst x.
    split; [cbn; lia|]. exists r. now rewrite drop_0.
Qed.

Lemma name_stem_suffix (p : Pathlib.path) :
  Pathlib.stem p ++ Pathlib.suffix p = Pathlib.name p.
Proof.
  unfold Pathlib.stem, Pathlib.suffix.
  destruct (Text.rfind "." (Pathlib.name p)) as [i|] eqn:E.
  - destruct (rfind_drop _ _ _ E) as [Hi _].
    destruct ((0 <? i) && (i <? String.length (Pathlib.name p) - 1))%nat.
    + rewrite drop_length by lia.
      replace (String.length (Pathlib.name p) - (String.length (Pathlib.name p) - i))%nat
        with i by lia.
      apply take_drop. lia.
    + cbn [String.length]. rewrite Nat.sub_0_r. unfold Text.take.
      rewrite substring_full. apply append_nil_r.
  - cbn [String.length]. rewrite Nat.sub_0_r. unfold Text.take.
    rewrite substring_full. apply append_nil_r.
Qed.

Lemma append_inv_head (x y z : string) : x ++ y = x ++ z -> y = z.
Proof.
  induction x as [|c r IH]; cbn; intros H; [exact H|].
  injection H as H. now apply IH.
Qed.

(** A suffix, as [pathlib] defines it, holds a single dot. *)
Lemma suffix_one_dot (p : Pathlib.path) :
  Pathlib.suffix p = ""
  \/ exists t, Pathlib.suffix p = String "." t /\ Text.rfind "." t = None.
Proof.
  unfold Pathlib.suffix.
  destruct (Text.rfind "." (Pathlib.name p)) as [i|] eqn:E; [|now left].
  destruct (_ && _); [|now left].
  right. now destruct (rfind_drop _ _ _ E) as [_ H].
Qed.

(** X16.  The checkpoint sits beside the output: same directory, the name of
    the output with its suffix replaced by [.checkpoint.csv] -- a name that
    is never the output's own, so that the checkpoint cannot overwrite the
    spreadsheet.  The path is refused only when the output has no file
    name (an empty path, [.] or [/]). *)
Theorem checkpoint_sits_beside_the_output (a : Progress.args) :
  match Progress.checkpoint_path a with
  | Ok c =>
      exists q,
        Pathlib.with_suffix (Pathlib.Path (Progress.output a)) ".checkpoint.csv" = Ok q
        /\ c = Pathlib.to_string q
        /\ Pathlib.name q = Pathlib.stem (Pathlib.Path (Progress.output a))
                            ++ ".checkpoint.csv"
        /\ Pathlib.name q <> Pathlib.name (Pathlib.Path (Progress.output a))
        /\ removelast (Pathlib.parts q)
           = removelast (Pathlib.parts (Pathlib.Path (Progress.output a)))
        /\ Pathlib.root q = Pathlib.root (Pathlib.Path (Progress.output a))
  | Err e =>
      Pathlib.name (Pathlib.Path (Progress.output a)) = ""
      /\ exists msg, e = ValueError msg
  end.
Proof.
  unfold Progress.checkpoint_path.
  destruct (Pathlib.with_suffix (Pathlib.Path (Progress.output a)) ".checkpoint.csv")
    as [q|e] eqn:E; cbn [res_bind].
  - destruct (with_suffix_name _ _ _ E) as [Hname [Hdir Hroot]].
    exists q. repeat split; try assumption.
    rewrite Hname, <- (name_stem_suffix (Pathlib.Path (Progress.output a))).
    intros H. apply append_inv_head in H.
    destruct (suffix_one_dot (Pathlib.Path (Progress.output a))) as [H0|[t [Ht Hdot]]];
      rewrite <- H in *; [discriminate|].
    injection Ht as <-. discriminate.
  - unfold Pathlib.with_suffix in E.
    destruct (Pathlib.name (Pathlib.Path (Progress.output a))); [|discriminate].
    injection E as <-. split; [reflexivity|eauto].
Qed.

(** ** [enrich_sirets_insee_v2.py]: one request, one row *)

Lemma bind_raised {A B} (m : M A) (k : A -> M B) (st st' : state) (e : exn) :
  m st = (Raised e, st') -> Eff.bind m k st = (Raised e, st').
Proof. unfold Eff.bind. now intros ->. Qed.

Section V2Batch.

Variable repr : json -> string.
Variable w : world.
Variable a : V2.args.
Hypothesis Hsleep : Eff.accepts (V2.sleep a) = true.
Variable au : Progress.auth.

Let failure (s : string) (e : exn) : record :=
  [("siret", JStr s); ("erreur", JStr (str_exn e))].

(** The [try] statement of the loop: one request, one row. *)
Lemma v2_try (s : string) (rows : list record) (st : state) :
  exists row,
    Eff.try_ (V2.try_body repr w au s rows)
      (fun e => Eff.ret (rows ++ [failure s e])%list) st
    = (Done (rows ++ [row])%list,
       Trace.push st [Get (Progress.build_url au s) (Progress.headers au)])
    /\ Rows.row_of s row.
Proof.
  assert (Hfail : forall e, Rows.row_of s (failure s e))
    by (intros e; right; split; reflexivity).
  unfold Eff.try_, V2.try_body.
  destruct (http_get w (gets st)) as [e|r] eqn:Hget.
  { erewrite bind_raised by (rewrite requests_get_push, Hget; reflexivity).
    eexists. split; [reflexivity|apply Hfail]. }
  erewrite bind_done by (rewrite requests_get_push, Hget; reflexivity).
  destruct (raise_for_status_cases r (Progress.build_url au s)
              (Trace.push st [Get (Progress.build_url au s) (Progress.headers au)]))
    as [[m [Hst _]]|[Hst _]].
  { erewrite bind_raised by exact Hst.
    eexists. split; [reflexivity|apply Hfail]. }
  erewrite bind_done by exact Hst.
  destruct (body r) as [js|e]; cbn [Eff.lift].
  2:{ erewrite bind_raised by reflexivity.
      eexists. split; [reflexivity|apply Hfail]. }
  erewrite bind_done by reflexivity.
  destruct (Progress.extract_fields repr js) as [row|e] eqn:Hrow; cbn [Eff.lift].
  2:{ erewrite bind_raised by reflexivity.
      eexists. split; [reflexivity|apply Hfail]. }
  erewrite bind_done by reflexivity.
  exists row. split; [reflexivity|]. left. eapply extract_fields_keys, Hrow.
Qed.

Lemma v2_process (s : string) (rows : list record) (st : state) :
  exists row st',
    V2.process repr w a au s rows st = (Done (rows ++ [row])%list, st')
    /\ Rows.row_of s row
    /\ gets st' = S (gets st)
    /\ posts st' = posts st
    /\ Trace.excel_files (trace st') = Trace.excel_files (trace st).
Proof.
  destruct (v2_try s rows st) as [row [Htry Hrow]].
  unfold V2.process. fold (failure s).
  change (fun e : exn => Eff.ret (rows ++ [[("siret", JStr s);
                                            ("erreur", JStr (str_exn e))]])%list)
    with (fun e : exn => @Eff.ret (list record) (rows ++ [failure s e])%list).
  erewrite bind_done by exact Htry.
  erewrite bind_done by (apply sleep_push, Hsleep).
  exists row. eexists. split; [reflexivity|]. split; [exact Hrow|].
  rewrite push_push.
  cbn [gets posts trace Trace.push Trace.count filter Trace.is_get
       Trace.is_post length app].
  rewrite excel_files_app. cbn [Trace.excel_files]. rewrite app_nil_r.
  repeat split; lia.
Qed.

Lemma v2_batch (sirets : list string) :
  forall (rows : list record) (st : state),
  exists new st',
    V2.batch repr w a au sirets rows st = (Done (rows ++ new)%list, st')
    /\ Forall2 Rows.row_of sirets new
    /\ gets st' = (gets st + length sirets)%nat
    /\ posts st' = posts st
    /\ Trace.excel_files (trace st') = Trace.excel_files (trace st).
Proof.
  induction sirets as [|s rest IH]; intros rows st; cbn [V2.batch].
  - exists [], st. rewrite app_nil_r. cbn. repeat split; [constructor|lia].
  - destruct (v2_process s rows st) as [row [st1 [Hrun [Hrow [Hg [Hp Hx]]]]]].
    erewrite bind_done by exact Hrun.
    destruct (IH (rows ++ [row])%list st1) as [new [st' [Hrun' [Hnew [Hg' [Hp' Hx']]]]]].
    exists (row :: new), st'. split.
    + rewrite Hrun'. now rewrite <- app_assoc.
    + split; [now constructor|]. cbn [length].
      repeat split; lia || congruence.
Qed.

End V2Batch.

(** X17.  The variant without retries makes exactly one lookup per identifier
    and records exactly one row for it, in order, whatever the server
    answers: an enriched record, or the failure record of that identifier
    (also on a 429); it never asks for a token on the way. *)
Theorem v2_one_request_one_row (repr : json -> string) (w : world) (a : V2.args)
    (au : Progress.auth) (sirets : list string) (rows : list record) (st : state) :
  Eff.accepts (V2.sleep a) = true ->
  exists new st',
    V2.batch repr w a au sirets rows st = (Done (rows ++ new)%list, st')
    /\ Forall2 Rows.row_of sirets new
    /\ gets st' = (gets st + length sirets)%nat
    /\ posts st' = posts st.
Proof.
  intros Hsleep.
  destruct (v2_batch repr w a Hsleep au sirets rows st)
    as [new [st' [H1 [H2 [H3 [H4 _]]]]]].
  exists new, st'. auto.
Qed.

Lemma v2_one_request_one_row_witness :
  exists new st',
    V2.batch Sample.repr0 (Config.always (Sample.too_many None)) Siblings.v2_args
      Sample.key_auth [Sample.siret1; Sample.siret2] [] initial
    = (Done ([] ++ new)%list, st')
    /\ Forall2 Rows.row_of [Sample.siret1; Sample.siret2] new
    /\ gets st' = (gets initial + length [Sample.siret1; Sample.siret2])%nat
    /\ posts st' = posts initial.
Proof.
  apply (v2_one_request_one_row Sample.repr0 (Config.always (Sample.too_many None))
           Siblings.v2_args Sample.key_auth [Sample.siret1; Sample.siret2] []
           initial).
  reflexivity.
Defined.

(** X18.  The variant without retries still exports when no identifier is
    valid: it warns on the standard error, makes no request and hands an
    empty table to the export.  When the writer accepts the output path
    the empty sheet is written and the run ends normally; otherwise the
    run ends with the exception of the writer, having written nothing. *)
Theorem v2_exports_an_empty_sheet (repr : json -> string) (w : world)
    (a : V2.args) (sur : Progress.surroundings) :
  Progress.load_sirets (Progress.pandas sur) (Progress.input_file sur) = Ok [] ->
  Progress.truthy (V2.or3 (V2.api_key a) sur "INSEE_API_KEY") = true ->
  V2.main repr w a sur initial
  = match Progress.excel_writer sur (V2.output a) [] with
    | None =>
        (Done tt,
         {| gets := 0; posts := 0;
            trace := [ Stderr "Aucun SIRET valide (14 chiffres) trouvé dans le fichier.";
                       WriteExcel (V2.output a) [];
                       Stdout ("OK -> " ++ V2.output a) ];
            shared_headers := [] |})
    | Some e =>
        (Raised e,
         {| gets := 0; posts := 0;
            trace := [ Stderr "Aucun SIRET valide (14 chiffres) trouvé dans le fichier." ];
            shared_headers := [] |})
    end.
Proof.
  intros Hload Hkey. unfold V2.main, V2.startup. rewrite Hload, Hkey.
  cbn [Eff.lift]. erewrite bind_done by reflexivity.
  erewrite bind_done by reflexivity.
  erewrite bind_done by reflexivity.
  erewrite bind_done by reflexivity.
  unfold Excel.to_excel, Excel.refusal.
  now destruct (Progress.excel_writer sur (V2.output a) []).
Qed.

(** An instance of X18: the output path [out.txt], and a writer that knows
    the suffix [.xlsx] only. *)
Lemma v2_exports_an_empty_sheet_witness :
  V2.main Sample.repr0 (Config.always Sample.ok)
    {| V2.input := "./sirets_nettoyes.csv";
       V2.output := "out.txt";
       V2.sleep := 15 # 100;
       V2.api_key := Some "k";
       V2.api_version := Progress.DEFAULT_API_VERSION;
       V2.client_id := None;
       V2.client_secret := None;
       V2.oauth_base := Progress.OAUTH_BASE_DEFAULT |}
    (Config.xlsx_only [Some "123"; None]) initial
  = (Raised (ValueError "No engine for filetype: 'txt'"),
     {| gets := 0; posts := 0;
        trace := [ Stderr "Aucun SIRET valide (14 chiffres) trouvé dans le fichier." ];
        shared_headers := [] |}).
Proof.
  apply (v2_exports_an_empty_sheet Sample.repr0 (Config.always Sample.ok)
           {| V2.input := "./sirets_nettoyes.csv";
              V2.output := "out.txt";
              V2.sleep := 15 # 100;
              V2.api_key := Some "k";
              V2.api_version := Progress.DEFAULT_API_VERSION;
              V2.client_id := None;
              V2.client_secret := None;
              V2.oauth_base := Progress.OAUTH_BASE_DEFAULT |}
           (Config.xlsx_only [Some "123"; None])); reflexivity.
Defined.

(** ** [enrich_sirets_insee_1.py] *)

(** X19.  [resolve_credentials] never mixes sources: the client id and the
    secret it returns come together from the command line, from the
    environment or from the [.env] file, or both are missing; a value
    given alone is dropped. *)
Theorem v1_credentials_come_in_pairs (a : V1.args) (sur : Progress.surroundings) :
  let parsed := Progress.read_env_file (Progress.dotenv sur) in
  let r := V1.resolve_credentials a sur in
  Progress.truthy (fst r) = Progress.truthy (snd r)
  /\ In r [ (V1.client_id a, V1.client_secret a);
            (Progress.getenv sur "INSEE_CLIENT_ID",
             Progress.getenv sur "INSEE_CLIENT_SECRET");
            (Progress.env_get parsed "INSEE_CLIENT_ID",
             Progress.env_get parsed "INSEE_CLIENT_SECRET");
            (None, None) ].
Proof.
  cbv zeta. unfold V1.resolve_credentials.
  destruct (Progress.truthy (V1.client_id a) && Progress.truthy (V1.client_secret a))
    eqn:H1.
  { apply andb_prop in H1 as [Ha Hb]. split; [cbn [fst snd]; congruence|now left]. }
  destruct (Progress.truthy (Progress.getenv sur "INSEE_CLIENT_ID")
            && Progress.truthy (Progress.getenv sur "INSEE_CLIENT_SECRET")) eqn:H2.
  { apply andb_prop in H2 as [Ha Hb]. split; [cbn [fst snd]; congruence|right; now left]. }
  match goal with |- context [if ?c then _ else _] => destruct c eqn:H3 end.
  { apply andb_prop in H3 as [Ha Hb]. split; [cbn [fst snd]; congruence|right; right; now left]. }
  split; [reflexivity|]. right; right; right; now left.
Qed.

Lemma v1_extract_fields_keys (repr : json -> string) (payload : json) (r : record) :
  V1.extract_fields repr payload = Ok r -> Progress.keys r = V1Rows.enriched_keys.
Proof.
  unfold V1.extract_fields. intros H. res_cases H.
  subst r. reflexivity.
Qed.


Lemma v1_get_token (w : world) (cid cs : string) (st : state) :
  V1.get_token w cid cs st
  = (Logs.token_outcome V1.TOKEN_URL (http_post w (posts st)),
     Trace.push st [Post V1.TOKEN_URL cid cs]).
Proof. exact (get_token_outcome w cid cs st). Qed.

Lemma try_bind_done {A B} (m : M A) (k : A -> M B) (h : exn -> M B)
    (st st' : state) (x : A) :
  m st = (Done x, st') -> Eff.try_ (Eff.bind m k) h st = Eff.try_ (k x) h st'.
Proof. unfold Eff.try_, Eff.bind. now intros ->. Qed.

Lemma try_bind_raised {A B} (m : M A) (k : A -> M B) (h : exn -> M B)
    (st st' : state) (e : exn) :
  m st = (Raised e, st') -> Eff.try_ (Eff.bind m k) h st = h e st'.
Proof. unfold Eff.try_, Eff.bind. now intros ->. Qed.

Section V1Batch.

Variable repr : json -> string.
Variable w : world.
Variable a : V1.args.
Hypothesis Hsleep : Eff.accepts (V1.sleep a) = true.
Variable cid cs : string.

Let failure (s : string) (e : exn) : record :=
  [("siret", JStr s); ("erreur", JStr (str_exn e))].




Let handler (s : string) (rows : list record) (e : exn) : M (list record) :=
  Eff.ret (rows ++ [failure s e])%list.

(** The end of the [try] body, from the answer that counts on: one row,
    and the state is left as it is. *)
Lemma v1_finish (s : string) (rows : list record) (st1 : state) (r : response) :
  exists row,
    Eff.try_
      (Eff.bind (Eff.raise_for_status r (V1.SIRET_URL ++ s))
         (fun _ => Eff.bind (Eff.lift (body r))
            (fun data => Eff.bind (Eff.lift (V1.extract_fields repr data))
               (fun row => Eff.ret (rows ++ [row])%list))))
      (handler s rows) st1
    = (Done (rows ++ [row])%list, st1)
    /\ (Progress.keys row = V1Rows.enriched_keys \/ exists e, row = failure s e).
Proof.
  destruct (raise_for_status_cases r (V1.SIRET_URL ++ s) st1)
    as [[m [Hst _]]|[Hst _]].
  { erewrite try_bind_raised by exact Hst. eexists. split; [reflexivity|eauto]. }
  erewrite try_bind_done by exact Hst.
  destruct (body r) as [js|e]; cbn [Eff.lift].
  2:{ erewrite try_bind_raised by reflexivity. eexists. split; [reflexivity|eauto]. }
  erewrite try_bind_done by reflexivity.
  destruct (V1.extract_fields repr js) as [row|e] eqn:Hrow; cbn [Eff.lift].
  2:{ erewrite try_bind_raised by reflexivity. eexists. split; [reflexivity|eauto]. }
  erewrite try_bind_done by reflexivity.
  exists row. split; [reflexivity|]. left. eapply v1_extract_fields_keys, Hrow.
Qed.


(** The renewal: the lookup is answered 401 and the token request gives
    [tok]; the headers are updated in place, the lookup is repeated once
    with the new token, and whatever it gives no other token is asked for. *)
Lemma v1_renewal (s : string) (rows : list record) (st : state) (r : response)
    (tok : json) :
  http_get w (gets st) = Response r -> status_code r = 401 ->
  Logs.token_outcome V1.TOKEN_URL (http_post w (posts st)) = Done tok ->
  exists row,
    Eff.try_ (V1.try_body repr w cid cs s rows) (handler s rows) st
    = (Done (rows ++ [row])%list,
       {| gets := S (S (gets st));
          posts := S (posts st);
          trace := (trace st
                    ++ [ Get (V1.SIRET_URL ++ s) (shared_headers st);
                         Post V1.TOKEN_URL cid cs;
                         Get (V1.SIRET_URL ++ s) (V1.bearer repr tok) ])%list;
          shared_headers := V1.bearer repr tok |})
    /\ (Progress.keys row = V1Rows.enriched_keys \/ exists e, row = failure s e).
Proof.
  intros Hget H401 Htok. unfold V1.try_body. cbv zeta.
  erewrite try_bind_done by reflexivity.
  erewrite try_bind_done by (rewrite requests_get_push, Hget; reflexivity).
  rewrite H401. cbn [Z.eqb Pos.eqb].
  set (url := V1.SIRET_URL ++ s).
  set (st' := {| gets := S (S (gets st));
                 posts := S (posts st);
                 trace := (trace st
                           ++ [ Get url (shared_headers st);
                                Post V1.TOKEN_URL cid cs;
                                Get url (V1.bearer repr tok) ])%list;
                 shared_headers := V1.bearer repr tok |}).
  assert (Hrenew :
            Eff.bind (V1.get_token w cid cs)
              (fun token =>
                 Eff.bind (Eff.write_headers (V1.bearer repr token))
                   (fun _ => Eff.bind Eff.read_headers
                               (fun h' => Eff.requests_get w url h')))
              (Trace.push st [Get url (shared_headers st)])
            = (match http_get w (S (gets st)) with
               | NoResponse e => Raised e
               | Response r' => Done r'
               end, st')).
  { erewrite bind_done.
    2:{ rewrite v1_get_token. cbn [posts Trace.push Trace.count filter
                                    Trace.is_post length].
        rewrite Nat.add_0_r, Htok. reflexivity. }
    erewrite bind_done by reflexivity.
    erewrite bind_done by reflexivity.
    unfold Eff.requests_get, st'.
    cbn [gets posts trace shared_headers Trace.push Trace.count filter
         Trace.is_get Trace.is_post length].
    rewrite !Nat.add_0_r, !Nat.add_1_r, <- !app_assoc. cbn [app].
    now destruct (http_get w (S (gets st))). }
  destruct (http_get w (S (gets st))) as [e|r'].
  { erewrite try_bind_raised by exact Hrenew.
    eexists. split; [reflexivity|eauto]. }
  erewrite try_bind_done by exact Hrenew.
  apply v1_finish.
Qed.



End V1Batch.

Section V1Run.

Variable repr : json -> string.
Variable w : world.
Variable a : V1.args.
Hypothesis Hsleep : Eff.accepts (V1.sleep a) = true.
Variable cid cs : string.


End V1Run.



(** ** The checkpoint writer on its own *)

Lemma csv_line_refused (header : list string) (r : record) (k : string) :
  In k (Progress.keys r) -> ~ In k header ->
  exists msg, Progress.csv_line header r = Err (ValueError msg).
Proof.
  intros Hk Hno. unfold Progress.csv_line.
  destruct (filter (fun k => negb (Loader.mem k header)) (Progress.keys r))
    as [|x l] eqn:E; [|eauto].
  assert (Hin : In k (filter (fun k => negb (Loader.mem k header)) (Progress.keys r))).
  { apply filter_In. split; [exact Hk|].
    destruct (Loader.mem k header) eqn:Hm; [|reflexivity].
    apply mem_In in Hm. contradiction. }
  rewrite E in Hin. contradiction.
Qed.

Lemma csv_lines_refused (header : list string) (pre post : list record)
    (r : record) (k : string) :
  (forall x key, In x pre -> In key (Progress.keys x) -> In key header) ->
  In k (Progress.keys r) -> ~ In k header ->
  exists msg,
    Progress.csv_lines header (pre ++ r :: post)
    = (map (Checkpoint.render header) pre, Some (ValueError msg)).
Proof.
  intros Hpre Hk Hno. induction pre as [|x pre IH]; cbn [app Progress.csv_lines map].
  - destruct (csv_line_refused header r k Hk Hno) as [msg ->]. eauto.
  - rewrite csv_line_render by (intros key Hkey; apply (Hpre x); [now left|assumption]).
    destruct IH as [msg ->]; [intros y key Hy; apply Hpre; now right|]. eauto.
Qed.

(** X21.  [write_checkpoint_csv] with field names of the caller's choice: when
    they cover the keys of every row, the file gets the header and one line
    per row; at the first row with a key outside them the writer raises
    [ValueError], and the file is left with the header and the lines of
    the rows before that one. *)
Theorem checkpoint_writer_refuses_unknown_keys (path : string)
    (fieldnames : list string) (st : state) :
  (forall rows,
      (forall r k, In r rows -> In k (Progress.keys r) -> In k fieldnames) ->
      Progress.write_checkpoint_csv rows path fieldnames st
      = (Done tt,
         Trace.push st [WriteCsv path fieldnames
                          (map (Checkpoint.render fieldnames) rows)]))
  /\ (forall pre r post k,
         (forall x key, In x pre -> In key (Progress.keys x) -> In key fieldnames) ->
         In k (Progress.keys r) -> ~ In k fieldnames ->
         exists msg,
           Progress.write_checkpoint_csv (pre ++ r :: post) path fieldnames st
           = (Raised (ValueError msg),
              Trace.push st [WriteCsv path fieldnames
                               (map (Checkpoint.render fieldnames) pre)])).
Proof.
  split.
  - intros rows H. unfold Progress.write_checkpoint_csv.
    rewrite (csv_lines_render _ _ H).
    erewrite bind_done by (now apply emit_push). reflexivity.
  - intros pre r post k Hpre Hk Hno. unfold Progress.write_checkpoint_csv.
    destruct (csv_lines_refused fieldnames pre post r k Hpre Hk Hno) as [msg ->].
    exists msg. erewrite bind_done by (now apply emit_push). reflexivity.
Qed.

(** ** [enrich_sirets_insee.py] *)



Lemma v0_get_token (w : world) (cid cs : string) (st : state) :
  V0.get_token w cid cs st
  = (V0Rows.token_outcome (http_post w (posts st)),
     Trace.push st [Post V1.TOKEN_URL cid cs]).
Proof.
  unfold V0.get_token. unfold Eff.bind at 1.
  rewrite requests_post_push.
  destruct (http_post w (posts st)) as [e|r]; [reflexivity|].
  unfold V0Rows.token_outcome, Eff.bind at 1, Eff.raise_for_status.
  destruct ((400 <=? status_code r) && (status_code r <? 500)); [reflexivity|].
  destruct ((500 <=? status_code r) && (status_code r <? 600)); [reflexivity|].
  cbn [Eff.ret]. unfold Eff.bind, Eff.lift.
  destruct (body r) as [js|e]; cbn; [|reflexivity].
  now destruct (V0.getitem js "access_token").
Qed.

Section V0Batch.

Variable repr : json -> string.
Variable w : world.
Variable a : V0.args.
Hypothesis Hsleep : Eff.accepts (V0.sleep a) = true.
Variable cid cs : string.

Let failure (s : string) (e : exn) : record :=
  [("siret", JStr s); ("erreur", JStr (str_exn e))].




Let handler (s : string) (rows : list record) (e : exn) : M (list record) :=
  Eff.ret (rows ++ [failure s e])%list.





End V0Batch.




(** X23.  In the first script a token answer without [access_token] is an
    error: [get_token] raises [KeyError], nothing catches it at start-up,
    and the run ends there, the input not even read.  (The later scripts
    read the token with [.get] and go on with [None].) *)
Theorem v0_token_without_key_ends_the_run (repr : json -> string) (w : world)
    (a : V0.args) (sur : Progress.surroundings) (cid cs : string) (d : dict) :
  Progress.getenv sur "INSEE_CLIENT_ID" = Some cid -> cid <> "" ->
  Progress.getenv sur "INSEE_CLIENT_SECRET" = Some cs -> cs <> "" ->
  Token.answers w initial d ->
  Py.lookup d "access_token" = None ->
  V0.main repr w a sur initial
  = (Raised (KeyError "'access_token'"),
     Trace.push initial [Post V1.TOKEN_URL cid cs])
  /\ Eff.exit_status (fst (V0.main repr w a sur initial)) = Some 1.
Proof.
  intros Hid Hcid Hsecret Hcs [r [Hpost [Hstatus Hbody]]] Hno.
  assert (Hrun : V0.main repr w a sur initial
                 = (Raised (KeyError "'access_token'"),
                    Trace.push initial [Post V1.TOKEN_URL cid cs])).
  { unfold V0.main. rewrite Hid, Hsecret. cbn [Progress.truthy Progress.text_of].
    apply String.eqb_neq in Hcid, Hcs. rewrite Hcid, Hcs. cbn [negb orb].
    apply bind_raised. rewrite v0_get_token, Hpost.
    unfold V0Rows.token_outcome. rewrite Hstatus, Hbody. cbn.
    now rewrite Hno. }
  split; [exact Hrun|]. now rewrite Hrun.
Qed.

Lemma v0_token_without_key_ends_the_run_witness :
  V0.main Sample.repr0 Token.without_token V0Rows.args0
    (V0Rows.sur [Some Sample.siret1]) initial
  = (Raised (KeyError "'access_token'"),
     Trace.push initial [Post V1.TOKEN_URL "id" "secret"])
  /\ Eff.exit_status
       (fst (V0.main Sample.repr0 Token.without_token V0Rows.args0
               (V0Rows.sur [Some Sample.siret1]) initial)) = Some 1.
Proof.
  apply (v0_token_without_key_ends_the_run Sample.repr0 Token.without_token
           V0Rows.args0 (V0Rows.sur [Some Sample.siret1]) "id" "secret"
           [("token_type", JStr "Bearer")]).
  - reflexivity.
  - discriminate.
  - reflexivity.
  - discriminate.
  - eexists. split; [reflexivity|]. split; reflexivity.
  - reflexivity.
Defined.

(** ** The first script and its successor extract alike *)

Lemma either_truthy (periode etab : json) (k : string) (c : json) :
  V1.either periode etab k = Ok c -> Py.truthy c = true ->
  V0.either_text periode etab k = Ok c /\ Py.or_ c (JStr "") = c.
Proof.
  unfold V1.either, V0.either_text, Py.get, Py.get_or.
  intros H Hc. split; [|unfold Py.or_; now rewrite Hc].
  destruct periode as [ | | | | | |d]; try discriminate H.
  cbn [res_bind] in H |- *. unfold Py.dict_get in *.
  destruct (Py.lookup d k) as [v|] eqn:Hv.
  - unfold Py.or_else in *. destruct (Py.truthy v); [exact H|].
    destruct etab as [ | | | | | |d']; try discriminate H.
    injection H as H. unfold Py.dict_get in *.
    destruct (Py.lookup d' k) as [v'|]; [now rewrite H|].
    subst c. discriminate Hc.
  - unfold Py.or_else in *. cbn [Py.truthy] in *. cbn.
    destruct etab as [ | | | | | |d']; try discriminate H.
    injection H as H. unfold Py.dict_get in *.
    destruct (Py.lookup d' k) as [v'|]; [now rewrite H|].
    subst c. discriminate Hc.
Qed.

Lemma adr_items_alike (repr : json -> string) (periode etab : json)
    (ks : list string) :
  V0.adr_items repr periode etab ks = V1.adr_items repr periode etab ks.
Proof.
  induction ks as [|k r IH]; cbn [V0.adr_items V1.adr_items]; [reflexivity|].
  destruct (V1.either periode etab k) as [c|e] eqn:Hc; cbn [res_bind];
    [|reflexivity].
  destruct (Py.truthy c) eqn:Ht; [|exact IH].
  destruct (either_truthy periode etab k c Hc Ht) as [-> Hor].
  cbn [res_bind]. now rewrite Hor, IH.
Qed.

(** X24.  The first script and [enrich_sirets_insee_1.py] extract the same
    record from a payload, or fail with the same error, except when the
    payload gives its periods under [periodesEtablissementUniteLegale]
    only, which the first script alone reads. *)
Theorem v0_and_v1_extract_alike (repr : json -> string) (payload : json) :
  Legacy.periods_only payload = false ->
  V0.extract_fields repr payload = V1.extract_fields repr payload.
Proof.
  unfold Legacy.periods_only, V0.extract_fields, V1.extract_fields.
  destruct (Py.get payload "etablissement") as [e|err]; cbn [res_bind];
    [|reflexivity].
  cbv zeta. set (etab := Py.or_ e payload).
  destruct (Py.get_or etab "uniteLegale" (JDict [])) as [unite|err] eqn:Hu;
    cbn [res_bind]; [|reflexivity].
  assert (Hdict : exists d, etab = JDict d).
  { destruct etab; try discriminate Hu. eauto. }
  destruct Hdict as [d Hd]. rewrite Hd. cbn [Py.get Py.get_or res_bind].
  intros Hlegacy.
  assert (Hperiodes :
            Py.or_else (Py.dict_get d "periodesEtablissement" JNull)
              (Ok (Py.dict_get d "periodesEtablissementUniteLegale" JNull))
            = Ok (if Py.truthy (Py.dict_get d "periodesEtablissement" JNull)
                  then Py.dict_get d "periodesEtablissement" JNull
                  else Py.dict_get d "periodesEtablissementUniteLegale" JNull))
    by (unfold Py.or_else; now destruct (Py.truthy _)).
  rewrite Hperiodes. cbn [res_bind].
  assert (Hsame :
            Py.or_ (if Py.truthy (Py.dict_get d "periodesEtablissement" JNull)
                    then Py.dict_get d "periodesEtablissement" JNull
                    else Py.dict_get d "periodesEtablissementUniteLegale" JNull)
              (JList [])
            = Py.or_ (Py.dict_get d "periodesEtablissement" JNull) (JList [])).
  { unfold Py.or_.
    destruct (Py.truthy (Py.dict_get d "periodesEtablissement" JNull)) eqn:Hp.
    - now rewrite Hp.
    - cbn [negb andb] in Hlegacy. now rewrite Hlegacy. }
  rewrite Hsame.
  destruct (if Py.truthy (Py.or_ (Py.dict_get d "periodesEtablissement" JNull)
                            (JList []))
            then Py.item0 (Py.or_ (Py.dict_get d "periodesEtablissement" JNull)
                             (JList []))
            else Ok (JDict [])) as [periode|err]; cbn [res_bind]; [|reflexivity].
  now rewrite adr_items_alike.
Qed.

Lemma v0_and_v1_extract_alike_witness :
  V0.extract_fields Sample.repr0 Address.payload
  = V1.extract_fields Sample.repr0 Address.payload.
Proof.
  apply (v0_and_v1_extract_alike Sample.repr0 Address.payload). reflexivity.
Defined.

(** ** Renewal and refusal of the token in the sibling scripts *)

Lemma monoid_True : Invariant.monoid (fun _ => True).
Proof. now split. Qed.

Lemma starts_with_get {B} (w : world) (url : string) (h : list (string * string))
    (k : response -> M B) (st : state) :
  (forall r, Invariant.grows (k r)) ->
  Invariant.starts_with (Get url h) (Eff.bind (Eff.requests_get w url h) k) st.
Proof.
  intros Hk. unfold Invariant.starts_with, Eff.bind. rewrite requests_get_push.
  destruct (http_get w (gets st)) as [e|r].
  - exists []. reflexivity.
  - destruct (Hk r (Trace.push st [Get url h])) as [evs [Ht _]].
    exists evs. rewrite Ht. cbn [trace Trace.push]. now rewrite <- app_assoc.
Qed.

Lemma starts_with_try {A} (ev : event) (m : M A) (h : exn -> M A) (st : state) :
  Invariant.starts_with ev m st -> (forall e, Invariant.grows (h e)) ->
  Invariant.starts_with ev (Eff.try_ m h) st.
Proof.
  intros [evs Ht] Hh. unfold Invariant.starts_with, Eff.try_.
  destruct (m st) as [[x|e|c|] st1]; cbn [snd] in Ht |- *; eauto.
  destruct (Hh e st1) as [evs' [Ht' _]]. exists (evs ++ evs')%list.
  rewrite Ht', Ht, <- app_assoc. reflexivity.
Qed.

Lemma starts_with_bind {A B} (ev : event) (m : M A) (k : A -> M B) (st : state) :
  Invariant.starts_with ev m st -> (forall x, Invariant.grows (k x)) ->
  Invariant.starts_with ev (Eff.bind m k) st.
Proof.
  intros [evs Ht] Hk. unfold Invariant.starts_with, Eff.bind.
  destruct (m st) as [[x|e|c|] st1]; cbn [snd] in Ht |- *; eauto.
  destruct (Hk x st1) as [evs' [Ht' _]]. exists (evs ++ evs')%list.
  rewrite Ht', Ht, <- app_assoc. reflexivity.
Qed.

Ltac grow :=
  unfold Invariant.grows;
  repeat first
    [ apply emits_ret; apply monoid_True
    | apply emits_raise; apply monoid_True
    | apply emits_lift; apply monoid_True
    | apply emits_raise_for_status; apply monoid_True
    | apply emits_sleep; [apply monoid_True|exact I]
    | apply emits_get; exact I
    | apply emits_post; exact I
    | apply emits_silent; [apply monoid_True|reflexivity]
    | apply emits_bind; [apply monoid_True| |intro]
    | match goal with |- Invariant.emits _ (if ?c then _ else _) => destruct c end ].

(** A valid identifier is first of all looked up with the headers as they
    are. *)
Lemma v1_process_starts (repr : json -> string) (w : world) (a : V1.args)
    (cid cs s : string) (rows : list record) (st : state) :
  Loader.valid s = true ->
  Invariant.starts_with (Get (V1.SIRET_URL ++ s) (shared_headers st))
    (V1.process repr w a cid cs s rows) st.
Proof.
  intros Hvalid. unfold V1.process. unfold Loader.valid in Hvalid.
  rewrite Hvalid. cbn [negb].
  apply starts_with_bind; [|intros rows'; grow].
  apply starts_with_try; [|intros e; grow].
  unfold V1.try_body. cbv zeta.
  unfold Invariant.starts_with. erewrite bind_done by reflexivity.
  apply starts_with_get. intros r. unfold V1.get_token. grow.
Qed.

(** X25.  In [enrich_sirets_insee_1.py], when a lookup is answered 401 and
    the token request succeeds, the token is renewed exactly once: the
    lookup is repeated once with the new token; whatever this second answer
    is (a 401 included) the identifier gets its single row and no other
    token is asked for; and the new token stays in the headers, so that
    the next valid identifier is looked up with it. *)
Theorem v1_renews_the_token_once_and_keeps_it (repr : json -> string) (w : world)
    (a : V1.args) (cid cs s : string) (rows : list record) (st : state)
    (r : response) (tok : json) :
  Eff.accepts (V1.sleep a) = true ->
  Loader.valid s = true ->
  http_get w (gets st) = Response r -> status_code r = 401 ->
  Logs.token_outcome V1.TOKEN_URL (http_post w (posts st)) = Done tok ->
  exists row,
    V1.process repr w a cid cs s rows st
    = (Done (rows ++ [row])%list, Renewal.after repr a cid cs s tok st)
    /\ V1Rows.row_of s row
    /\ forall s' rows',
         Loader.valid s' = true ->
         Invariant.starts_with (Get (V1.SIRET_URL ++ s') (V1.bearer repr tok))
           (V1.process repr w a cid cs s' rows')
           (Renewal.after repr a cid cs s tok st).
Proof.
  intros Hsleep Hvalid Hget H401 Htok.
  destruct (v1_renewal repr w cid cs s rows st r tok Hget H401 Htok)
    as [row [Htry Hrow]].
  exists row. split; [|split].
  - unfold V1.process. unfold Loader.valid in Hvalid. rewrite Hvalid. cbn [negb].
    erewrite bind_done by exact Htry.
    unfold Eff.bind. rewrite (sleep_push _ _ Hsleep).
    unfold Eff.ret, Trace.push, Renewal.after.
    cbn [gets posts trace shared_headers Trace.count filter Trace.is_get
         Trace.is_post length].
    rewrite !Nat.add_0_r, <- app_assoc. reflexivity.
  - unfold V1Rows.row_of. now rewrite Hvalid.
  - intros s' rows' Hvalid'.
    exact (v1_process_starts repr w a cid cs s' rows'
             (Renewal.after repr a cid cs s tok st) Hvalid').
Qed.

Lemma v1_renews_the_token_once_and_keeps_it_witness :
  exists row,
    V1.process Sample.repr0 Siblings.expired_twice Siblings.v1_args "id" "secret"
      Sample.siret1 []
      {| gets := 0; posts := 1; trace := [];
         shared_headers := V1.bearer Sample.repr0 (JStr "t0") |}
    = (Done ([] ++ [row])%list,
       Renewal.after Sample.repr0 Siblings.v1_args "id" "secret" Sample.siret1
         (JStr "t1")
         {| gets := 0; posts := 1; trace := [];
            shared_headers := V1.bearer Sample.repr0 (JStr "t0") |})
    /\ V1Rows.row_of Sample.siret1 row
    /\ forall s' rows',
         Loader.valid s' = true ->
         Invariant.starts_with
           (Get (V1.SIRET_URL ++ s') (V1.bearer Sample.repr0 (JStr "t1")))
           (V1.process Sample.repr0 Siblings.expired_twice Siblings.v1_args
              "id" "secret" s' rows')
           (Renewal.after Sample.repr0 Siblings.v1_args "id" "secret" Sample.siret1
              (JStr "t1")
              {| gets := 0; posts := 1; trace := [];
                 shared_headers := V1.bearer Sample.repr0 (JStr "t0") |}).
Proof.
  apply (v1_renews_the_token_once_and_keeps_it Sample.repr0 Siblings.expired_twice
           Siblings.v1_args "id" "secret" Sample.siret1 []
           {| gets := 0; posts := 1; trace := [];
              shared_headers := V1.bearer Sample.repr0 (JStr "t0") |}
           {| status_code := 401; reason := "Unauthorized"; retry_after := None;
              body := Sample.no_json |} (JStr "t1")).
  - reflexivity.
  - reflexivity.
  - reflexivity.
  - reflexivity.
  - reflexivity.
Defined.

(** X26.  In [enrich_sirets_insee_v2.py] only an HTTP error of the token
    request is an authentication failure: the start-up then prints a
    message with the status on the standard error and exits with status 2,
    for every status from 400 to 599; a token request that fails otherwise
    (no answer at all) is not caught and propagates. *)
Theorem v2_refused_token_exits_2 (repr : json -> string) (w : world)
    (a : V2.args) (sur : Progress.surroundings) (st : state) :
  Progress.truthy (V2.or3 (V2.api_key a) sur "INSEE_API_KEY") = false ->
  Progress.truthy (V2.or3 (V2.client_id a) sur "INSEE_CLIENT_ID") = true ->
  Progress.truthy (V2.or3 (V2.client_secret a) sur "INSEE_CLIENT_SECRET") = true ->
  let cid := Progress.text_of (V2.or3 (V2.client_id a) sur "INSEE_CLIENT_ID") in
  let cs := Progress.text_of (V2.or3 (V2.client_secret a) sur "INSEE_CLIENT_SECRET") in
  (forall r, http_post w (posts st) = Response r -> 400 <= status_code r < 600 ->
             V2.startup repr w a sur st
             = (Exited 2,
                Trace.push st [ Post Progress.TOKEN_URL cid cs;
                                Stderr (Renewal.refused (status_code r)) ]))
  /\ (forall e, http_post w (posts st) = NoResponse e ->
                (forall status m, e <> HTTPError status m) ->
                V2.startup repr w a sur st
                = (Raised e, Trace.push st [Post Progress.TOKEN_URL cid cs])).
Proof.
  intros Hkey Hid Hsecret cid cs. unfold V2.startup.
  rewrite Hkey, Hid, Hsecret. cbn [negb orb]. fold cid cs. split.
  - intros r Hpost Hstatus. unfold Eff.bind.
    now rewrite (v2_token_refusal_exits_2 w cid cs st r Hpost Hstatus).
  - intros e Hpost Hno. unfold Eff.bind, V2.try_get_token.
    change (V2.get_token w cid cs st) with (Progress.get_token w cid cs st).
    rewrite get_token_outcome, Hpost. cbn [Logs.token_outcome].
    destruct e; try reflexivity. now destruct (Hno status msg).
Qed.

Lemma v2_refused_token_exits_2_witness :
  (forall r, http_post Siblings.token_refused (posts initial) = Response r ->
             400 <= status_code r < 600 ->
             V2.startup Sample.repr0 Siblings.token_refused Siblings.v2_args
               Siblings.sur initial
             = (Exited 2,
                Trace.push initial
                  [ Post Progress.TOKEN_URL "id" "secret";
                    Stderr (Renewal.refused (status_code r)) ]))
  /\ (forall e, http_post Siblings.token_refused (posts initial) = NoResponse e ->
                (forall status m, e <> HTTPError status m) ->
                V2.startup Sample.repr0 Siblings.token_refused Siblings.v2_args
                  Siblings.sur initial
                = (Raised e, Trace.push initial [Post Progress.TOKEN_URL "id" "secret"])).
Proof.
  apply (v2_refused_token_exits_2 Sample.repr0 Siblings.token_refused
           Siblings.v2_args Siblings.sur initial); reflexivity.
Defined.
(* ------------------------------------------------------------------ *)
(** ** The mode of a run of [enrich_sirets_insee_progress.py] *)

(** Whatever follows [m] only adds events. *)
Lemma bind_extends {A B} (P : list event -> Prop) (m : M A) (k : A -> M B)
    (st : state) :
  Invariant.monoid P -> (forall x, Invariant.emits P (k x)) ->
  exists evs,
    trace (snd (Eff.bind m k st)) = (trace (snd (m st)) ++ evs)%list /\ P evs.
Proof.
  intros [Hnil _] Hk. unfold Eff.bind.
  destruct (m st) as [[x| | |] st']; cbn [snd];
    try (exists []; rewrite app_nil_r; now split).
  apply Hk.
Qed.

(** With identifiers to look up, [collect] is the start-up, the line that
    names the mode and the lookups. *)
Lemma collect_after_startup (repr : json -> string) (w : world)
    (a : Progress.args) (sur : Progress.surroundings) (sirets : list string)
    (au : Progress.auth) (st st1 : state) :
  Progress.load_sirets (Progress.pandas sur) (Progress.input_file sur) = Ok sirets ->
  sirets <> [] ->
  Progress.startup repr w a sur st = (Done au, st1) ->
  Progress.collect repr w a sur st
  = Mode.lookups repr w a sur au sirets
      (Trace.push st1 (Tally.mode_line a au (length sirets))).
Proof.
  intros Hload Hsome Hstart.
  assert (Htotal : (Z.of_nat (length sirets) =? 0) = false).
  { apply Z.eqb_neq. destruct sirets; [contradiction|]. cbn [length]. lia. }
  unfold Progress.collect. rewrite Hload. cbn [Eff.lift].
  erewrite bind_done by reflexivity. cbv zeta. rewrite Htotal.
  erewrite bind_done by reflexivity.
  erewrite bind_done by exact Hstart.
  erewrite bind_done by apply log_push.
  reflexivity.
Qed.

Lemma lines_lookup_as (a : Progress.args) (au : Progress.auth)
    (sirets : list string) (msg : string) :
  Forall (Mode.lookup_as au sirets) (Logs.lines a msg).
Proof.
  unfold Logs.lines. constructor; [exact I|].
  destruct (Progress.truthy _); repeat constructor.
Qed.

(** Once the start-up has chosen [au], the run operates in that mode. *)
Lemma operates_after_startup (repr : json -> string) (w : world)
    (a : Progress.args) (sur : Progress.surroundings) (sirets : list string)
    (au : Progress.auth) (st1 : state) :
  Progress.load_sirets (Progress.pandas sur) (Progress.input_file sur) = Ok sirets ->
  sirets <> [] ->
  Progress.startup repr w a sur initial = (Done au, st1) ->
  Mode.operates a au sirets (trace st1) (Progress.main repr w a sur initial).
Proof.
  intros Hload Hsome Hstart.
  set (P := Forall (Mode.lookup_as au sirets)).
  assert (HP : Invariant.monoid P) by apply monoid_Forall.
  assert (Hlog : forall msg, P (Logs.lines a msg))
    by (intros msg; apply lines_lookup_as).
  assert (Hsleep : forall d, P [Sleep d]) by (intros d; repeat constructor).
  destruct (bind_extends P (Progress.collect repr w a sur)
              (fun r => Progress.export repr a sur (fst (fst r)) (snd (fst r))
                          (snd r)) initial HP) as [e2 [Ht2 He2]].
  { intros r. apply emits_export; try assumption.
    intros rows. repeat constructor. }
  rewrite (collect_after_startup repr w a sur sirets au initial st1
             Hload Hsome Hstart) in Ht2.
  destruct (emits_lookups repr w a P HP Hlog Hsleep sur sirets au)
    with (st := Trace.push st1 (Tally.mode_line a au (length sirets)))
    as [e1 [Ht1 He1]].
  - intros s Hs. constructor; [|constructor]. cbn. split; [reflexivity|].
    now exists s.
  - intros p h l _. repeat constructor.
  - intros c. unfold Drawn.bar_of, Drawn.call.
    destruct (Progress.tqdm sur); repeat constructor.
  - exists (e1 ++ e2)%list. split.
    + unfold Progress.main. rewrite Ht2, Ht1. cbn [trace Trace.push].
      now rewrite <- !app_assoc.
    + now apply Forall_app.
Qed.

(** C5, amended.  Each credential is the command-line value if there is one, else the
    environment variable, else the value of the [.env] file.  When the
    input holds at least one valid identifier, the run of [main] follows
    the credentials: with an API key it operates in API-key mode -- it
    logs the line [Mode: API-KEY (v...)], asks for no token and sends
    every lookup to the API-key base with the key in its headers;
    otherwise, with a client id and a client secret, its first event is
    the token request with that pair, and once the token is given it
    operates in OAuth2 mode -- it logs [Mode: OAUTH2] and sends every
    lookup to the OAuth2 base with the bearer token -- while a refused
    token request ends the run with that exception; otherwise the run
    logs a message for the user and exits with status 1 without any
    network activity.  An API key that only the [.env] file provides
    selects the API-key mode.  When the input holds no valid identifier
    the run exits with status 0 before any credential is looked at. *)
Theorem C5_credential_resolution (repr : json -> string) (w : world)
    (a : Progress.args) (sur : Progress.surroundings) :
  let file := Progress.env_get (Progress.read_env_file (Progress.dotenv sur)) in
  let key := Progress.resolve_api_key a sur in
  let cid := Progress.resolve_client_id a sur in
  let secret := Progress.resolve_client_secret a sur in
  let first := fun cli env fil : option string =>
    if Progress.truthy cli then cli
    else if Progress.truthy env then env else fil in
  let run := Progress.main repr w a sur initial in
  let ask := Post Progress.TOKEN_URL (Progress.text_of cid)
               (Progress.text_of secret) in
  (key = first (Progress.api_key a) (Progress.getenv sur "INSEE_API_KEY")
           (file "INSEE_API_KEY")
   /\ cid = first (Progress.client_id a) (Progress.getenv sur "INSEE_CLIENT_ID")
              (file "INSEE_CLIENT_ID")
   /\ secret = first (Progress.client_secret a)
                 (Progress.getenv sur "INSEE_CLIENT_SECRET")
                 (file "INSEE_CLIENT_SECRET"))
  /\ (forall sirets,
        Progress.load_sirets (Progress.pandas sur) (Progress.input_file sur)
        = Ok sirets ->
        sirets <> [] ->
        (Progress.truthy key = true ->
         Mode.operates a (Mode.with_key a (Progress.text_of key)) sirets [] run)
        /\ (Progress.truthy key = false ->
            Progress.truthy cid = true -> Progress.truthy secret = true ->
            Invariant.starts_with ask (Progress.main repr w a sur) initial
            /\ (forall token,
                  Logs.token_outcome Progress.TOKEN_URL (http_post w 0%nat)
                  = Done token ->
                  Mode.operates a (Mode.with_token repr a token) sirets [ask] run)
            /\ (forall e,
                  Logs.token_outcome Progress.TOKEN_URL (http_post w 0%nat)
                  = Raised e ->
                  run = (Raised e, Trace.push initial [ask])
                  /\ Eff.exit_status (fst run) = Some 1))
        /\ (Progress.truthy key = false ->
            Progress.truthy cid = false \/ Progress.truthy secret = false ->
            run = (Exited 1, Trace.push initial (Logs.lines a Logs.no_credentials))
            /\ Eff.exit_status (fst run) = Some 1
            /\ Forall (fun ev => Trace.is_network ev = false) (trace (snd run))))
  /\ (Progress.load_sirets (Progress.pandas sur) (Progress.input_file sur) = Ok [] ->
      run = (Exited 0, Trace.push initial (Logs.lines a Logs.no_valid_siret))
      /\ Eff.exit_status (fst run) = Some 0)
  /\ Mode.operates (Config.default None)
       (Mode.with_key (Config.default None) "abc") [Sample.siret1] []
       (Progress.main repr w (Config.default None)
          {| Progress.getenv := fun _ => None;
             Progress.dotenv := Some "INSEE_API_KEY=abc";
             Progress.input_file := Some [Some Sample.siret1];
             Progress.pandas := Loader.Pandas3;
             Progress.tqdm := true;
             Progress.excel_writer := fun _ _ => None |} initial)
  /\ Progress.mode (Mode.with_key (Config.default None) "abc") = "API-KEY (v3.11)".
Proof.
  intros file key cid secret first run ask.
  destruct (startup_modes repr w a sur initial)
    as [Horder [Hk [Ho [Hn _]]]].
  split; [exact Horder|]. split; [|split; [|split]].
  - intros sirets Hload Hsome. split; [|split].
    + intros Hkey.
      exact (operates_after_startup repr w a sur sirets _ initial Hload Hsome
               (Hk Hkey)).
    + intros Hkey Hcid Hsecret.
      destruct (Ho Hkey Hcid Hsecret) as [o [Hstart Htok]].
      fold cid secret in Hstart, Htok. fold ask in Hstart.
      assert (Hcases :
                (exists t, Logs.token_outcome Progress.TOKEN_URL (http_post w 0%nat)
                           = Done t)
                \/ (exists e, Logs.token_outcome Progress.TOKEN_URL (http_post w 0%nat)
                              = Raised e)).
      { unfold Logs.token_outcome. destruct (http_post w 0%nat) as [e|r]; [eauto|].
        destruct (_ && _); [eauto|]. destruct (_ && _); [eauto|].
        destruct (body r) as [js|e]; [|eauto].
        destruct (Py.get js "access_token"); eauto. }
      assert (Hdone : forall token,
                 Logs.token_outcome Progress.TOKEN_URL (http_post w 0%nat)
                 = Done token ->
                 Mode.operates a (Mode.with_token repr a token) sirets [ask] run).
      { intros token Ht. specialize (Htok token Ht). subst o.
        exact (operates_after_startup repr w a sur sirets _ _ Hload Hsome
                 Hstart). }
      assert (Hraised : forall e,
                 Logs.token_outcome Progress.TOKEN_URL (http_post w 0%nat)
                 = Raised e ->
                 run = (Raised e, Trace.push initial [ask])).
      { intros e He.
        assert (Hst : Progress.startup repr w a sur initial
                      = (Raised e, Trace.push initial [ask])).
        { unfold Progress.startup. fold key cid secret.
          rewrite Hkey, Hcid, Hsecret. cbn [negb orb].
          unfold Eff.bind. rewrite get_token_outcome.
          cbn [posts initial]. now rewrite He. }
        assert (Htotal : (Z.of_nat (length sirets) =? 0) = false).
        { apply Z.eqb_neq. destruct sirets; [contradiction|]. cbn [length]. lia. }
        unfold run. rewrite main_run. unfold Progress.collect.
        rewrite Hload. cbn [Eff.lift].
        erewrite bind_done by reflexivity. cbv zeta. rewrite Htotal.
        erewrite bind_done by reflexivity.
        unfold Eff.bind at 1. now rewrite Hst. }
      split; [|split; [exact Hdone|]].
      * destruct Hcases as [[t Ht]|[e He]].
        -- destruct (Hdone t Ht) as [evs [Htr _]]. unfold run in Htr.
           eexists. rewrite Htr. cbn [trace initial app]. reflexivity.
        -- exists []. fold run. rewrite (Hraised e He). reflexivity.
      * intros e He. split; [now apply Hraised|].
        now rewrite (Hraised e He).
    + intros Hkey Hmiss.
      assert (Hrun : run = (Exited 1,
                            Trace.push initial (Logs.lines a Logs.no_credentials))).
      { exact (progress_without_credentials repr w a sur sirets Hload Hsome
                 Hkey Hmiss). }
      rewrite Hrun. split; [reflexivity|]. split; [reflexivity|].
      cbn [snd trace Trace.push initial app]. apply log_lines_local.
  - intros Hload. unfold run.
    rewrite (main_without_identifier repr w a sur initial Hload).
    split; reflexivity.
  - apply (operates_after_startup repr w (Config.default None) _
             [Sample.siret1] _ initial); [reflexivity|discriminate|reflexivity].
  - reflexivity.
Qed.

(** With no valid identifier and no credential at all, the run exits with
    status 0 and not with a non-zero one: the credentials are not looked
    at. *)
Lemma C5_counterexample_no_valid_identifier :
  Progress.truthy (Progress.resolve_api_key (Config.default None)
                     (Config.bare [Some "123"])) = false
  /\ Progress.truthy (Progress.resolve_client_id (Config.default None)
                        (Config.bare [Some "123"])) = false
  /\ Progress.truthy (Progress.resolve_client_secret (Config.default None)
                        (Config.bare [Some "123"])) = false
  /\ Progress.main Sample.repr0 (Config.always Sample.ok) (Config.default None)
       (Config.bare [Some "123"]) initial
     = (Exited 0,
        {| gets := 0; posts := 0;
           trace := [Stdout Logs.no_valid_siret];
           shared_headers := [] |})
  /\ Eff.exit_status
       (fst (Progress.main Sample.repr0 (Config.always Sample.ok)
               (Config.default None) (Config.bare [Some "123"]) initial))
     = Some 0
  /\ Eff.exit_status
       (fst (Progress.main Sample.repr0 (Config.always Sample.ok)
               (Config.default None) (Config.bare [Some "123"]) initial))
     <> Some 1.
Proof. vm_compute. repeat split; discriminate. Qed.
